(** * Query-plan normalisation of OLAPBench: the ClickHouse and SQL Server parsers

    A shallow embedding of [queryplan/queryoperator.py],
    [queryplan/parsers/clickhouseparser.py] and
    [queryplan/parsers/sqlserverparser.py], and of [unfold] of
    [util/template.py].

    Python values are a datatype [pyval]; a call that can raise returns a
    [result]; the per-instance id counter [op_counter] is threaded through the
    calls that read and advance it.  Recursion over the raw plan is bounded by
    a [fuel] argument, the interpreter's recursion limit: running out of it is
    [RecursionError].  Text is ASCII: case mapping, white space and digits are
    those of the ASCII range.  The interpreter's bound on the number of digits
    of a conversion between text and integer is not modelled. *)

From Stdlib Require Import ZArith List String Ascii Bool Lia DecimalString SpecFloat.
Import ListNotations.
Open Scope list_scope.
Open Scope string_scope.
Open Scope Z_scope.

(** ** Exceptions and results *)

Inductive exn : Type :=
| TypeError
| ValueError (msg : string)
| OverflowError
| AttributeError
| KeyError
| IndexError
| RecursionError
| ParseError.

Inductive result (A : Type) : Type :=
| Ok (a : A)
| Raise (e : exn).

Arguments Ok {A} a.
Arguments Raise {A} e.

Definition bind {A B : Type} (m : result A) (k : A -> result B) : result B :=
  match m with
  | Ok a => k a
  | Raise e => Raise e
  end.

Notation "x <- m ;; k" := (bind m (fun x => k))
  (at level 61, m at next level, right associativity).
Notation "' p <- m ;; k" := (bind m (fun x => match x with p => k end))
  (at level 61, p pattern, m at next level, right associativity).

(** [try: body except Exception: handler]. *)
Definition try_except {A : Type} (body : result A) (handler : A) : A :=
  match body with
  | Ok a => a
  | Raise _ => handler
  end.

(** ** Strings *)

Module Str.

Definition code (c : ascii) : nat := nat_of_ascii c.

Definition is_upper (c : ascii) : bool := (65 <=? code c)%nat && (code c <=? 90)%nat.
Definition is_lower (c : ascii) : bool := (97 <=? code c)%nat && (code c <=? 122)%nat.
Definition is_digit (c : ascii) : bool := (48 <=? code c)%nat && (code c <=? 57)%nat.

(** [str.isspace] on one character of the ASCII range. *)
Definition is_space (c : ascii) : bool :=
  ((9 <=? code c)%nat && (code c <=? 13)%nat)
  || ((28 <=? code c)%nat && (code c <=? 32)%nat).

Definition lower_ascii (c : ascii) : ascii :=
  if is_upper c then ascii_of_nat (code c + 32) else c.
Definition upper_ascii (c : ascii) : ascii :=
  if is_lower c then ascii_of_nat (code c - 32) else c.

Fixpoint lower (s : string) : string :=
  match s with
  | EmptyString => EmptyString
  | String c r => String (lower_ascii c) (lower r)
  end.

Fixpoint upper (s : string) : string :=
  match s with
  | EmptyString => EmptyString
  | String c r => String (upper_ascii c) (upper r)
  end.

Definition startswith (s p : string) : bool := prefix p s.

(** [sub in s]. *)
Fixpoint contains (sub s : string) : bool :=
  prefix sub s ||
  match s with
  | EmptyString => false
  | String _ r => contains sub r
  end.

Definition is_empty (s : string) : bool :=
  match s with EmptyString => true | _ => false end.

Fixpoint lstrip (s : string) : string :=
  match s with
  | String c r => if is_space c then lstrip r else s
  | EmptyString => EmptyString
  end.

Fixpoint rstrip (s : string) : string :=
  match s with
  | EmptyString => EmptyString
  | String c r =>
      let r' := rstrip r in
      if is_space c && is_empty r' then EmptyString else String c r'
  end.

Definition strip (s : string) : string := rstrip (lstrip s).

(** The white space that [int] and [float] skip around an ASCII text: that
    of the C locale, which lacks the separators 28 to 31 of [str.strip]. *)
Definition is_c_space (c : ascii) : bool :=
  ((9 <=? code c)%nat && (code c <=? 13)%nat) || (code c =? 32)%nat.

Fixpoint lskip (s : string) : string :=
  match s with
  | String c r => if is_c_space c then lskip r else s
  | EmptyString => EmptyString
  end.

Fixpoint rskip (s : string) : string :=
  match s with
  | EmptyString => EmptyString
  | String c r =>
      let r' := rskip r in
      if is_c_space c && is_empty r' then EmptyString else String c r'
  end.

Definition skip_space (s : string) : string := rskip (lskip s).

Fixpoint drop (n : nat) (s : string) : string :=
  match n, s with
  | O, _ => s
  | S n', String _ r => drop n' r
  | S _, EmptyString => EmptyString
  end.

Definition removeprefix (s p : string) : string :=
  if prefix p s then drop (String.length p) s else s.

(** [s.split(sep)] for a one-character separator. *)
Fixpoint split (sep : ascii) (s : string) : list string :=
  match s with
  | EmptyString => [EmptyString]
  | String c r =>
      if Ascii.eqb c sep then EmptyString :: split sep r
      else match split sep r with
           | [] => [String c EmptyString]
           | h :: t => String c h :: t
           end
  end.

(** [sep.join(parts)]. *)
Fixpoint join (sep : string) (parts : list string) : string :=
  match parts with
  | [] => EmptyString
  | [p] => p
  | p :: rest => p ++ sep ++ join sep rest
  end.

Definition of_Z (z : Z) : string := NilZero.string_of_int (Z.to_int z).

Definition digit_of (c : ascii) : option Z :=
  if is_digit c then Some (Z.of_nat (code c - 48)) else None.

(** A run of decimal digits in which single underscores may separate digits,
    read to the end of the text ([prev] says that the last character read was
    a digit). *)
Fixpoint digits_to_end (s : string) (acc : Z) (prev : bool) : option Z :=
  match s with
  | EmptyString => if prev then Some acc else None
  | String c r =>
      match digit_of c with
      | Some d => digits_to_end r (10 * acc + d) true
      | None =>
          if Ascii.eqb c "_" && prev then digits_to_end r acc false else None
      end
  end.

(** The same run read as far as it goes: its value, the number of digits and
    what follows it; [None] when an underscore is not between two digits. *)
Fixpoint digits_run (s : string) (acc : Z) (n : nat) (prev : bool)
  : option (Z * nat * string) :=
  match s with
  | EmptyString => if prev || (n =? 0)%nat then Some (acc, n, s) else None
  | String c r =>
      match digit_of c with
      | Some d => digits_run r (10 * acc + d) (S n) true
      | None =>
          if Ascii.eqb c "_" then
            if prev then digits_run r acc n false else None
          else if prev || (n =? 0)%nat then Some (acc, n, s) else None
      end
  end.

End Str.

(** ** Binary64 numbers, as far as [int(float(x))] needs them *)

Module Float.

(** [n / d], for positive [n] and [d], rounded to the nearest binary64 number,
    ties to even. *)
Definition round (neg : bool) (n d : Z) : spec_float :=
  let e1 := Z.max (-1074) (Z.log2 n - Z.log2 d - 53) in
  let q1 := if 0 <=? e1 then n / (d * 2 ^ e1) else (n * 2 ^ (- e1)) / d in
  let e := if 2 ^ 53 <=? q1 then e1 + 1 else e1 in
  let num := if 0 <=? e then n else n * 2 ^ (- e) in
  let den := if 0 <=? e then d * 2 ^ e else d in
  let m0 := num / den in
  let r := num mod den in
  let m := if (den <? 2 * r) || ((2 * r =? den) && Z.odd m0) then m0 + 1 else m0 in
  if m =? 0 then S754_zero neg
  else if 1024 <=? Z.log2 m + e then S754_infinity neg
  else S754_finite neg (Z.to_pos m) e.

(** The decimal [mant * 10 ^ dexp] as a binary64 number. *)
Definition of_decimal (neg : bool) (mant dexp : Z) : spec_float :=
  if mant =? 0 then S754_zero neg
  else if 0 <=? dexp then round neg (mant * 10 ^ dexp) 1
  else round neg mant (10 ^ (- dexp)).

(** The text after the strip and the sign: [inf], [infinity], [nan] or a
    decimal literal with an optional fraction and exponent. *)
Definition of_unsigned (neg : bool) (s : string) : option spec_float :=
  let l := Str.lower s in
  if String.eqb l "inf" || String.eqb l "infinity" then Some (S754_infinity neg)
  else if String.eqb l "nan" then Some S754_nan
  else
    match Str.digits_run s 0 0 false with
    | None => None
    | Some (vi, ni, rest1) =>
        let frac :=
          match rest1 with
          | String "." r => Str.digits_run r 0 0 false
          | _ => Some (0, O, rest1)
          end in
        match frac with
        | None => None
        | Some (vf, nf, rest2) =>
            if (ni + nf =? 0)%nat then None
            else
              let mant := vi * 10 ^ Z.of_nat nf + vf in
              match rest2 with
              | EmptyString => Some (of_decimal neg mant (- Z.of_nat nf))
              | String c r =>
                  if Ascii.eqb c "e" || Ascii.eqb c "E" then
                    let '(eneg, r') :=
                      match r with
                      | String "+" t => (false, t)
                      | String "-" t => (true, t)
                      | _ => (false, r)
                      end in
                    match Str.digits_to_end r' 0 false with
                    | Some ev =>
                        Some (of_decimal neg mant
                                ((if eneg then - ev else ev) - Z.of_nat nf))
                    | None => None
                    end
                  else None
              end
        end
    end.

(** [float(s)] for a text [s]; [None] is [ValueError]. *)
Definition of_str (s : string) : option spec_float :=
  match Str.skip_space s with
  | String "+" r => of_unsigned false r
  | String "-" r => of_unsigned true r
  | t => of_unsigned false t
  end.

(** [int(f)]: truncation towards zero. *)
Definition to_int (f : spec_float) : result Z :=
  match f with
  | S754_zero _ => Ok 0
  | S754_infinity _ => Raise OverflowError
  | S754_nan => Raise (ValueError "cannot convert float NaN to integer")
  | S754_finite s m e =>
      let v := if 0 <=? e then Z.pos m * 2 ^ e else Z.pos m / 2 ^ (- e) in
      Ok (if s then - v else v)
  end.

(** [float(z)] for an integer [z]. *)
Definition of_Z (z : Z) : result spec_float :=
  if z =? 0 then Ok (S754_zero false)
  else
    match round (z <? 0) (Z.abs z) 1 with
    | S754_infinity _ => Raise OverflowError
    | f => Ok f
    end.

Definition is_zero (f : spec_float) : bool :=
  match f with S754_zero _ => true | _ => false end.

End Float.

(** ** Python values *)

Set Warnings "-register-all".

(** What [json.loads], a row of the database driver and the parsers' own
    dictionaries hold.  A float carries the text [str] gives for it next to
    its binary64 value; a dictionary is the list of its items in insertion
    order, its keys are texts. *)
Inductive pyval : Type :=
| PNone
| PBool (b : bool)
| PInt (z : Z)
| PFloat (f : spec_float) (repr : string)
| PStr (s : string)
| PList (l : list pyval)
| PDict (d : list (string * pyval)).

Module Py.

Definition dquote : ascii := ascii_of_nat 34.
Definition squote : ascii := ascii_of_nat 39.
Definition backslash : ascii := ascii_of_nat 92.

Definition hex_digit (n : nat) : ascii :=
  if (n <? 10)%nat then ascii_of_nat (48 + n) else ascii_of_nat (87 + n).

Fixpoint escape (q : ascii) (s : string) : string :=
  match s with
  | EmptyString => EmptyString
  | String c r =>
      let n := Str.code c in
      (if Ascii.eqb c backslash || Ascii.eqb c q then String backslash (String c EmptyString)
       else if (n =? 10)%nat then String backslash "n"
       else if (n =? 13)%nat then String backslash "r"
       else if (n =? 9)%nat then String backslash "t"
       else if (n <? 32)%nat || (n =? 127)%nat then
         String backslash (String "x" (String (hex_digit (n / 16)) (String (hex_digit (n mod 16)) EmptyString)))
       else String c EmptyString) ++ escape q r
  end.

(** [repr(s)] of a text. *)
Definition repr_str (s : string) : string :=
  let q :=
    if Str.contains (String squote EmptyString) s
       && negb (Str.contains (String dquote EmptyString) s)
    then dquote else squote in
  String q (escape q s ++ String q EmptyString).

Fixpoint repr (v : pyval) : string :=
  match v with
  | PNone => "None"
  | PBool true => "True"
  | PBool false => "False"
  | PInt z => Str.of_Z z
  | PFloat _ r => r
  | PStr s => repr_str s
  | PList l =>
      "[" ++ (fix items (l : list pyval) : string :=
                match l with
                | [] => EmptyString
                | x :: rest =>
                    match rest with
                    | [] => repr x
                    | _ :: _ => repr x ++ ", " ++ items rest
                    end
                end) l ++ "]"
  | PDict d =>
      "{" ++ (fix items (d : list (string * pyval)) : string :=
                match d with
                | [] => EmptyString
                | (k, x) :: rest =>
                    match rest with
                    | [] => repr_str k ++ ": " ++ repr x
                    | _ :: _ => repr_str k ++ ": " ++ repr x ++ ", " ++ items rest
                    end
                end) d ++ "}"
  end.

(** [str(v)]. *)
Definition str (v : pyval) : string :=
  match v with
  | PStr s => s
  | _ => repr v
  end.

(** [bool(v)]. *)
Definition truthy (v : pyval) : bool :=
  match v with
  | PNone => false
  | PBool b => b
  | PInt z => negb (z =? 0)
  | PFloat f _ => negb (Float.is_zero f)
  | PStr s => negb (Str.is_empty s)
  | PList l => match l with [] => false | _ => true end
  | PDict d => match d with [] => false | _ => true end
  end.

(** [a or b]. *)
Definition or (a b : pyval) : pyval := if truthy a then a else b.

Definition is_none (v : pyval) : bool :=
  match v with PNone => true | _ => false end.
Definition is_str (v : pyval) : bool :=
  match v with PStr _ => true | _ => false end.
Definition is_dict (v : pyval) : bool :=
  match v with PDict _ => true | _ => false end.

(** [v == s] for a text [s]. *)
Definition eq_str (v : pyval) (s : string) : bool :=
  match v with PStr t => String.eqb t s | _ => false end.

(** [int(s)] for a text [s]; [None] is [ValueError]. *)
Definition int_of_str (s : string) : option Z :=
  match Str.skip_space s with
  | String "+" r => Str.digits_to_end r 0 false
  | String "-" r => option_map Z.opp (Str.digits_to_end r 0 false)
  | t => Str.digits_to_end t 0 false
  end.

(** [int(v)]. *)
Definition int (v : pyval) : result Z :=
  match v with
  | PNone => Raise TypeError
  | PBool b => Ok (if b then 1 else 0)
  | PInt z => Ok z
  | PFloat f _ => Float.to_int f
  | PStr s =>
      match int_of_str s with
      | Some z => Ok z
      | None => Raise (ValueError "invalid literal for int() with base 10")
      end
  | PList _ | PDict _ => Raise TypeError
  end.

(** [float(v)]. *)
Definition float (v : pyval) : result spec_float :=
  match v with
  | PNone => Raise TypeError
  | PBool b => if b then Float.of_Z 1 else Float.of_Z 0
  | PInt z => Float.of_Z z
  | PFloat f _ => Ok f
  | PStr s =>
      match Float.of_str s with
      | Some f => Ok f
      | None => Raise (ValueError "could not convert string to float")
      end
  | PList _ | PDict _ => Raise TypeError
  end.

(** Dictionaries as item lists. *)
Fixpoint lookup {V : Type} (k : string) (d : list (string * V)) : option V :=
  match d with
  | [] => None
  | (k', v) :: rest => if String.eqb k k' then Some v else lookup k rest
  end.

Definition has_key {V : Type} (k : string) (d : list (string * V)) : bool :=
  match lookup k d with Some _ => true | None => false end.

(** [d[k] = v]: an existing key keeps its place. *)
Fixpoint set {V : Type} (k : string) (v : V) (d : list (string * V)) : list (string * V) :=
  match d with
  | [] => [(k, v)]
  | (k', v') :: rest =>
      if String.eqb k k' then (k, v) :: rest else (k', v') :: set k v rest
  end.

(** [d.pop(k)] for a key that is present. *)
Fixpoint remove {V : Type} (k : string) (d : list (string * V)) : list (string * V) :=
  match d with
  | [] => []
  | (k', v') :: rest =>
      if String.eqb k k' then remove k rest else (k', v') :: remove k rest
  end.

(** [d.get(k)] and [d.get(k, default)] on a dictionary. *)
Definition dget (d : list (string * pyval)) (k : string) : pyval :=
  match lookup k d with Some v => v | None => PNone end.
Definition dget_default (d : list (string * pyval)) (k : string) (default : pyval) : pyval :=
  match lookup k d with Some v => v | None => default end.

(** [v.get(k)] on any value: only a dictionary has the method. *)
Definition get (v : pyval) (k : string) : result pyval :=
  match v with
  | PDict d => Ok (dget d k)
  | _ => Raise AttributeError
  end.
Definition get_default (v : pyval) (k : string) (default : pyval) : result pyval :=
  match v with
  | PDict d => Ok (dget_default d k default)
  | _ => Raise AttributeError
  end.

(** [v.lower()]: only a text has the method. *)
Definition lower (v : pyval) : result string :=
  match v with
  | PStr s => Ok (Str.lower s)
  | _ => Raise AttributeError
  end.

Fixpoint chars (s : string) : list pyval :=
  match s with
  | EmptyString => []
  | String c r => PStr (String c EmptyString) :: chars r
  end.

(** [v[0]]. *)
Definition first (v : pyval) : result pyval :=
  match v with
  | PList (x :: _) => Ok x
  | PList [] => Raise IndexError
  | PStr (String c _) => Ok (PStr (String c EmptyString))
  | PStr EmptyString => Raise IndexError
  | PDict _ => Raise KeyError
  | _ => Raise TypeError
  end.

(** The values [for x in v] visits. *)
Definition iter (v : pyval) : result (list pyval) :=
  match v with
  | PList l => Ok l
  | PStr s => Ok (chars s)
  | PDict d => Ok (map (fun kv => PStr (fst kv)) d)
  | _ => Raise TypeError
  end.

(** [len(v)]. *)
Definition len (v : pyval) : result nat :=
  match v with
  | PList l => Ok (List.length l)
  | PStr s => Ok (String.length s)
  | PDict d => Ok (List.length d)
  | _ => Raise TypeError
  end.

(** [sep.join(parts)]: every part has to be a text. *)
Fixpoint texts (parts : list pyval) : result (list string) :=
  match parts with
  | [] => Ok []
  | PStr s :: rest => ss <- texts rest ;; Ok (s :: ss)
  | _ :: _ => Raise TypeError
  end.

End Py.

(** ** The operator taxonomy ([queryplan/queryoperator.py]) *)

(** The two engine tags that the parsers below pass to [fill]; the branches
    of [fill] for the other tags of [DBMSType] (Umbra, Postgres, Hyper,
    DuckDB) are not embedded. *)
Inductive DBMSType : Type :=
| ClickHouse
| SQLServer.

Module OperatorType.
Inductive t : Type :=
| Result | TableScan | InlineTable | Temp | PipelineBreakerScan
| Select | Map | Sort | GroupBy | Join
| GroupJoin | EarlyProbe | SetOperation | Window
| Iteration | IterationScan
| ArrayUnnest | RegexSplit
| Subquery
| CustomOperator.

Definition eqb (a b : t) : bool :=
  match a, b with
  | Result, Result | TableScan, TableScan | InlineTable, InlineTable
  | Temp, Temp | PipelineBreakerScan, PipelineBreakerScan
  | Select, Select | Map, Map | Sort, Sort | GroupBy, GroupBy | Join, Join
  | GroupJoin, GroupJoin | EarlyProbe, EarlyProbe
  | SetOperation, SetOperation | Window, Window
  | Iteration, Iteration | IterationScan, IterationScan
  | ArrayUnnest, ArrayUnnest | RegexSplit, RegexSplit
  | Subquery, Subquery | CustomOperator, CustomOperator => true
  | _, _ => false
  end.
End OperatorType.

(** The operator classes the two parsers instantiate, each with the
    attributes its constructor sets. *)
Inductive QueryOperator : Type :=
| Result (operator_id : pyval)
| TableScan (operator_id table_name table_size type_ : pyval)
| Select (operator_id : pyval)
| Map (operator_id : pyval)
| Sort (operator_id limit : pyval)
| GroupBy (operator_id method : pyval)
| Join (operator_id type_ method : pyval)
| SetOperation (operator_id type_ : pyval) (active : bool)
| ArrayUnnest (operator_id : pyval)
| CustomOperator (name operator_id limit : pyval).

Definition operator_type (op : QueryOperator) : OperatorType.t :=
  match op with
  | Result _ => OperatorType.Result
  | TableScan _ _ _ _ => OperatorType.TableScan
  | Select _ => OperatorType.Select
  | Map _ => OperatorType.Map
  | Sort _ _ => OperatorType.Sort
  | GroupBy _ _ => OperatorType.GroupBy
  | Join _ _ _ => OperatorType.Join
  | SetOperation _ _ _ => OperatorType.SetOperation
  | ArrayUnnest _ => OperatorType.ArrayUnnest
  | CustomOperator _ _ _ => OperatorType.CustomOperator
  end.

Definition operator_id (op : QueryOperator) : pyval :=
  match op with
  | Result i | TableScan i _ _ _ | Select i | Map i | Sort i _ | GroupBy i _
  | Join i _ _ | SetOperation i _ _ | ArrayUnnest i | CustomOperator _ i _ => i
  end.

(** [getattr(operator, "name", "")]. *)
Definition name_of (op : QueryOperator) : pyval :=
  match op with
  | CustomOperator n _ _ => n
  | _ => PStr ""
  end.

(** [getattr(operator, "limit", None)]. *)
Definition limit_of (op : QueryOperator) : pyval :=
  match op with
  | Sort _ l => l
  | CustomOperator _ _ l => l
  | _ => PNone
  end.

(** [operator.limit = v]: a class without the attribute gains it, which the
    record of its class does not show. *)
Definition set_limit (op : QueryOperator) (v : pyval) : QueryOperator :=
  match op with
  | Sort i _ => Sort i v
  | CustomOperator n i _ => CustomOperator n i v
  | _ => op
  end.

(** [int(limit_val) if limit_val is not None else None], and [limit_val]
    itself when the conversion raises. *)
Definition limit_value (limit_val : pyval) : pyval :=
  try_except
    (if Py.is_none limit_val then Ok PNone
     else z <- Py.int limit_val ;; Ok (PInt z))
    limit_val.

(** [plan.get("Limit") or plan.get("limit") or plan.get("rows_limit") or
    plan.get("RowsRead")]. *)
Definition clickhouse_limit_val (plan : pyval) : result pyval :=
  a <- Py.get plan "Limit" ;;
  if Py.truthy a then Ok a else
  b <- Py.get plan "limit" ;;
  if Py.truthy b then Ok b else
  c <- Py.get plan "rows_limit" ;;
  if Py.truthy c then Ok c else
  Py.get plan "RowsRead".

Module TableScan_.

(** The first three parts of a dotted name of three parts or more. *)
Definition trim_index_names (table_name : pyval) : pyval :=
  match table_name with
  | PStr s =>
      if Py.truthy table_name then
        let parts := Str.split "." s in
        if (3 <=? List.length parts)%nat
        then PStr (Str.join "." (firstn 3 parts))
        else table_name
      else table_name
  | _ => table_name
  end.

Definition fill_clickhouse (plan : pyval) (table_name0 : pyval) : result pyval :=
  s1 <- Py.get plan "Storage" ;;
  storage <- (if Py.truthy s1 then Ok s1 else
              s2 <- Py.get plan "storage" ;;
              Ok (Py.or s2 (PDict []))) ;;
  let table_name1 :=
    match storage with
    | PDict d => Py.dget d "Table"
    | _ => table_name0
    end in
  table_name2 <- (if negb (Py.truthy table_name1) then Py.get plan "Table"
                  else Ok table_name1) ;;
  let table_name3 := trim_index_names table_name2 in
  if negb (Py.truthy table_name3) && Py.is_dict plan then
    d1 <- Py.get plan "Description" ;;
    description <- (if Py.truthy d1 then Ok d1 else Py.get plan "description") ;;
    match description with
    | PStr s =>
        if negb (Str.is_empty (Str.strip s))
        then Ok (PStr (Str.removeprefix (Str.strip s) "clickhouse."))
        else Ok table_name3
    | _ => Ok table_name3
    end
  else Ok table_name3.

(** The last element of [s.split(".")]. *)
Definition base_name (s : string) : string :=
  last (Str.split "." s) EmptyString.

Definition fill_sqlserver (plan : pyval) (table_name0 : pyval) : result pyval :=
  obj <- Py.get plan "object" ;;
  table_name1 <-
    match obj with
    | PDict o =>
        let table := Py.or (Py.dget o "Table") (Py.dget o "table") in
        let schema := Py.or (Py.dget o "Schema") (Py.dget o "schema") in
        let db := Py.or (Py.dget o "Database") (Py.dget o "database") in
        parts <- Py.texts (filter Py.truthy [db; schema; table]) ;;
        Ok (PStr (Str.join "." parts))
    | PStr s => Ok obj
    | _ => Ok table_name0
    end ;;
  table_name2 <- (if negb (Py.truthy table_name1) then Py.get plan "Table"
                  else Ok table_name1) ;;
  match table_name2 with
  | PStr s => if Py.truthy table_name2 then Ok (PStr (base_name s)) else Ok table_name2
  | _ => Ok table_name2
  end.

End TableScan_.

Module Join_.

(** The join type read off the description, in the order of the checks. *)
Definition type_of_description (description : string) : pyval :=
  if Str.contains "left" description then PStr "leftouter"
  else if Str.contains "right" description then PStr "rightouter"
  else if Str.contains "full" description then PStr "fullouter"
  else if Str.contains "semi" description then PStr "semi"
  else if Str.contains "anti" description then PStr "anti"
  else if Str.contains "cross" description then PStr "cross"
  else if Str.contains "inner" description then PStr "inner"
  else if negb (Str.is_empty description) then PStr "inner"
  else PNone.

Definition method_of_algorithm (algorithm : pyval) (method0 : pyval) : pyval :=
  match algorithm with
  | PStr a =>
      let algo_lower := Str.lower a in
      if Str.contains "hash" algo_lower then PStr "hash"
      else if Str.contains "merge" algo_lower then PStr "merge"
      else if Str.contains "nested" algo_lower || Str.contains "loop" algo_lower
      then PStr "nl"
      else method0
  | _ => method0
  end.

Definition fill_clickhouse (plan : pyval) (type0 method0 : pyval)
  : result (pyval * pyval) :=
  d <- Py.get_default plan "Description" (PStr "") ;;
  let description := Str.lower (Py.str d) in
  t3 <- Py.get plan "Type" ;;
  t2 <- Py.get_default plan "join_type" t3 ;;
  join_type <- Py.get_default plan "Join" t2 ;;
  let type1 :=
    match join_type with
    | PStr s => PStr (Str.lower s)
    | _ => type0
    end in
  let type2 :=
    if Py.is_none type1 then type_of_description description else type1 in
  a1 <- Py.get plan "Algorithm" ;;
  algorithm <- (if Py.truthy a1 then Ok a1 else Py.get plan "algorithm") ;;
  Ok (type2, method_of_algorithm algorithm method0).

Definition fill_sqlserver (plan : pyval) (type0 method0 : pyval)
  : result (pyval * pyval) :=
  t <- Py.get_default plan "join_type" type0 ;;
  m <- Py.get_default plan "join_method" method0 ;;
  Ok (t, m).

End Join_.

(** [operator.fill(plan, dbms_type)]: the operator with its attributes set. *)
Definition fill (self : QueryOperator) (plan : pyval) (dbms_type : DBMSType)
  : result QueryOperator :=
  match self with
  | Result _ | Select _ | Map _ | ArrayUnnest _ | SetOperation _ _ _ => Ok self
  | TableScan i table_name table_size type_ =>
      match dbms_type with
      | ClickHouse =>
          n <- TableScan_.fill_clickhouse plan table_name ;;
          Ok (TableScan i n table_size type_)
      | SQLServer =>
          n <- TableScan_.fill_sqlserver plan table_name ;;
          Ok (TableScan i n table_size type_)
      end
  | Sort i limit =>
      match dbms_type with
      | ClickHouse =>
          limit_val <- clickhouse_limit_val plan ;;
          Ok (Sort i (limit_value limit_val))
      | SQLServer =>
          limit_val <- Py.get plan "limit" ;;
          Ok (Sort i (limit_value limit_val))
      end
  | GroupBy i method =>
      match dbms_type with
      | ClickHouse =>
          m1 <- Py.get plan "method" ;;
          m <- (if Py.truthy m1 then Ok m1 else Py.get plan "Method") ;;
          Ok (GroupBy i m)
      | SQLServer =>
          m <- Py.get plan "agg_method" ;;
          Ok (GroupBy i m)
      end
  | Join i type_ method =>
      match dbms_type with
      | ClickHouse =>
          ' (t, m) <- Join_.fill_clickhouse plan type_ method ;;
          Ok (Join i t m)
      | SQLServer =>
          ' (t, m) <- Join_.fill_sqlserver plan type_ method ;;
          Ok (Join i t m)
      end
  | CustomOperator name i limit =>
      match dbms_type with
      | ClickHouse =>
          if Py.eq_str name "Limit" then
            limit_val <- clickhouse_limit_val plan ;;
            Ok (CustomOperator name i (limit_value limit_val))
          else Ok self
      | SQLServer =>
          lname <- Py.lower name ;;
          if String.eqb lname "top" then
            limit_val <- Py.get plan "limit" ;;
            Ok (CustomOperator name i (limit_value limit_val))
          else Ok self
      end
  end.

(** ** Plan nodes and plans *)

(** An element of [xml.etree.ElementTree]: tag, attributes, child elements. *)
Inductive Element : Type :=
| Elem (tag : string) (attrib : list (string * string)) (children : list Element).

(** The [system_representation] of a node: absent, a dictionary or list
    snapshot, the element [ET.tostring] serialises, or a text. *)
Inductive sysrep : Type :=
| SysNone
| SysJson (v : pyval)
| SysXml (e : Element)
| SysText (s : string).

(** Modelled from the spec: [queryplan/plannode.py] is not among the sources.
    Section 3 of the specification gives the two variants of a plan node: a
    leaf (operator, estimated and exact cardinality, optional system
    representation) and an inner node (the same and an ordered sequence of
    child nodes); both are pure data constructors.  The arguments are in the
    order in which the parsers pass them. *)
Inductive PlanNode : Type :=
| LeafNode (operator : QueryOperator)
    (estimated_cardinality exact_cardinality : option Z)
    (system_representation : sysrep)
| InnerNode (operator : QueryOperator)
    (estimated_cardinality exact_cardinality : option Z)
    (children : list PlanNode)
    (system_representation : sysrep).

Definition operator (n : PlanNode) : QueryOperator :=
  match n with LeafNode o _ _ _ | InnerNode o _ _ _ _ => o end.
Definition estimated_cardinality (n : PlanNode) : option Z :=
  match n with LeafNode _ e _ _ | InnerNode _ e _ _ _ => e end.
Definition exact_cardinality (n : PlanNode) : option Z :=
  match n with LeafNode _ _ x _ | InnerNode _ _ x _ _ => x end.
Definition children (n : PlanNode) : list PlanNode :=
  match n with LeafNode _ _ _ _ => [] | InnerNode _ _ _ c _ => c end.
Definition is_leaf (n : PlanNode) : bool :=
  match n with LeafNode _ _ _ _ => true | InnerNode _ _ _ _ _ => false end.

(** [if exact is None: exact = estimated]. *)
Definition default_exact (estimated exact : option Z) : option Z :=
  match exact with None => estimated | Some _ => exact end.

(** [node.operator = op]. *)
Definition set_operator (n : PlanNode) (op : QueryOperator) : PlanNode :=
  match n with
  | LeafNode _ e x s => LeafNode op e x s
  | InnerNode _ e x c s => InnerNode op e x c s
  end.

(** Modelled from the spec: [queryplan/queryplan.py] is not among the
    sources.  Section 3: a query plan is the query text and a root node. *)
Record QueryPlan : Type := mkQueryPlan { text : string; plan : PlanNode }.

(** [[f(child) for child in items]] for an [f] that reads and advances the
    state [S] of the parser. *)
Fixpoint build_each {S A B : Type} (f : S -> A -> result (B * S))
  (self : S) (items : list A) : result (list B * S) :=
  match items with
  | [] => Ok ([], self)
  | x :: rest =>
      ' (y, self1) <- f self x ;;
      ' (ys, self2) <- build_each f self1 rest ;;
      Ok (y :: ys, self2)
  end.

(** [[f(x) for x in items]] for an [f] that leaves the parser as it is. *)
Fixpoint each {A B : Type} (f : A -> result B) (items : list A) : result (list B) :=
  match items with
  | [] => Ok []
  | x :: rest =>
      y <- f x ;;
      ys <- each f rest ;;
      Ok (y :: ys)
  end.

(** ** The ClickHouse parser ([queryplan/parsers/clickhouseparser.py]) *)

Module ClickHouseParser.

Record t : Type := mk { include_system_representation : bool; op_counter : Z }.

Definition child_keys : list string :=
  ["Plans"; "plans"; "Children"; "children"; "sources"].
Definition name_keys : list string :=
  ["Node Type"; "NodeType"; "PlanStep"; "Plan Node Type"; "Name"; "type"; "Step"].
Definition id_keys : list string :=
  ["PlanNodeId"; "Plan Node Id"; "PlanNodeID"; "NodeId"; "Node ID"].

(** The value of the first key of [keys] that is in [d] with a value [ok]
    accepts. *)
Fixpoint first_key (ok : pyval -> bool) (keys : list string)
  (d : list (string * pyval)) : option pyval :=
  match keys with
  | [] => None
  | k :: rest =>
      match Py.lookup k d with
      | Some v => if ok v then Some v else first_key ok rest d
      | None => first_key ok rest d
      end
  end.

Definition _extract_children (plan : pyval) : pyval :=
  match plan with
  | PDict d =>
      match first_key Py.truthy child_keys d with
      | Some v => v
      | None => PList []
      end
  | _ => PList []
  end.

Definition is_leaf_operator (plan : pyval) : result bool :=
  n <- Py.len (_extract_children plan) ;;
  Ok (n =? 0)%nat.

Definition _extract_operator_name (plan : pyval) : pyval :=
  match plan with
  | PDict d =>
      match first_key Py.truthy name_keys d with
      | Some v => v
      | None => Py.dget_default d "plan_node_name" (PStr "Unknown")
      end
  | _ => PStr (Py.str plan)
  end.

Definition next_id (self : t) : pyval * t :=
  (PInt (op_counter self),
   mk (include_system_representation self) (op_counter self + 1)).

Definition _extract_operator_id (self : t) (plan : pyval) : pyval * t :=
  match plan with
  | PDict d =>
      match first_key (fun v => negb (Py.is_none v)) id_keys d with
      | Some v => (try_except (z <- Py.int v ;; Ok (PInt z)) v, self)
      | None => next_id self
      end
  | _ => next_id self
  end.

(** The body of the [try] of [_safe_int]: [int(float(value))] for a text,
    [int(value)] otherwise. *)
Definition to_int (value : pyval) : result Z :=
  match value with
  | PStr _ => f <- Py.float value ;; Float.to_int f
  | _ => Py.int value
  end.

Definition _safe_int (value : pyval) : result (option Z) :=
  match to_int value with
  | Ok z => Ok (Some z)
  | Raise TypeError => Ok None
  | Raise (ValueError _) => Ok None
  | Raise e => Raise e
  end.

(** [plan.get("Statistics") or plan.get("statistics") or {}]. *)
Definition statistics (d : list (string * pyval)) : pyval :=
  Py.or (Py.dget d "Statistics") (Py.or (Py.dget d "statistics") (PDict [])).

(** The value handed to [_safe_int] for the estimated cardinality. *)
Definition estimated_rows (stats : pyval) : result pyval :=
  a <- Py.get stats "row_count" ;;
  b <- Py.get stats "estimated_rows" ;;
  c <- Py.get stats "rowCount" ;;
  d <- Py.get stats "rows_before_limit_at_least" ;;
  Ok (Py.or a (Py.or b (Py.or c d))).

(** The value handed to [_safe_int] for the exact cardinality. *)
Definition exact_rows (stats : pyval) : result pyval :=
  a <- Py.get stats "rows" ;;
  b <- Py.get stats "rows_before_limit" ;;
  c <- Py.get stats "output_rows" ;;
  Ok (Py.or a (Py.or b c)).

Definition _extract_cardinalities (plan : pyval) : result (option Z * option Z) :=
  match plan with
  | PDict d =>
      let stats := statistics d in
      ev <- estimated_rows stats ;;
      estimated <- _safe_int ev ;;
      xv <- exact_rows stats ;;
      exact <- _safe_int xv ;;
      Ok (estimated, default_exact estimated exact)
  | _ => Ok (None, None)
  end.

Definition create_empty_operator (operator_name operator_id : pyval) : QueryOperator :=
  let normalized := Str.lower (Py.str operator_name) in
  if Str.startswith normalized "read" then TableScan operator_id PNone PNone PNone
  else if Str.startswith normalized "aggregating" || Str.startswith normalized "group"
  then GroupBy operator_id PNone
  else if Str.startswith normalized "sorting" || Str.contains " sort" normalized
          || Str.startswith normalized "order by"
  then Sort operator_id PNone
  else if Str.contains "join" normalized then Join operator_id PNone PNone
  else if Str.startswith normalized "filter" then Select operator_id
  else if String.eqb normalized "arrayjoin" || String.eqb normalized "array join"
  then ArrayUnnest operator_id
  else if String.eqb normalized "union" || String.eqb normalized "intersect"
          || String.eqb normalized "except"
  then SetOperation operator_id (PStr normalized) true
  else if Str.startswith normalized "limit" then CustomOperator (PStr "Limit") operator_id PNone
  else if Str.startswith normalized "projection" || Str.startswith normalized "expression"
  then Map operator_id
  else CustomOperator operator_name operator_id PNone.

(** [json_plan.copy()] with the child keys popped. *)
Definition snapshot (json_plan : pyval) : result pyval :=
  match json_plan with
  | PDict d =>
      Ok (PDict (fold_left
                   (fun acc k => if Py.has_key k acc then Py.remove k acc else acc)
                   child_keys d))
  | PList l =>
      if existsb (fun k => existsb (fun x => Py.eq_str x k) l) child_keys
      then Raise TypeError
      else Ok (PList l)
  | _ => Raise AttributeError
  end.

(** The test that opens the Limit/Sort merge. *)
Definition is_limit (op : QueryOperator) : bool :=
  OperatorType.eqb (operator_type op) OperatorType.CustomOperator
  && Py.eq_str (name_of op) "Limit".

(** The merged child: the Limit's limit, when it has one, becomes the limit
    of the child's operator. *)
Definition merge_limit (op : QueryOperator) (merged_child : PlanNode) : PlanNode :=
  if negb (Py.is_none (limit_of op))
  then set_operator merged_child (set_limit (operator merged_child) (limit_of op))
  else merged_child.

Fixpoint build_initial_plan (fuel : nat) (self : t) (json_plan : pyval)
  : result (PlanNode * t) :=
  match fuel with
  | O => Raise RecursionError
  | S fuel' =>
      let operator_name := _extract_operator_name json_plan in
      let '(operator_id, self1) := _extract_operator_id self json_plan in
      let normalized_name := Str.lower (Py.str operator_name) in
      let children_nodes := _extract_children json_plan in
      if Str.startswith normalized_name "expression" && Py.truthy children_nodes then
        child <- Py.first children_nodes ;;
        build_initial_plan fuel' self1 child
      else
        let operator_name :=
          if Str.startswith normalized_name "expression" then PStr "Map"
          else operator_name in
        op <- fill (create_empty_operator operator_name operator_id) json_plan ClickHouse ;;
        ' (estimated_cardinality, exact_cardinality) <- _extract_cardinalities json_plan ;;
        system_representation <-
          (if include_system_representation self1
           then s <- snapshot json_plan ;; Ok (SysJson s)
           else Ok SysNone) ;;
        ' (merged, self2) <-
          (if is_limit op && Py.truthy children_nodes then
             child <- Py.first children_nodes ;;
             ' (merged_child, self2) <- build_initial_plan fuel' self1 child ;;
             if OperatorType.eqb (operator_type (operator merged_child)) OperatorType.Sort
             then Ok (Some (merge_limit op merged_child), self2)
             else Ok (None, self2)
           else Ok (None, self1)) ;;
        match merged with
        | Some merged_child => Ok (merged_child, self2)
        | None =>
            leaf <- is_leaf_operator json_plan ;;
            if leaf then
              Ok (LeafNode op estimated_cardinality exact_cardinality
                    system_representation, self2)
            else
              items <- Py.iter children_nodes ;;
              ' (children, self3) <- build_each (build_initial_plan fuel') self2 items ;;
              Ok (InnerNode op estimated_cardinality exact_cardinality children
                    system_representation, self3)
        end
  end.

(** The raw root: [json_plan.get("Plan") or json_plan.get("plan") or
    json_plan], and its first element (or an empty dictionary) when that is a
    list. *)
Definition plan_root_of (json_plan : pyval) : result pyval :=
  a <- Py.get json_plan "Plan" ;;
  b <- Py.get json_plan "plan" ;;
  let plan_root := Py.or a (Py.or b json_plan) in
  Ok match plan_root with
     | PList (x :: _) => x
     | PList [] => PDict []
     | _ => plan_root
     end.

Definition parse_json_plan (fuel : nat) (self : t) (query : string) (json_plan : pyval)
  : result (QueryPlan * t) :=
  plan_root <- plan_root_of json_plan ;;
  ' (plan, self1) <- build_initial_plan fuel self plan_root ;;
  let root :=
    InnerNode (Result (PInt (-1))) (estimated_cardinality plan) (exact_cardinality plan)
      [plan] (SysText "// added by benchy") in
  Ok (mkQueryPlan query root, self1).

End ClickHouseParser.

(** ** Elements and the patterns of the SQL Server parser *)

Module ET.

Definition tag (e : Element) : string := match e with Elem t _ _ => t end.
Definition attrib (e : Element) : list (string * string) :=
  match e with Elem _ a _ => a end.
Definition subelements (e : Element) : list Element :=
  match e with Elem _ _ c => c end.

(** [e.attrib.get(k)] as a Python value. *)
Definition get (e : Element) (k : string) : pyval :=
  match Py.lookup k (attrib e) with
  | Some s => PStr s
  | None => PNone
  end.

(** [e.find(t)] and [e.findall(t)] for a tag [t]: among the direct children. *)
Definition find (t : string) (e : Element) : option Element :=
  List.find (fun c => String.eqb (tag c) t) (subelements e).
Definition findall (t : string) (e : Element) : list Element :=
  filter (fun c => String.eqb (tag c) t) (subelements e).

(** [e.find(".//" + t)]: the first element below [e], in document order,
    with tag [t]; [e] itself is not a candidate. *)
Fixpoint find_descendant (t : string) (e : Element) : option Element :=
  match e with
  | Elem _ _ cs =>
      (fix among (cs : list Element) : option Element :=
         match cs with
         | [] => None
         | c :: rest =>
             if String.eqb (tag c) t then Some c
             else match find_descendant t c with
                  | Some x => Some x
                  | None => among rest
                  end
         end) cs
  end.

(** [e.attrib] as a dictionary. *)
Definition attrib_dict (e : Element) : pyval :=
  PDict (map (fun kv => (fst kv, PStr (snd kv))) (attrib e)).

End ET.

Module Re.

(** The longest prefix of [s] whose characters satisfy [p], and the rest. *)
Fixpoint span (p : ascii -> bool) (s : string) : string * string :=
  match s with
  | EmptyString => (EmptyString, EmptyString)
  | String c r =>
      if p c then let '(a, b) := span p r in (String c a, b)
      else (EmptyString, s)
  end.

(** [s] without the prefix [p], when it starts with it. *)
Definition after (p s : string) : option string :=
  if prefix p s then Some (Str.drop (String.length p) s) else None.

(** The leftmost position of [s] at which [m] matches, with what [m] gives. *)
Fixpoint search {A : Type} (m : string -> option A) (s : string) : option A :=
  match m s with
  | Some a => Some a
  | None =>
      match s with
      | EmptyString => None
      | String _ r => search m r
      end
  end.

(** [TOP\s+(\d+)], ignoring case, at the start of [s]: group 1. *)
Definition top_at (s : string) : option string :=
  match s with
  | String a (String b (String c r)) =>
      if String.eqb (Str.lower (String a (String b (String c EmptyString)))) "top" then
        let '(ws, r1) := span Str.is_space r in
        if Str.is_empty ws then None
        else
          let '(ds, _) := span Str.is_digit r1 in
          if Str.is_empty ds then None else Some ds
      else None
  | _ => None
  end.

Definition not_bracket (c : ascii) : bool := negb (Ascii.eqb c "]").
Definition not_comma (c : ascii) : bool := negb (Ascii.eqb c ",").

(** [[^]]+] followed by the text [close], at the start of [s]: the group and
    what follows [close]. *)
Definition bracketed (close s : string) : option (string * string) :=
  let '(g, r) := span not_bracket s in
  if Str.is_empty g then None
  else match after close r with
       | Some r' => Some (g, r')
       | None => None
       end.

(** [OBJECT:\(\[([^]]+)\]\.\[([^]]+)\]\.\[([^]]+)\]] at the start of [s]:
    groups 1 to 3. *)
Definition object3_at (s : string) : option (string * string * string) :=
  match after "OBJECT:([" s with
  | None => None
  | Some r0 =>
      match bracketed "].[" r0 with
      | None => None
      | Some (g1, r1) =>
          match bracketed "].[" r1 with
          | None => None
          | Some (g2, r2) =>
              match bracketed "]" r2 with
              | None => None
              | Some (g3, _) => Some (g1, g2, g3)
              end
          end
      end
  end.

(** [OBJECT:([^,]+)] at the start of [s]: group 1. *)
Definition object1_at (s : string) : option string :=
  match after "OBJECT:" s with
  | None => None
  | Some r =>
      let '(g, _) := span not_comma r in
      if Str.is_empty g then None else Some g
  end.

End Re.

(** ** The SQL Server parser ([queryplan/parsers/sqlserverparser.py]) *)

(** The payload of [parse_json_plan]: a text, given with the element
    [ET.fromstring] returns for it ([None] when it raises [ParseError]), or a
    sequence of rows. *)
Inductive payload : Type :=
| XmlText (parsed : option Element)
| Rows (rows : list (list pyval)).

Module SQLServerParser.

Record t : Type := mk { include_system_representation : bool; op_counter : Z }.

Definition no_relop : exn := ValueError "No RelOp node found in SQL Server plan".
Definition no_root : exn := ValueError "No root node identified in SQL Server plan rows".

(** [int(float(value))]. *)
Definition to_int (value : pyval) : result Z :=
  f <- Py.float value ;; Float.to_int f.

Definition _safe_int (value : pyval) : option Z :=
  if Py.is_none value then None
  else try_except (z <- to_int value ;; Ok (Some z)) None.

Definition option_int (o : option Z) : pyval :=
  match o with Some z => PInt z | None => PNone end.

Definition _decide_operator_name (physical logical : pyval) : result pyval :=
  phys <- Py.lower physical ;;
  logical_lower <- Py.lower logical ;;
  if Str.startswith phys "hash match" then
    if Str.contains "aggregate" logical_lower then Ok (PStr "Hash Aggregate")
    else Ok (PStr "Hash Match")
  else if Str.startswith phys "stream aggregate" then Ok (PStr "Stream Aggregate")
  else if Str.startswith phys "merge join" then Ok (PStr "Merge Join")
  else if Str.startswith phys "nested loops" then Ok (PStr "Nested Loops")
  else if Str.startswith phys "top" then Ok (PStr "Top")
  else if Str.startswith phys "concat" then Ok (PStr "Concatenation")
  else if Str.startswith phys "filter" then Ok (PStr "Filter")
  else if Str.startswith phys "sort" then Ok (PStr "Sort")
  else if Str.startswith phys "compute" then Ok (PStr "Compute Scalar")
  else if Str.startswith phys "table scan" || Str.startswith phys "index scan"
          || Str.startswith phys "index seek" || Str.startswith phys "clustered index"
  then Ok physical
  else Ok (Py.or physical logical).

Definition create_empty_operator (operator_name operator_id : pyval)
  : result QueryOperator :=
  name <- Py.lower operator_name ;;
  if Str.startswith name "table scan" || Str.startswith name "index scan"
     || Str.startswith name "index seek" || Str.startswith name "clustered index"
  then Ok (TableScan operator_id PNone PNone PNone)
  else if Str.startswith name "sort" then Ok (Sort operator_id PNone)
  else if Str.startswith name "filter" then Ok (Select operator_id)
  else if Str.startswith name "compute" then Ok (Map operator_id)
  else if Str.startswith name "hash match" || Str.startswith name "merge join"
          || Str.startswith name "nested loops" || Str.contains "join" name
  then
    if Str.contains "aggregate" name then Ok (GroupBy operator_id PNone)
    else Ok (Join operator_id PNone PNone)
  else if Str.contains "aggregate" name then Ok (GroupBy operator_id PNone)
  else if Str.startswith name "top" then Ok (CustomOperator (PStr "Top") operator_id PNone)
  else if Str.startswith name "concat" || Str.startswith name "concatenation"
  then Ok (SetOperation operator_id (PStr "unionall") true)
  else Ok (CustomOperator operator_name operator_id PNone).

(** The join type read off the logical operator, in the order of the checks. *)
Definition join_type_of (logical_lower : string) : pyval :=
  if Str.contains "left anti" logical_lower then PStr "leftanti"
  else if Str.contains "right anti" logical_lower then PStr "rightanti"
  else if Str.contains "left semi" logical_lower then PStr "leftsemi"
  else if Str.contains "right semi" logical_lower then PStr "rightsemi"
  else if Str.contains "inner" logical_lower then PStr "inner"
  else if Str.contains "left outer" logical_lower then PStr "leftouter"
  else if Str.contains "right outer" logical_lower then PStr "rightouter"
  else if Str.contains "full outer" logical_lower then PStr "fullouter"
  else if Str.contains "cross" logical_lower then PStr "cross"
  else if Str.contains "semi" logical_lower then PStr "semi"
  else if Str.contains "anti" logical_lower then PStr "anti"
  else PNone.

Definition _annotate_join_or_agg (physical logical : pyval)
  (plan_info : list (string * pyval)) : result (list (string * pyval)) :=
  phys_lower <- Py.lower physical ;;
  logical_lower <- Py.lower logical ;;
  let plan_info1 :=
    if Str.contains "join" logical_lower || Str.contains "join" phys_lower then
      let info := Py.set "join_type" (join_type_of logical_lower) plan_info in
      if Str.contains "hash" phys_lower then Py.set "join_method" (PStr "hash") info
      else if Str.contains "merge" phys_lower then Py.set "join_method" (PStr "merge") info
      else if Str.contains "loop" phys_lower then Py.set "join_method" (PStr "nl") info
      else if Str.contains "adaptive" phys_lower then Py.set "join_method" (PStr "adaptive") info
      else info
    else plan_info in
  Ok (if Str.contains "aggregate" logical_lower || Str.contains "aggregate" phys_lower then
        if Str.contains "hash" phys_lower then Py.set "agg_method" (PStr "hash") plan_info1
        else if Str.contains "stream" phys_lower then Py.set "agg_method" (PStr "stream") plan_info1
        else plan_info1
      else plan_info1).

Definition object_tags : list string :=
  ["IndexScan"; "IndexSeek"; "TableScan"; "ClusteredIndexScan"; "ClusteredIndexSeek"].

Fixpoint annotate_object_tags (tags : list string) (relop_elem : Element)
  (plan_info : list (string * pyval)) : list (string * pyval) :=
  match tags with
  | [] => plan_info
  | tag :: rest =>
      match ET.find tag relop_elem with
      | Some child =>
          match ET.find "Object" child with
          | Some obj => Py.set "object" (ET.attrib_dict obj) plan_info
          | None => plan_info
          end
      | None => annotate_object_tags rest relop_elem plan_info
      end
  end.

Definition _annotate_object (relop_elem : Element) (plan_info : list (string * pyval))
  : list (string * pyval) :=
  annotate_object_tags object_tags relop_elem plan_info.

Definition _annotate_object_from_argument (plan_info : list (string * pyval))
  : list (string * pyval) :=
  match Py.dget plan_info "Argument" with
  | PStr argument =>
      match Re.search Re.object3_at argument with
      | Some (g1, g2, g3) =>
          Py.set "object"
            (PDict [("Database", PStr g1); ("Schema", PStr g2); ("Table", PStr g3)])
            plan_info
      | None =>
          match Re.search Re.object1_at argument with
          | Some g => Py.set "object" (PStr (Str.strip g)) plan_info
          | None => plan_info
          end
      end
  | _ => plan_info
  end.

Definition _extract_top_limit (argument : pyval) : option Z :=
  match argument with
  | PStr s =>
      match Re.search Re.top_at s with
      | Some digits => try_except (z <- Py.int (PStr digits) ;; Ok (Some z)) None
      | None => None
      end
  | _ => None
  end.

Definition _extract_children (relop_elem : Element) : list Element :=
  match ET.find "Children" relop_elem with
  | Some children_elem => ET.findall "RelOp" children_elem
  | None => ET.findall "RelOp" relop_elem
  end.

Definition _extract_operator_id (self : t) (relop_elem : Element) : pyval * t :=
  match ET.get relop_elem "NodeId" with
  | PNone =>
      (PInt (op_counter self),
       mk (include_system_representation self) (op_counter self + 1))
  | node_id => (try_except (z <- Py.int node_id ;; Ok (PInt z)) node_id, self)
  end.

Fixpoint build_relop (fuel : nat) (self : t) (relop_elem : Element)
  : result (PlanNode * t) :=
  match fuel with
  | O => Raise RecursionError
  | S fuel' =>
      let physical :=
        match Py.lookup "PhysicalOp" (ET.attrib relop_elem) with
        | Some s => PStr s
        | None => PStr "Unknown"
        end in
      let logical :=
        match Py.lookup "LogicalOp" (ET.attrib relop_elem) with
        | Some s => PStr s
        | None => physical
        end in
      operator_name <- _decide_operator_name physical logical ;;
      let '(operator_id, self1) := _extract_operator_id self relop_elem in
      let plan_info := [("PhysicalOp", physical); ("LogicalOp", logical)] in
      let estimated_cardinality := _safe_int (ET.get relop_elem "EstimateRows") in
      let exact_cardinality :=
        default_exact estimated_cardinality (_safe_int (ET.get relop_elem "ActualRows")) in
      plan_info <- _annotate_join_or_agg physical logical plan_info ;;
      name_lower <- Py.lower operator_name ;;
      let plan_info :=
        if String.eqb name_lower "top" then
          match ET.find "Top" relop_elem with
          | Some top_elem =>
              Py.set "limit" (option_int (_safe_int (ET.get top_elem "RowCount"))) plan_info
          | None => plan_info
          end
        else plan_info in
      let plan_info := _annotate_object relop_elem plan_info in
      op0 <- create_empty_operator operator_name operator_id ;;
      op <- fill op0 (PDict plan_info) SQLServer ;;
      let system_representation :=
        if include_system_representation self1 then SysXml relop_elem else SysNone in
      match _extract_children relop_elem with
      | [] =>
          Ok (LeafNode op estimated_cardinality exact_cardinality system_representation,
              self1)
      | children_relops =>
          ' (children, self2) <- build_each (build_relop fuel') self1 children_relops ;;
          Ok (InnerNode op estimated_cardinality exact_cardinality children
                system_representation, self2)
      end
  end.

(** *** The flat-rows shape *)

Definition columns : list string :=
  ["Rows"; "Executes"; "StmtText"; "StmtId"; "NodeId"; "Parent"; "PhysicalOp"; "LogicalOp";
   "Argument"; "DefinedValues"; "EstimateRows"; "EstimateIO"; "EstimateCPU"; "AvgRowSize";
   "TotalSubtreeCost"; "OutputList"; "Warnings"; "Type"; "Parallel"; "EstimateExecutions"].

Definition entry : Type := list (string * pyval).

(** [{col: row[i] for i, col in enumerate(columns)}], for a row that has a
    value for every column. *)
Definition entry_of (row : list pyval) : entry :=
  combine columns row.

(** The rows kept as nodes: long enough, and of type PLAN_ROW when they have
    a type. *)
Fixpoint plan_rows (rows : list (list pyval)) : list entry :=
  match rows with
  | [] => []
  | row :: rest =>
      if (List.length row <? List.length columns)%nat then plan_rows rest
      else
        let e := entry_of row in
        if Py.truthy (Py.dget e "Type")
           && negb (String.eqb (Str.upper (Py.str (Py.dget e "Type"))) "PLAN_ROW")
        then plan_rows rest
        else e :: plan_rows rest
  end.

(** Dictionaries with integer keys, as item lists in insertion order. *)
Fixpoint zlookup {V : Type} (k : Z) (d : list (Z * V)) : option V :=
  match d with
  | [] => None
  | (k', v) :: rest => if k =? k' then Some v else zlookup k rest
  end.

Fixpoint zset {V : Type} (k : Z) (v : V) (d : list (Z * V)) : list (Z * V) :=
  match d with
  | [] => [(k, v)]
  | (k', v') :: rest => if k =? k' then (k, v) :: rest else (k', v') :: zset k v rest
  end.

(** [{int(n["NodeId"]): n for n in nodes if n.get("NodeId") is not None}]. *)
Fixpoint node_map_of (nodes : list entry) (acc : list (Z * entry))
  : result (list (Z * entry)) :=
  match nodes with
  | [] => Ok acc
  | n :: rest =>
      if Py.is_none (Py.dget n "NodeId") then node_map_of rest acc
      else
        nid <- Py.int (Py.dget n "NodeId") ;;
        node_map_of rest (zset nid n acc)
  end.

(** [children_map.setdefault(parent, []).append(nid)]. *)
Definition add_child (parent nid : Z) (children_map : list (Z * list Z))
  : list (Z * list Z) :=
  match zlookup parent children_map with
  | Some kids => zset parent (kids ++ [nid])%list children_map
  | None => zset parent [nid] children_map
  end.

(** The loop over [node_map.items()] that finds the root and the children. *)
Fixpoint link (items : list (Z * entry)) (children_map : list (Z * list Z))
  (root_id : option Z) : result (list (Z * list Z) * option Z) :=
  match items with
  | [] => Ok (children_map, root_id)
  | (nid, n) :: rest =>
      let parent := Py.dget n "Parent" in
      if Py.is_none parent then
        link rest children_map (match root_id with None => Some nid | Some _ => root_id end)
      else
        p <- Py.int parent ;;
        if p =? 0 then
          link rest children_map (match root_id with None => Some nid | Some _ => root_id end)
        else link rest (add_child p nid children_map) root_id
  end.

(** [min(node_map.keys())] for a dictionary that is not empty. *)
Definition min_key {V : Type} (k0 : Z) (d : list (Z * V)) : Z :=
  fold_left (fun m kv => Z.min m (fst kv)) d k0.

Fixpoint build_node (fuel : nat) (node_map : list (Z * entry))
  (children_map : list (Z * list Z)) (node_id : Z) : result PlanNode :=
  match fuel with
  | O => Raise RecursionError
  | S fuel' =>
      match zlookup node_id node_map with
      | None => Raise KeyError
      | Some info =>
          let plan_info : entry :=
            [("PhysicalOp", Py.dget info "PhysicalOp");
             ("LogicalOp", Py.dget info "LogicalOp");
             ("Argument", Py.dget info "Argument");
             ("DefinedValues", Py.dget info "DefinedValues");
             ("EstimateRows", Py.dget info "EstimateRows");
             ("Rows", Py.dget info "Rows")] in
          let plan_info :=
            match _extract_top_limit (Py.dget_default plan_info "Argument" (PStr "")) with
            | Some top_limit => Py.set "limit" (PInt top_limit) plan_info
            | None => plan_info
            end in
          plan_info <- _annotate_join_or_agg
                         (Py.dget_default plan_info "PhysicalOp" (PStr ""))
                         (Py.dget_default plan_info "LogicalOp" (PStr "")) plan_info ;;
          let plan_info := _annotate_object_from_argument plan_info in
          operator_name <- _decide_operator_name
                             (Py.dget_default plan_info "PhysicalOp" (PStr ""))
                             (Py.dget_default plan_info "LogicalOp" (PStr "")) ;;
          op0 <- create_empty_operator operator_name (PInt node_id) ;;
          op <- fill op0 (PDict plan_info) SQLServer ;;
          let estimated_cardinality := _safe_int (Py.dget info "EstimateRows") in
          let exact_cardinality :=
            default_exact estimated_cardinality (_safe_int (Py.dget info "Rows")) in
          let children_ids :=
            match zlookup node_id children_map with Some l => l | None => [] end in
          children_nodes <- each (build_node fuel' node_map children_map) children_ids ;;
          let system_representation := SysJson (PDict info) in
          let phys_lower :=
            Str.lower (Py.str (Py.dget_default plan_info "PhysicalOp" (PStr ""))) in
          match children_nodes with
          | [only] =>
              if Str.startswith phys_lower "parallelism" then Ok only
              else Ok (InnerNode op estimated_cardinality exact_cardinality children_nodes
                         system_representation)
          | [] =>
              Ok (LeafNode op estimated_cardinality exact_cardinality system_representation)
          | _ =>
              Ok (InnerNode op estimated_cardinality exact_cardinality children_nodes
                    system_representation)
          end
      end
  end.

Definition _build_from_rows (fuel : nat) (rows : list (list pyval)) : result PlanNode :=
  let nodes := plan_rows rows in
  node_map <- node_map_of nodes [] ;;
  let children_map := map (fun kv => (fst kv, @nil Z)) node_map in
  ' (children_map, root_id) <- link node_map children_map None ;;
  let root_id :=
    match root_id, node_map with
    | None, (k0, _) :: _ => Some (min_key k0 node_map)
    | _, _ => root_id
    end in
  match root_id with
  | None => Raise no_root
  | Some r => build_node fuel node_map children_map r
  end.

Definition parse_json_plan (fuel : nat) (self : t) (query : string) (plan_payload : payload)
  : result (QueryPlan * t) :=
  ' (plan, self1) <-
    match plan_payload with
    | XmlText None => Raise ParseError
    | XmlText (Some root) =>
        match ET.find_descendant "RelOp" root with
        | None => Raise no_relop
        | Some relop => build_relop fuel self relop
        end
    | Rows rows => p <- _build_from_rows fuel rows ;; Ok (p, self)
    end ;;
  let result :=
    InnerNode (Result (PInt (-1))) (estimated_cardinality plan) (exact_cardinality plan)
      [plan] (SysText "// added by benchy") in
  Ok (mkQueryPlan query result, self1).

End SQLServerParser.

(** ** Notions in which the properties are stated *)

(** The nodes of a plan tree, the root first. *)
Fixpoint nodes (n : PlanNode) : list PlanNode :=
  n :: match n with
       | LeafNode _ _ _ _ => []
       | InnerNode _ _ _ cs _ =>
           (fix all (cs : list PlanNode) : list PlanNode :=
              match cs with
              | [] => []
              | c :: rest => (nodes c ++ all rest)%list
              end) cs
       end.

(** Some node of the tree carries a [CustomOperator] named [s]. *)
Definition has_custom_named (s : string) (n : PlanNode) : bool :=
  existsb
    (fun m =>
       OperatorType.eqb (operator_type (operator m)) OperatorType.CustomOperator
       && Py.eq_str (name_of (operator m)) s)
    (nodes n).

(** The depth of an element: the recursion depth [build_relop] needs. *)
Fixpoint height (e : Element) : nat :=
  match e with
  | Elem _ _ cs =>
      S ((fix highest (cs : list Element) : nat :=
            match cs with
            | [] => O
            | c :: rest => Nat.max (height c) (highest rest)
            end) cs)
  end.

Module ClickHouseRaw.
Import ClickHouseParser.

(** [c] is a raw child of [j]: the first of its extracted children, or one
    of those the loop over them visits. *)
Definition child (j c : pyval) : Prop :=
  Py.first (_extract_children j) = Ok c \/
  exists items, Py.iter (_extract_children j) = Ok items /\ In c items.

(** [r] is [j] or a raw node below it. *)
Inductive below : pyval -> pyval -> Prop :=
| below_here (j : pyval) : below j j
| below_child (j c r : pyval) : child j c -> below c r -> below j r.

(** What the raw node offers as estimated and as exact cardinality: the two
    coercions of [_extract_cardinalities], before the default. *)
Definition estimated (r : pyval) : result (option Z) :=
  match r with
  | PDict d => v <- estimated_rows (statistics d) ;; _safe_int v
  | _ => Ok None
  end.
Definition exact (r : pyval) : result (option Z) :=
  match r with
  | PDict d => v <- exact_rows (statistics d) ;; _safe_int v
  | _ => Ok None
  end.

(** How [build_initial_plan] with [S fuel] arrives at the node [n] for the
    raw node [j]: by eliding an expression wrapper, by merging a Limit into
    the Sort below it, or by constructing a leaf or an inner node. *)
Inductive built (fuel : nat) (self : t) (j : pyval) (n : PlanNode) (self' : t) : Prop :=
| built_elided (c : pyval) :
    Str.startswith (Str.lower (Py.str (_extract_operator_name j))) "expression" = true ->
    Py.truthy (_extract_children j) = true ->
    Py.first (_extract_children j) = Ok c ->
    build_initial_plan fuel (snd (_extract_operator_id self j)) c = Ok (n, self') ->
    built fuel self j n self'
| built_merged (op : QueryOperator) (c : pyval) (merged_child : PlanNode) :
    Str.startswith (Str.lower (Py.str (_extract_operator_name j))) "expression" = false ->
    fill (create_empty_operator (_extract_operator_name j) (fst (_extract_operator_id self j)))
      j ClickHouse = Ok op ->
    is_limit op = true ->
    Py.first (_extract_children j) = Ok c ->
    build_initial_plan fuel (snd (_extract_operator_id self j)) c = Ok (merged_child, self') ->
    operator_type (operator merged_child) = OperatorType.Sort ->
    n = merge_limit op merged_child ->
    built fuel self j n self'
| built_leaf (op : QueryOperator) (e x : option Z) (s : sysrep) :
    Py.len (_extract_children j) = Ok O ->
    _extract_cardinalities j = Ok (e, x) ->
    n = LeafNode op e x s ->
    built fuel self j n self'
| built_inner (op : QueryOperator) (e x : option Z) (s : sysrep)
    (items : list pyval) (self2 : t) (kids : list PlanNode) :
    Py.iter (_extract_children j) = Ok items ->
    items <> [] ->
    _extract_cardinalities j = Ok (e, x) ->
    build_each (build_initial_plan fuel) self2 items = Ok (kids, self') ->
    n = InnerNode op e x kids s ->
    built fuel self j n self'.

End ClickHouseRaw.

Module SQLServerRaw.
Import SQLServerParser.

(** [r] is the element [e] or a RelOp element that the children extraction
    reaches from it. *)
Inductive below : Element -> Element -> Prop :=
| below_here (e : Element) : below e e
| below_child (e c r : Element) : In c (_extract_children e) -> below c r -> below e r.

(** What a RelOp element offers as estimated and as exact cardinality. *)
Definition estimated (e : Element) : option Z := _safe_int (ET.get e "EstimateRows").
Definition exact (e : Element) : option Z := _safe_int (ET.get e "ActualRows").

(** How [build_relop] with [S fuel] arrives at the node [n] for [e]. *)
Inductive built_relop (fuel : nat) (self : t) (e : Element) (n : PlanNode) (self' : t) : Prop :=
| relop_leaf (op : QueryOperator) (s : sysrep) :
    _extract_children e = [] ->
    n = LeafNode op (estimated e) (default_exact (estimated e) (exact e)) s ->
    built_relop fuel self e n self'
| relop_inner (op : QueryOperator) (s : sysrep) (kids : list PlanNode) :
    _extract_children e <> [] ->
    build_each (build_relop fuel) (snd (_extract_operator_id self e)) (_extract_children e)
    = Ok (kids, self') ->
    n = InnerNode op (estimated e) (default_exact (estimated e) (exact e)) kids s ->
    built_relop fuel self e n self'.

(** What a row offers as estimated and as exact cardinality. *)
Definition row_estimated (info : entry) : option Z := _safe_int (Py.dget info "EstimateRows").
Definition row_exact (info : entry) : option Z := _safe_int (Py.dget info "Rows").

(** The ids [children_map.get(node_id, [])] gives. *)
Definition children_ids (children_map : list (Z * list Z)) (node_id : Z) : list Z :=
  match zlookup node_id children_map with Some l => l | None => [] end.

(** The physical operator of the row says that it is a parallelism wrapper. *)
Definition is_parallelism (info : entry) : bool :=
  Str.startswith (Str.lower (Py.str (Py.dget info "PhysicalOp"))) "parallelism".

(** How [build_node] with [S fuel] arrives at the node [n] for the row with
    id [node_id]. *)
Inductive built_node (fuel : nat) (node_map : list (Z * entry))
  (children_map : list (Z * list Z)) (node_id : Z) (n : PlanNode) : Prop :=
| node_elided (info : entry) (cid : Z) :
    zlookup node_id node_map = Some info ->
    is_parallelism info = true ->
    children_ids children_map node_id = [cid] ->
    build_node fuel node_map children_map cid = Ok n ->
    built_node fuel node_map children_map node_id n
| node_leaf (info : entry) (op : QueryOperator) (s : sysrep) :
    zlookup node_id node_map = Some info ->
    children_ids children_map node_id = [] ->
    n = LeafNode op (row_estimated info)
          (default_exact (row_estimated info) (row_exact info)) s ->
    built_node fuel node_map children_map node_id n
| node_inner (info : entry) (op : QueryOperator) (s : sysrep) (kids : list PlanNode) :
    zlookup node_id node_map = Some info ->
    children_ids children_map node_id <> [] ->
    Forall2 (fun cid k => build_node fuel node_map children_map cid = Ok k)
      (children_ids children_map node_id) kids ->
    n = InnerNode op (row_estimated info)
          (default_exact (row_estimated info) (row_exact info)) kids s ->
    built_node fuel node_map children_map node_id n.

End SQLServerRaw.

(** The cardinalities of the node [m] follow from what its raw source offers
    as estimated ([e]) and as exact ([x]) cardinality: the estimate is [e];
    without an exact value the exact cardinality is the estimated one, and
    both are absent when the estimate is absent too. *)
Definition cardinality_rule (e x : option Z) (m : PlanNode) : Prop :=
  estimated_cardinality m = e /\
  (x = None -> exact_cardinality m = estimated_cardinality m) /\
  (x = None -> e = None -> exact_cardinality m = None /\ estimated_cardinality m = None) /\
  (forall z, x = Some z -> exact_cardinality m = Some z).

(** The root that both [parse_json_plan] put on top of the plan [child]. *)
Definition result_root (child : PlanNode) : PlanNode :=
  InnerNode (Result (PInt (-1))) (estimated_cardinality child) (exact_cardinality child)
    [child] (SysText "// added by benchy").

(** ** Inputs of the scenarios *)

Module Inputs.

(** Scenario A of the specification. *)
Definition aggregating : pyval :=
  PDict [("Node Type", PStr "Aggregating");
         ("Statistics", PDict [("rows", PInt 10)]);
         ("Plans", PList [])].
Definition scenario_A : pyval :=
  PDict [("Plan", PDict [("Node Type", PStr "Expression");
                         ("Plans", PList [aggregating])])].

(** An expression wrapper without children. *)
Definition bare_expression : pyval := PDict [("Node Type", PStr "Expression")].

(** An expression wrapper over a table read. *)
Definition read_node : pyval := PDict [("Node Type", PStr "ReadFromStorage")].
Definition wrapped_read : pyval :=
  PDict [("Node Type", PStr "Expression"); ("Plans", PList [read_node])].

(** A sort whose limit is not a number. *)
Definition sort_with_text_limit : pyval :=
  PDict [("Node Type", PStr "Sorting"); ("Limit", PStr "abc")].

(** A Limit without a limit over a Sort with its own limit, over a Limit
    over a table read. *)
Definition inner_limit : pyval :=
  PDict [("Node Type", PStr "Limit"); ("Limit", PInt 7); ("Plans", PList [read_node])].
Definition sorting : pyval :=
  PDict [("Node Type", PStr "Sorting"); ("Limit", PInt 5); ("Plans", PList [inner_limit])].
Definition limit_over_sort : pyval :=
  PDict [("Node Type", PStr "Limit"); ("Plans", PList [sorting])].

(** A Limit with a limit over a Sort. *)
Definition plain_sorting : pyval := PDict [("Node Type", PStr "Sorting")].
Definition limit3_over_sort : pyval :=
  PDict [("Node Type", PStr "Limit"); ("Limit", PInt 3); ("Plans", PList [plain_sorting])].

(** A row of the flat shape with the columns the parser reads. *)
Definition row (node_id parent physical logical argument estimate_rows rows : pyval)
  : list pyval :=
  [rows; PInt 1; PStr ""; PInt 1; node_id; parent; physical; logical; argument; PNone;
   estimate_rows; PNone; PNone; PNone; PNone; PNone; PNone; PStr "PLAN_ROW"; PBool false;
   PNone].

(** Scenario C: a sort over a table scan. *)
Definition sort_over_scan : list (list pyval) :=
  [row (PInt 1) (PInt 0) (PStr "Sort") (PStr "Sort") PNone (PStr "12.5") PNone;
   row (PInt 2) (PInt 1) (PStr "Table Scan") (PStr "Table Scan") PNone PNone (PInt 4)].

(** A root row whose node id is not a number. *)
Definition text_node_id : list (list pyval) :=
  [row (PStr "n1") (PInt 0) (PStr "Sort") (PStr "Sort") PNone PNone PNone].

(** A root row whose physical operator is NULL. *)
Definition null_physical : list (list pyval) :=
  [row (PInt 1) (PInt 0) PNone PNone PNone PNone PNone].

(** A document with a hash join over a table scan. *)
Definition scan_relop : Element :=
  Elem "RelOp" [("PhysicalOp", "Table Scan"); ("EstimateRows", "7")] [].
Definition join_relop : Element :=
  Elem "RelOp" [("PhysicalOp", "Hash Match"); ("LogicalOp", "Inner Join")] [scan_relop].
Definition join_document : Element := Elem "ShowPlanXML" [] [join_relop].

End Inputs.

(** One of the rules of [SQLServerParser.create_empty_operator] that come
    before the join and aggregate rules matches the lowered name. *)
Definition earlier_rule (name : string) : bool :=
  Str.startswith name "table scan" || Str.startswith name "index scan"
  || Str.startswith name "index seek" || Str.startswith name "clustered index"
  || Str.startswith name "sort" || Str.startswith name "filter"
  || Str.startswith name "compute".

Module SQLServerRawAux.

(** The dictionary [plan_info] of a row starts with the physical operator
    [v]; no annotation touches that item. *)
Definition starts_with_physical (v : pyval) (plan_info : SQLServerParser.entry) : Prop :=
  exists rest, plan_info = ("PhysicalOp", v) :: rest.

End SQLServerRawAux.

(** The call raises a [ValueError]. *)
Definition value_error {A : Type} (r : result A) : bool :=
  match r with
  | Raise (ValueError _) => true
  | _ => false
  end.

(** ** [SQLServerParser.is_leaf_operator] *)

Module SQLServerLeaf.
Import SQLServerParser.

(** The argument is an element or another Python value: a dictionary with a
    ["children"] item is a leaf when that item is empty; anything else that is
    not an element is not a leaf. *)
Definition is_leaf_operator (plan : Element + pyval) : result bool :=
  match plan with
  | inl e => Ok (List.length (_extract_children e) =? 0)%nat
  | inr (PDict d) =>
      if Py.has_key "children" d then
        n <- Py.len (Py.dget d "children") ;;
        Ok (n =? 0)%nat
      else Ok false
  | inr _ => Ok false
  end.

End SQLServerLeaf.

(** ** Operator ids *)

(** The operator ids of the nodes of a plan, the root first. *)
Definition operator_ids (n : PlanNode) : list pyval :=
  map (fun m => operator_id (operator m)) (nodes n).

Module ClickHouseIds.
Import ClickHouseParser.

(** The raw node brings no id of its own: it is no dictionary, or none of
    the id keys has a value other than [None]; [_extract_operator_id] then
    takes the id from the counter. *)
Definition anonymous (r : pyval) : bool :=
  match r with
  | PDict d =>
      match first_key (fun v => negb (Py.is_none v)) id_keys d with
      | Some _ => false
      | None => true
      end
  | _ => true
  end.

(** Every id of [ids] is an integer from [lo] up to, not including, [hi]. *)
Definition within (lo hi : Z) (ids : list pyval) : Prop :=
  Forall (fun id => exists z, id = PInt z /\ lo <= z < hi) ids.

(** What a call that builds [n] for [j] and takes the parser from [self] to
    [self'] leaves behind: the flag as it was, the counter no lower, and,
    when no raw node at or below [j] brings an id, ids that are pairwise
    distinct and were all taken from the counter during the call. *)
Definition advances (self : t) (j : pyval) (n : PlanNode) (self' : t) : Prop :=
  include_system_representation self' = include_system_representation self /\
  op_counter self <= op_counter self' /\
  ((forall r, ClickHouseRaw.below j r -> anonymous r = true) ->
   NoDup (operator_ids n) /\ within (op_counter self) (op_counter self') (operator_ids n)).

End ClickHouseIds.

(** A Limit over a table read: the read is built twice, first for the merge
    that does not happen, then as the child. *)
Definition limit_over_read : pyval :=
  PDict [("Node Type", PStr "Limit"); ("Plans", PList [Inputs.read_node])].

(** ** What a node keeps of its source *)

(** [node.system_representation]. *)
Definition system_representation (n : PlanNode) : sysrep :=
  match n with LeafNode _ _ _ s | InnerNode _ _ _ _ s => s end.

Module Outputs.
Import SQLServerParser.

(** The plan of scenario C: a sort over a table scan, each with its row. *)
Definition sort_over_scan : QueryPlan :=
  mkQueryPlan "SELECT 1"
    (InnerNode (Result (PInt (-1))) (Some 12) (Some 12)
       [InnerNode (Sort (PInt 1) PNone) (Some 12) (Some 12)
          [LeafNode (TableScan (PInt 2) PNone PNone PNone) None (Some 4)
             (SysJson (PDict (entry_of (Inputs.row (PInt 2) (PInt 1) (PStr "Table Scan")
                                          (PStr "Table Scan") PNone PNone (PInt 4)))))]
          (SysJson (PDict (entry_of (Inputs.row (PInt 1) (PInt 0) (PStr "Sort") (PStr "Sort")
                                       PNone (PStr "12.5") PNone))))]
       (SysText "// added by benchy")).

End Outputs.

Module SQLServerIds.
Import SQLServerParser.

(** The operator id [_extract_operator_id] reads off a NodeId attribute:
    its integer value, or the attribute as it is when it has none. *)
Definition id_of_attribute (node_id : pyval) : pyval :=
  try_except (z <- Py.int node_id ;; Ok (PInt z)) node_id.

(** The node [m] was made from the element [r] by a parser with the flag
    [flag]: it keeps [r] as its system representation exactly when the flag is
    set, and its operator id is read off the NodeId attribute when [r] has
    one. *)
Definition made_from (flag : bool) (r : Element) (m : PlanNode) : Prop :=
  system_representation m = (if flag then SysXml r else SysNone) /\
  (ET.get r "NodeId" <> PNone ->
   operator_id (operator m) = id_of_attribute (ET.get r "NodeId")).

(** What a call of [build_relop] that builds [n] for [e] and takes the parser
    from [self] to [self'] leaves behind. *)
Definition traces (self : t) (e : Element) (n : PlanNode) (self' : t) : Prop :=
  include_system_representation self' = include_system_representation self /\
  op_counter self <= op_counter self' /\
  ((forall r, SQLServerRaw.below e r -> ET.get r "NodeId" <> PNone) -> self' = self) /\
  (forall m, In m (nodes n) ->
     exists r, SQLServerRaw.below e r /\
               made_from (include_system_representation self) r m).

End SQLServerIds.

Module Samples.

(** A table scan that brings its own node id. *)
Definition numbered_scan : Element :=
  Elem "RelOp" [("NodeId", "7"); ("PhysicalOp", "Table Scan")] [].

(** The plan of the hash join over a table scan, built with the flag set. *)
Definition join_over_scan : PlanNode :=
  InnerNode (Join (PInt 0) (PStr "inner") (PStr "hash")) None None
    [LeafNode (TableScan (PInt 1) PNone PNone PNone) (Some 7) (Some 7)
       (SysXml Inputs.scan_relop)]
    (SysXml Inputs.join_relop).

End Samples.

Module ClickHouseKept.
Import ClickHouseParser.

(** The node [m] keeps of the raw node [r] what a parser with the flag
    [flag] keeps: the snapshot of [r] when the flag is set, nothing
    otherwise. *)
Definition keeps (flag : bool) (r : pyval) (m : PlanNode) : Prop :=
  if flag then exists s, snapshot r = Ok s /\ system_representation m = SysJson s
  else system_representation m = SysNone.

End ClickHouseKept.

Module SQLServerRoot.
Import SQLServerParser.

(** The row is a candidate for the root: its Parent is [None] or has the
    integer value 0. *)
Definition candidate (n : entry) : Prop :=
  Py.is_none (Py.dget n "Parent") = true \/ Py.int (Py.dget n "Parent") = Ok 0.

(** The row names a parent: its Parent has an integer value other than 0. *)
Definition has_parent (n : entry) : Prop :=
  Py.is_none (Py.dget n "Parent") = false /\
  exists p, Py.int (Py.dget n "Parent") = Ok p /\ p <> 0.

End SQLServerRoot.

(** ** Parameter grids ([util/template.py]) *)

Module Template.

(** [v if isinstance(v, list) else [v]]. *)
Definition as_list (v : pyval) : list pyval :=
  match v with
  | PList l => l
  | _ => [v]
  end.

(** [itertools.product] of the value lists: the last position runs fastest. *)
Fixpoint product {A : Type} (values : list (list A)) : list (list A) :=
  match values with
  | [] => [[]]
  | vs :: rest => flat_map (fun v => map (cons v) (product rest)) vs
  end.

(** [unfold(d)]: every combination of the values that a dictionary of lists
    and single values offers for its keys.  Only a dictionary has [items]. *)
Definition unfold (d : pyval) : result (list pyval) :=
  if negb (Py.truthy d) then Ok [PDict []]
  else
    match d with
    | PDict items =>
        let keys := map fst items in
        let values := map (fun kv => as_list (snd kv)) items in
        Ok (map (fun combination => PDict (combine keys combination)) (product values))
    | _ => Raise AttributeError
    end.

(** [r] has the keys of [d], in their order, each with one of the values
    that [d] offers for it. *)
Definition choice (d r : list (string * pyval)) : Prop :=
  Forall2 (fun kv kv' => fst kv' = fst kv /\ In (snd kv') (as_list (snd kv))) d r.

(** The number of combinations: the product of the numbers of values. *)
Definition combinations (d : list (string * pyval)) : nat :=
  fold_right (fun kv n => (List.length (as_list (snd kv)) * n)%nat) 1%nat d.

End Template.

Module Limits.

(** A Top over nothing, with its row count, and a bare sort. *)
Definition top_relop : Element :=
  Elem "RelOp" [("PhysicalOp", "Top")] [Elem "Top" [("RowCount", "10")] []].
Definition sort_relop : Element := Elem "RelOp" [("PhysicalOp", "Sort")] [].

End Limits.

Module Gather.
Import SQLServerParser.

(** A Parallelism row over two table scans, and the plan of these rows. *)
Definition gather_row : list pyval :=
  Inputs.row (PInt 1) (PInt 0) (PStr "Parallelism") (PStr "Gather Streams") PNone PNone PNone.
Definition scan_row (node_id : Z) : list pyval :=
  Inputs.row (PInt node_id) (PInt 1) (PStr "Table Scan") (PStr "Table Scan") PNone PNone PNone.
Definition rows : list (list pyval) := [gather_row; scan_row 2; scan_row 3].
Definition scan (node_id : Z) : PlanNode :=
  LeafNode (TableScan (PInt node_id) PNone PNone PNone) None None
    (SysJson (PDict (entry_of (scan_row node_id)))).
Definition gather : PlanNode :=
  InnerNode (CustomOperator (PStr "Parallelism") (PInt 1) PNone) None None [scan 2; scan 3]
    (SysJson (PDict (entry_of gather_row))).

End Gather.

(** ** Every node with the raw node it was built from *)

Module ClickHouseSource.
Import ClickHouseParser.

(** An expression wrapper with children: the node of its first child is
    returned in its place. *)
Definition wrapper (j : pyval) : bool :=
  Str.startswith (Str.lower (Py.str (_extract_operator_name j))) "expression"
  && Py.truthy (_extract_children j).

(** A raw node that resolves to the ["Limit"] operator and has children. *)
Definition limit (j : pyval) : bool :=
  is_limit (create_empty_operator (_extract_operator_name j) PNone)
  && Py.truthy (_extract_children j).

(** The node [n] returned for [j] was not built from [j] but from its first
    child: [j] is a wrapper, or a Limit in whose place a [Sort] is returned. *)
Definition spliced (j : pyval) (n : PlanNode) : bool :=
  wrapper j
  || (limit j && OperatorType.eqb (operator_type (operator n)) OperatorType.Sort).

(** [each_node P j n]: in the plan [n] returned for the raw node [j], every
    node satisfies [P] together with the raw node it was built from.  A
    spliced raw node hands the plan on to its first child; otherwise [n] was
    built from [j], and its children are the plans of the raw children of
    [j], one each and in order. *)
Inductive each_node (P : pyval -> PlanNode -> Prop) : pyval -> PlanNode -> Prop :=
| each_spliced (j c : pyval) (n : PlanNode) :
    spliced j n = true ->
    Py.first (_extract_children j) = Ok c ->
    each_node P c n ->
    each_node P j n
| each_kept (j : pyval) (n : PlanNode) (items : list pyval) :
    spliced j n = false ->
    P j n ->
    Py.iter (_extract_children j) = Ok items ->
    Forall2 (each_node P) items (children n) ->
    each_node P j n.

(** [k] is a node that [build_initial_plan] returns for [c]. *)
Definition built_for (c : pyval) (k : PlanNode) : Prop :=
  exists fuel self self', build_initial_plan fuel self c = Ok (k, self').

(** The node [m] is a leaf exactly when the children extraction on [r]
    yields nothing; its children are nodes built for the extracted raw
    children, one each and in order. *)
Definition shape (r : pyval) (m : PlanNode) : Prop :=
  exists items,
    Py.iter (_extract_children r) = Ok items /\
    (is_leaf m = true <-> items = []) /\
    Forall2 built_for items (children m).

(** The cardinalities of [m] follow from what [r] offers. *)
Definition cardinalities (r : pyval) (m : PlanNode) : Prop :=
  exists e x,
    ClickHouseRaw.estimated r = Ok e /\ ClickHouseRaw.exact r = Ok x /\
    cardinality_rule e x m.

End ClickHouseSource.

Module RelOpSource.
Import SQLServerParser.

(** [each_relop P e n]: in the plan [n] returned for the element [e], every
    node satisfies [P] together with the element it was built from; the XML
    shape splices nothing. *)
Inductive each_relop (P : Element -> PlanNode -> Prop) : Element -> PlanNode -> Prop :=
| each_relop_kept (e : Element) (n : PlanNode) :
    P e n ->
    Forall2 (each_relop P) (_extract_children e) (children n) ->
    each_relop P e n.

Definition built_for (c : Element) (k : PlanNode) : Prop :=
  exists fuel self self', build_relop fuel self c = Ok (k, self').

Definition shape (r : Element) (m : PlanNode) : Prop :=
  (is_leaf m = true <-> _extract_children r = []) /\
  Forall2 built_for (_extract_children r) (children m).

Definition cardinalities (r : Element) (m : PlanNode) : Prop :=
  cardinality_rule (SQLServerRaw.estimated r) (SQLServerRaw.exact r) m.

End RelOpSource.

Module RowSource.
Import SQLServerParser.

Section Rows.
Variable node_map : list (Z * entry).
Variable children_map : list (Z * list Z).

(** A parallelism row with exactly one child: the node of that child is
    returned in its place. *)
Definition spliced (node_id : Z) : bool :=
  match zlookup node_id node_map with
  | Some info =>
      SQLServerRaw.is_parallelism info
      && (List.length (SQLServerRaw.children_ids children_map node_id) =? 1)%nat
  | None => false
  end.

(** [each_row P node_id n]: in the plan [n] returned for the row with id
    [node_id], every node satisfies [P] together with the id of the row it
    was built from. *)
Inductive each_row (P : Z -> PlanNode -> Prop) : Z -> PlanNode -> Prop :=
| each_row_spliced (node_id cid : Z) (n : PlanNode) :
    spliced node_id = true ->
    SQLServerRaw.children_ids children_map node_id = [cid] ->
    each_row P cid n ->
    each_row P node_id n
| each_row_kept (node_id : Z) (n : PlanNode) :
    spliced node_id = false ->
    P node_id n ->
    Forall2 (each_row P) (SQLServerRaw.children_ids children_map node_id) (children n) ->
    each_row P node_id n.

Definition built_for (cid : Z) (k : PlanNode) : Prop :=
  exists fuel, build_node fuel node_map children_map cid = Ok k.

Definition shape (r : Z) (m : PlanNode) : Prop :=
  (is_leaf m = true <-> SQLServerRaw.children_ids children_map r = []) /\
  Forall2 built_for (SQLServerRaw.children_ids children_map r) (children m).

Definition cardinalities (r : Z) (m : PlanNode) : Prop :=
  exists info,
    zlookup r node_map = Some info /\
    cardinality_rule (SQLServerRaw.row_estimated info) (SQLServerRaw.row_exact info) m.

End Rows.

End RowSource.

(** * Properties *)

(** ** Results *)

Lemma bind_Ok {A B : Type} (m : result A) (k : A -> result B) (b : B) :
  bind m k = Ok b -> exists a, m = Ok a /\ k a = Ok b.
Proof. destruct m; simpl; intros H; [eauto | discriminate]. Qed.

(** Peels the first call off a chain of binds that is known to return. *)
Tactic Notation "bind_inv" hyp(H) "as" ident(a) ident(E) :=
  apply bind_Ok in H; destruct H as [a [E H]].

Lemma chars_length (s : string) : List.length (Py.chars s) = String.length s.
Proof. induction s; simpl; congruence. Qed.

Lemma iter_len (v : pyval) (items : list pyval) (n : nat) :
  Py.iter v = Ok items -> Py.len v = Ok n -> List.length items = n.
Proof.
  destruct v; simpl; try discriminate; intros H1 H2;
    injection H1 as <-; injection H2 as <-.
  - apply chars_length.
  - reflexivity.
  - apply length_map.
Qed.

Lemma build_each_length {S A B : Type} (f : S -> A -> result (B * S)) :
  forall items self ys self',
    build_each f self items = Ok (ys, self') -> List.length ys = List.length items.
Proof.
  induction items as [| x rest IH]; simpl; intros self ys self' H.
  - injection H as <- _. reflexivity.
  - bind_inv H as r1 E1. destruct r1 as [y s1].
    bind_inv H as r2 E2. destruct r2 as [ys' s2].
    injection H as <- _. simpl. f_equal. eauto.
Qed.

Module ClickHouseFacts.
Import ClickHouseParser ClickHouseRaw.

Lemma build_initial_plan_unfold (fuel : nat) (self : t) (json_plan : pyval) :
  build_initial_plan (S fuel) self json_plan =
  let operator_name := _extract_operator_name json_plan in
  let '(operator_id, self1) := _extract_operator_id self json_plan in
  let normalized_name := Str.lower (Py.str operator_name) in
  let children_nodes := _extract_children json_plan in
  if Str.startswith normalized_name "expression" && Py.truthy children_nodes then
    child <- Py.first children_nodes ;;
    build_initial_plan fuel self1 child
  else
    let operator_name :=
      if Str.startswith normalized_name "expression" then PStr "Map"
      else operator_name in
    op <- fill (create_empty_operator operator_name operator_id) json_plan ClickHouse ;;
    ' (estimated_cardinality, exact_cardinality) <- _extract_cardinalities json_plan ;;
    system_representation <-
      (if include_system_representation self1
       then s <- snapshot json_plan ;; Ok (SysJson s)
       else Ok SysNone) ;;
    ' (merged, self2) <-
      (if is_limit op && Py.truthy children_nodes then
         child <- Py.first children_nodes ;;
         ' (merged_child, self2) <- build_initial_plan fuel self1 child ;;
         if OperatorType.eqb (operator_type (operator merged_child)) OperatorType.Sort
         then Ok (Some (merge_limit op merged_child), self2)
         else Ok (None, self2)
       else Ok (None, self1)) ;;
    match merged with
    | Some merged_child => Ok (merged_child, self2)
    | None =>
        leaf <- is_leaf_operator json_plan ;;
        if leaf then
          Ok (LeafNode op estimated_cardinality exact_cardinality
                system_representation, self2)
        else
          items <- Py.iter children_nodes ;;
          ' (children, self3) <- build_each (build_initial_plan fuel) self2 items ;;
          Ok (InnerNode op estimated_cardinality exact_cardinality children
                system_representation, self3)
    end.
Proof. reflexivity. Qed.

Lemma operator_type_eqb_eq (a b : OperatorType.t) :
  OperatorType.eqb a b = true -> a = b.
Proof. destruct a, b; simpl; intros H; (reflexivity || discriminate). Qed.

Lemma falsy_children (j : pyval) :
  Py.truthy (_extract_children j) = false -> _extract_children j = PList [].
Proof.
  unfold _extract_children. destruct j; try reflexivity.
  destruct (first_key Py.truthy child_keys d) as [v |] eqn:Ef; try reflexivity.
  intros Hv. exfalso.
  assert (Py.truthy v = true) by
    (revert Ef; generalize child_keys; intros l; induction l as [| k r IH]; simpl;
     [ discriminate
     | destruct (Py.lookup k d) as [w |]; auto;
       destruct (Py.truthy w) eqn:Et; auto; intros [= ->]; exact Et ]).
  congruence.
Qed.

(** The end of [build_initial_plan]: a leaf or an inner node. *)
Lemma build_tail_inv (fuel : nat) (self self2 self' : t) (j : pyval) (n : PlanNode)
  (op : QueryOperator) (e x : option Z) (s : sysrep) :
  _extract_cardinalities j = Ok (e, x) ->
  (leaf <- is_leaf_operator j ;;
   if leaf then Ok (LeafNode op e x s, self2)
   else
     items <- Py.iter (_extract_children j) ;;
     ' (children, self3) <- build_each (build_initial_plan fuel) self2 items ;;
     Ok (InnerNode op e x children s, self3)) = Ok (n, self') ->
  built fuel self j n self'.
Proof.
  intros Hc H. bind_inv H as lf El.
  unfold is_leaf_operator in El. bind_inv El as len Elen. injection El as <-.
  destruct (Nat.eqb_spec len 0) as [-> | Hne].
  - injection H as <- <-. eapply built_leaf; eauto.
  - bind_inv H as items Ei. bind_inv H as r Er. destruct r as [ks s3].
    injection H as <- <-. eapply built_inner; eauto.
    intros ->. pose proof (iter_len _ _ _ Ei Elen) as Hl. simpl in Hl. congruence.
Qed.

(** Every return of [build_initial_plan] is one of the four ways of [built]. *)
Lemma build_initial_plan_inv (fuel : nat) (self : t) (j : pyval) (n : PlanNode) (self' : t) :
  build_initial_plan (S fuel) self j = Ok (n, self') -> built fuel self j n self'.
Proof.
  rewrite build_initial_plan_unfold. cbv zeta.
  destruct (_extract_operator_id self j) as [id self1] eqn:Eid.
  destruct (Str.startswith (Str.lower (Py.str (_extract_operator_name j))) "expression")
    eqn:Eexpr; simpl andb.
  - destruct (Py.truthy (_extract_children j)) eqn:Ekids.
    + intros H. bind_inv H as c Ec.
      apply (built_elided fuel self j n self' c); auto. rewrite Eid. exact H.
    + intros H. bind_inv H as op Eop. bind_inv H as cards Ecards. destruct cards as [e x].
      bind_inv H as sr Esr. rewrite andb_false_r in H.
      bind_inv H as early Ee. injection Ee as <-.
      eapply build_tail_inv; eauto.
  - intros H. bind_inv H as op Eop. bind_inv H as cards Ecards. destruct cards as [e x].
    bind_inv H as sr Esr. bind_inv H as early Ee. destruct early as [m self2].
    destruct (is_limit op && Py.truthy (_extract_children j)) eqn:Elim.
    + apply andb_prop in Elim as [Elim Ekids].
      bind_inv Ee as c Ec. bind_inv Ee as r Er. destruct r as [mc s2].
      destruct (OperatorType.eqb (operator_type (operator mc)) OperatorType.Sort) eqn:Esort.
      * injection Ee as <- <-. injection H as <- <-.
        eapply built_merged; eauto.
        -- rewrite Eid. exact Eop.
        -- rewrite Eid. exact Er.
        -- apply operator_type_eqb_eq. exact Esort.
      * injection Ee as <- <-. eapply build_tail_inv; eauto.
    + injection Ee as <- <-. eapply build_tail_inv; eauto.
Qed.

End ClickHouseFacts.

(** ** The synthetic root *)

(** C1: a plan that either [parse_json_plan] returns has as its root an inner
    node with a [Result] operator of id [-1] and exactly one child, the node
    that the parse of the engine built. *)
Theorem parse_json_plan_root_is_result :
  (forall fuel self query json_plan qp self',
      ClickHouseParser.parse_json_plan fuel self query json_plan = Ok (qp, self') ->
      exists plan_root child,
        ClickHouseParser.plan_root_of json_plan = Ok plan_root /\
        ClickHouseParser.build_initial_plan fuel self plan_root = Ok (child, self') /\
        is_leaf (plan qp) = false /\
        operator (plan qp) = Result (PInt (-1)) /\
        operator_type (operator (plan qp)) = OperatorType.Result /\
        children (plan qp) = [child]) /\
  (forall fuel self query plan_payload qp self',
      SQLServerParser.parse_json_plan fuel self query plan_payload = Ok (qp, self') ->
      exists child,
        ((exists doc relop,
             plan_payload = XmlText (Some doc) /\
             ET.find_descendant "RelOp" doc = Some relop /\
             SQLServerParser.build_relop fuel self relop = Ok (child, self')) \/
         (exists rows,
             plan_payload = Rows rows /\
             SQLServerParser._build_from_rows fuel rows = Ok child)) /\
        is_leaf (plan qp) = false /\
        operator (plan qp) = Result (PInt (-1)) /\
        operator_type (operator (plan qp)) = OperatorType.Result /\
        children (plan qp) = [child]).
Proof.
  split.
  - intros fuel self query json_plan qp self' H.
    unfold ClickHouseParser.parse_json_plan in H.
    bind_inv H as plan_root Er. bind_inv H as r Eb. destruct r as [child s1].
    injection H as <- <-. exists plan_root, child. simpl. auto 10.
  - intros fuel self query plan_payload qp self' H.
    unfold SQLServerParser.parse_json_plan in H.
    bind_inv H as r Eb. destruct r as [child s1]. injection H as <- <-.
    exists child. simpl. split; [| auto 10].
    destruct plan_payload as [[doc |] | rows]; try discriminate.
    + left. destruct (ET.find_descendant "RelOp" doc) as [relop |] eqn:Ef; try discriminate.
      exists doc, relop. auto.
    + right. bind_inv Eb as p Ep. injection Eb as <- <-. exists rows. auto.
Qed.

Lemma parse_json_plan_root_is_result_witness :
  (exists plan_root child,
      ClickHouseParser.plan_root_of Inputs.wrapped_read = Ok plan_root /\
      ClickHouseParser.build_initial_plan 2 (ClickHouseParser.mk false 0) plan_root
      = Ok (child, ClickHouseParser.mk false 2) /\
      is_leaf (result_root (LeafNode (TableScan (PInt 1) PNone PNone PNone) None None SysNone))
      = false /\
      operator (result_root (LeafNode (TableScan (PInt 1) PNone PNone PNone) None None SysNone))
      = Result (PInt (-1)) /\
      operator_type
        (operator (result_root (LeafNode (TableScan (PInt 1) PNone PNone PNone) None None SysNone)))
      = OperatorType.Result /\
      children (result_root (LeafNode (TableScan (PInt 1) PNone PNone PNone) None None SysNone))
      = [child]).
Proof.
  apply (proj1 parse_json_plan_root_is_result 2%nat (ClickHouseParser.mk false 0)
           "SELECT 1" Inputs.wrapped_read
           (mkQueryPlan "SELECT 1"
              (result_root (LeafNode (TableScan (PInt 1) PNone PNone PNone) None None SysNone)))
           (ClickHouseParser.mk false 2)).
  reflexivity.
Defined.

(** ** Scenario A *)

(** C2, as the code has it: scenario A parses to [Result] over a [GroupBy]
    leaf whose exact cardinality is 10 and whose estimated cardinality is
    absent; the root carries the same cardinalities. *)
Theorem scenario_A_plan (fuel : nat) (flag : bool) (counter : Z) (query : string) :
  ClickHouseParser.parse_json_plan (S (S fuel)) (ClickHouseParser.mk flag counter) query
    Inputs.scenario_A
  = Ok (mkQueryPlan query
          (InnerNode (Result (PInt (-1))) None (Some 10)
             [LeafNode (GroupBy (PInt (counter + 1)) PNone) None (Some 10)
                (if flag
                 then SysJson (PDict [("Node Type", PStr "Aggregating");
                                      ("Statistics", PDict [("rows", PInt 10)])])
                 else SysNone)]
             (SysText "// added by benchy")),
        ClickHouseParser.mk flag (counter + 1 + 1)).
Proof. destruct flag; reflexivity. Qed.

(** C2 as stated fails: the estimated cardinality of the [GroupBy] leaf of
    scenario A is absent, not 10. *)
Lemma scenario_A_estimate_is_absent :
  exists leaf,
    ClickHouseParser.parse_json_plan 2 (ClickHouseParser.mk false 0) "SELECT 1"
      Inputs.scenario_A
    = Ok (mkQueryPlan "SELECT 1" (result_root leaf), ClickHouseParser.mk false 2) /\
    is_leaf leaf = true /\
    operator_type (operator leaf) = OperatorType.GroupBy /\
    exact_cardinality leaf = Some 10 /\
    estimated_cardinality leaf = None /\
    estimated_cardinality leaf <> Some 10.
Proof.
  exists (LeafNode (GroupBy (PInt 1) PNone) None (Some 10) SysNone).
  repeat split; try reflexivity. discriminate.
Qed.

(** ** Empty payloads *)

(** C10, as the code has it: a dictionary whose ["Plan"] and ["plan"] are
    absent or falsy, an empty list in particular, is itself taken as the raw
    root.  When it names no operator, has no child under a child key and no
    statistics, [parse_json_plan] returns a plan: [Result] over a leaf with a
    [CustomOperator] named ["Unknown"], without cardinalities. *)
Theorem parse_json_plan_empty_payload
  (fuel : nat) (self : ClickHouseParser.t) (query : string) (d : list (string * pyval)) :
  Py.truthy (Py.dget d "Plan") = false ->
  Py.truthy (Py.dget d "plan") = false ->
  ClickHouseParser.first_key Py.truthy ClickHouseParser.name_keys d = None ->
  Py.lookup "plan_node_name" d = None ->
  ClickHouseParser.first_key Py.truthy ClickHouseParser.child_keys d = None ->
  Py.truthy (Py.dget d "Statistics") = false ->
  Py.truthy (Py.dget d "statistics") = false ->
  exists snapshot,
    ClickHouseParser.snapshot (PDict d) = Ok snapshot /\
    ClickHouseParser.parse_json_plan (S fuel) self query (PDict d)
    = Ok (mkQueryPlan query
            (InnerNode (Result (PInt (-1))) None None
               [LeafNode
                  (CustomOperator (PStr "Unknown")
                     (fst (ClickHouseParser._extract_operator_id self (PDict d))) PNone)
                  None None
                  (if ClickHouseParser.include_system_representation self
                   then SysJson snapshot else SysNone)]
               (SysText "// added by benchy")),
          snd (ClickHouseParser._extract_operator_id self (PDict d))).
Proof.
  intros HP Hp Hname Hpnn Hkids HS Hs.
  eexists. split; [reflexivity |].
  unfold ClickHouseParser.parse_json_plan, ClickHouseParser.plan_root_of.
  cbn [Py.get bind]. unfold Py.or. rewrite HP, Hp. cbn [bind].
  rewrite ClickHouseFacts.build_initial_plan_unfold.
  assert (Hn : ClickHouseParser._extract_operator_name (PDict d) = PStr "Unknown").
  { unfold ClickHouseParser._extract_operator_name. rewrite Hname.
    unfold Py.dget_default. rewrite Hpnn. reflexivity. }
  assert (Hc : ClickHouseParser._extract_children (PDict d) = PList []).
  { unfold ClickHouseParser._extract_children. rewrite Hkids. reflexivity. }
  assert (Hcards : ClickHouseParser._extract_cardinalities (PDict d) = Ok (None, None)).
  { unfold ClickHouseParser._extract_cardinalities, ClickHouseParser.statistics, Py.or.
    rewrite HS, Hs. reflexivity. }
  assert (Hflag : ClickHouseParser.include_system_representation
                    (snd (ClickHouseParser._extract_operator_id self (PDict d)))
                  = ClickHouseParser.include_system_representation self).
  { unfold ClickHouseParser._extract_operator_id.
    destruct (ClickHouseParser.first_key _ ClickHouseParser.id_keys d); reflexivity. }
  cbv zeta. destruct (ClickHouseParser._extract_operator_id self (PDict d)) as [id self1].
  cbn [fst snd] in *. unfold ClickHouseParser.is_leaf_operator.
  rewrite Hn, Hc, Hcards, Hflag.
  change (Str.startswith (Str.lower (Py.str (PStr "Unknown"))) "expression") with false.
  cbn [andb].
  change (ClickHouseParser.create_empty_operator (PStr "Unknown") id)
    with (CustomOperator (PStr "Unknown") id PNone).
  cbn [fill Py.eq_str String.eqb Ascii.eqb Bool.eqb bind].
  destruct (ClickHouseParser.include_system_representation self); reflexivity.
Qed.

Lemma parse_json_plan_empty_payload_witness :
  exists snapshot,
    ClickHouseParser.snapshot (PDict [("Plan", PList [])]) = Ok snapshot /\
    ClickHouseParser.parse_json_plan 1 (ClickHouseParser.mk true 7) "SELECT 1"
      (PDict [("Plan", PList [])])
    = Ok (mkQueryPlan "SELECT 1"
            (InnerNode (Result (PInt (-1))) None None
               [LeafNode
                  (CustomOperator (PStr "Unknown")
                     (fst (ClickHouseParser._extract_operator_id (ClickHouseParser.mk true 7)
                             (PDict [("Plan", PList [])]))) PNone)
                  None None
                  (if ClickHouseParser.include_system_representation
                        (ClickHouseParser.mk true 7)
                   then SysJson snapshot else SysNone)]
               (SysText "// added by benchy")),
          snd (ClickHouseParser._extract_operator_id (ClickHouseParser.mk true 7)
                 (PDict [("Plan", PList [])]))).
Proof.
  apply (parse_json_plan_empty_payload 0 (ClickHouseParser.mk true 7) "SELECT 1"
           [("Plan", PList [])]); reflexivity.
Defined.

(** C10 as stated fails: beside an empty ["Plan"] list the payload may name
    an operator, and is then parsed as that operator; with statistics that
    do not convert the parse raises. *)
Lemma empty_plan_list_beside_other_keys :
  ClickHouseParser.parse_json_plan 1 (ClickHouseParser.mk false 0) "SELECT 1"
    (PDict [("Plan", PList []); ("Node Type", PStr "Sorting")])
  = Ok (mkQueryPlan "SELECT 1"
          (InnerNode (Result (PInt (-1))) None None
             [LeafNode (Sort (PInt 0) PNone) None None SysNone]
             (SysText "// added by benchy")),
        ClickHouseParser.mk false 1) /\
  ClickHouseParser.parse_json_plan 1 (ClickHouseParser.mk false 0) "SELECT 1"
    (PDict [("Plan", PList []); ("Statistics", PDict [("rows", PStr "inf")])])
  = Raise OverflowError.
Proof. split; reflexivity. Qed.

(** The three smallest payloads: an empty dictionary, and a dictionary whose
    only key is ["Plan"] or ["plan"] with an empty list. *)
Example smallest_payloads_parse (fuel : nat) (flag : bool) (counter : Z) (query : string) :
  let parse payload :=
    ClickHouseParser.parse_json_plan (S fuel) (ClickHouseParser.mk flag counter) query payload in
  let expected snapshot :=
    Ok (mkQueryPlan query
          (InnerNode (Result (PInt (-1))) None None
             [LeafNode (CustomOperator (PStr "Unknown") (PInt counter) PNone) None None
                (if flag then SysJson snapshot else SysNone)]
             (SysText "// added by benchy")),
        ClickHouseParser.mk flag (counter + 1)) in
  parse (PDict []) = expected (PDict []) /\
  parse (PDict [("Plan", PList [])]) = expected (PDict [("Plan", PList [])]) /\
  parse (PDict [("plan", PList [])]) = expected (PDict [("plan", PList [])]).
Proof. destruct flag; repeat split; reflexivity. Qed.

(** ** The expression wrapper without children *)

(** C3, what the code does: a raw node whose name starts with "expression"
    and that has no extractable children is built as a leaf whose operator is
    a [CustomOperator] named ["Map"]; its kind is [CustomOperator], not
    [Map]. *)
Theorem childless_expression_is_custom_map
  (fuel : nat) (self self' : ClickHouseParser.t) (j : pyval) (n : PlanNode) :
  Str.startswith (Str.lower (Py.str (ClickHouseParser._extract_operator_name j)))
    "expression" = true ->
  Py.truthy (ClickHouseParser._extract_children j) = false ->
  ClickHouseParser.build_initial_plan (S fuel) self j = Ok (n, self') ->
  is_leaf n = true /\
  operator n = CustomOperator (PStr "Map") (fst (ClickHouseParser._extract_operator_id self j)) PNone /\
  operator_type (operator n) = OperatorType.CustomOperator /\
  operator_type (operator n) <> OperatorType.Map.
Proof.
  intros Hname Hkids H.
  rewrite ClickHouseFacts.build_initial_plan_unfold in H. cbv zeta in H.
  destruct (ClickHouseParser._extract_operator_id self j) as [id self1] eqn:Eid.
  rewrite Hname, Hkids in H. simpl andb in H. cbv iota in H.
  change (ClickHouseParser.create_empty_operator (PStr "Map") id)
    with (CustomOperator (PStr "Map") id PNone) in H.
  change (fill (CustomOperator (PStr "Map") id PNone) j ClickHouse)
    with (Ok (A := QueryOperator) (CustomOperator (PStr "Map") id PNone)) in H.
  simpl bind at 1 in H.
  bind_inv H as cards Ec. destruct cards as [e x].
  bind_inv H as sr Es. simpl in H.
  bind_inv H as lf El.
  unfold ClickHouseParser.is_leaf_operator in El.
  rewrite (ClickHouseFacts.falsy_children j Hkids) in El. simpl in El.
  injection El as <-. injection H as <- _.
  simpl. repeat split. discriminate.
Qed.

Lemma childless_expression_is_custom_map_witness :
  is_leaf (LeafNode (CustomOperator (PStr "Map") (PInt 0) PNone) None None SysNone) = true /\
  operator (LeafNode (CustomOperator (PStr "Map") (PInt 0) PNone) None None SysNone)
  = CustomOperator (PStr "Map")
      (fst (ClickHouseParser._extract_operator_id (ClickHouseParser.mk false 0)
              Inputs.bare_expression)) PNone /\
  operator_type (operator (LeafNode (CustomOperator (PStr "Map") (PInt 0) PNone) None None SysNone))
  = OperatorType.CustomOperator /\
  operator_type (operator (LeafNode (CustomOperator (PStr "Map") (PInt 0) PNone) None None SysNone))
  <> OperatorType.Map.
Proof.
  apply (childless_expression_is_custom_map 0 (ClickHouseParser.mk false 0)
           (ClickHouseParser.mk false 1) Inputs.bare_expression
           (LeafNode (CustomOperator (PStr "Map") (PInt 0) PNone) None None SysNone));
    reflexivity.
Defined.

(** ** Coercions that fail *)

Lemma limit_value_of_failure (limit_val : pyval) (e : exn) :
  Py.int limit_val = Raise e -> limit_value limit_val = limit_val.
Proof.
  intros H. unfold limit_value. destruct (Py.is_none limit_val) eqn:En.
  - destruct limit_val; try discriminate. reflexivity.
  - rewrite H. reflexivity.
Qed.

Lemma clickhouse_limit_val_dict (d : list (string * pyval)) :
  exists limit_val, clickhouse_limit_val (PDict d) = Ok limit_val.
Proof.
  unfold clickhouse_limit_val. simpl.
  destruct (Py.truthy (Py.dget d "Limit")); eauto.
  destruct (Py.truthy (Py.dget d "limit")); eauto.
  destruct (Py.truthy (Py.dget d "rows_limit")); eauto.
Qed.

(** C4, as the code has it: a cardinality whose coercion fails with a
    [TypeError] or a [ValueError] (ClickHouse) or with any error (SQL Server)
    is absent; a limit whose coercion fails keeps the raw value; [fill] of a
    [Sort], of the ClickHouse ["Limit"] and of the SQL Server ["Top"] returns
    for every dictionary, whatever the raw limit is. *)
Theorem failed_coercion_is_not_fatal :
  (forall value e,
      ClickHouseParser.to_int value = Raise e ->
      e = TypeError \/ (exists msg, e = ValueError msg) ->
      ClickHouseParser._safe_int value = Ok None) /\
  (forall value e,
      SQLServerParser.to_int value = Raise e ->
      SQLServerParser._safe_int value = None) /\
  (forall limit_val e,
      Py.int limit_val = Raise e -> limit_value limit_val = limit_val) /\
  (forall d i l,
      exists limit_val,
        clickhouse_limit_val (PDict d) = Ok limit_val /\
        fill (Sort i l) (PDict d) ClickHouse = Ok (Sort i (limit_value limit_val)) /\
        fill (CustomOperator (PStr "Limit") i l) (PDict d) ClickHouse
        = Ok (CustomOperator (PStr "Limit") i (limit_value limit_val))) /\
  (forall d i l,
      fill (Sort i l) (PDict d) SQLServer = Ok (Sort i (limit_value (Py.dget d "limit"))) /\
      fill (CustomOperator (PStr "Top") i l) (PDict d) SQLServer
      = Ok (CustomOperator (PStr "Top") i (limit_value (Py.dget d "limit")))).
Proof.
  repeat split.
  - intros value e H [-> | [msg ->]]; unfold ClickHouseParser._safe_int; rewrite H; reflexivity.
  - intros value e H. unfold SQLServerParser._safe_int. rewrite H.
    destruct (Py.is_none value); reflexivity.
  - apply limit_value_of_failure.
  - intros d i l. destruct (clickhouse_limit_val_dict d) as [v Hv].
    exists v. split; [exact Hv |]. simpl. rewrite Hv. split; reflexivity.
Qed.

Lemma failed_coercion_is_not_fatal_witness :
  limit_value (PStr "abc") = PStr "abc".
Proof.
  apply (proj1 (proj2 (proj2 failed_coercion_is_not_fatal)) (PStr "abc")
           (ValueError "invalid literal for int() with base 10")).
  reflexivity.
Defined.

(** C4 as stated fails: the limit of a [Sort] whose raw limit is the text
    "abc" is that text, not [None]. *)
Lemma sort_keeps_raw_limit :
  Py.int (PStr "abc") = Raise (ValueError "invalid literal for int() with base 10") /\
  ClickHouseParser.build_initial_plan 1 (ClickHouseParser.mk false 0)
    Inputs.sort_with_text_limit
  = Ok (LeafNode (Sort (PInt 0) (PStr "abc")) None None SysNone, ClickHouseParser.mk false 1) /\
  PStr "abc" <> PNone.
Proof. repeat split; try reflexivity. discriminate. Qed.

(** ** Aggregates and joins *)

(** C6, as the code has it: a name that contains "aggregate" is never
    resolved to a [Join]; it is resolved to a [GroupBy] unless one of the
    earlier rules (scan, sort, filter, compute) matches first; the name
    decided for a "hash match" with an aggregating logical operator is
    resolved to a [GroupBy]. *)
Theorem aggregate_has_priority_over_join (name : string) (id : pyval) :
  Str.contains "aggregate" (Str.lower name) = true ->
  (forall op,
      SQLServerParser.create_empty_operator (PStr name) id = Ok op ->
      operator_type op <> OperatorType.Join) /\
  (earlier_rule (Str.lower name) = false ->
   SQLServerParser.create_empty_operator (PStr name) id = Ok (GroupBy id PNone)) /\
  (forall physical,
      Str.startswith (Str.lower physical) "hash match" = true ->
      exists decided,
        SQLServerParser._decide_operator_name (PStr physical) (PStr name) = Ok decided /\
        SQLServerParser.create_empty_operator decided id = Ok (GroupBy id PNone)).
Proof.
  intros Hagg. unfold SQLServerParser.create_empty_operator, earlier_rule.
  simpl bind. rewrite Hagg. repeat split.
  - intros op.
    repeat match goal with
           | |- context [if ?b then _ else _] => destruct b
           end; intros [= <-]; discriminate.
  - intros H.
    repeat (apply orb_false_elim in H; destruct H as [H ?]).
    repeat match goal with
           | E : ?b = false |- context [?b] => rewrite E
           end.
    simpl. destruct (_ || _); reflexivity.
  - intros physical Hp. exists (PStr "Hash Aggregate").
    unfold SQLServerParser._decide_operator_name. simpl bind.
    rewrite Hp, Hagg. split; reflexivity.
Qed.

Lemma aggregate_has_priority_over_join_witness :
  (forall op,
      SQLServerParser.create_empty_operator (PStr "Hash Match Aggregate") (PInt 3) = Ok op ->
      operator_type op <> OperatorType.Join) /\
  (earlier_rule (Str.lower "Hash Match Aggregate") = false ->
   SQLServerParser.create_empty_operator (PStr "Hash Match Aggregate") (PInt 3)
   = Ok (GroupBy (PInt 3) PNone)) /\
  (forall physical,
      Str.startswith (Str.lower physical) "hash match" = true ->
      exists decided,
        SQLServerParser._decide_operator_name (PStr physical) (PStr "Hash Match Aggregate")
        = Ok decided /\
        SQLServerParser.create_empty_operator decided (PInt 3) = Ok (GroupBy (PInt 3) PNone)).
Proof.
  apply (aggregate_has_priority_over_join "Hash Match Aggregate" (PInt 3)).
  reflexivity.
Defined.

(** C6 as stated fails: a physical operator that starts with "table scan" is
    the decided name as it is, and a [TableScan] even when it contains both
    "hash match" and "aggregate". *)
Lemma scan_rule_comes_first :
  SQLServerParser._decide_operator_name (PStr "Table Scan hash match aggregate")
    (PStr "Aggregate")
  = Ok (PStr "Table Scan hash match aggregate") /\
  Str.contains "hash match" (Str.lower "Table Scan hash match aggregate") = true /\
  Str.contains "aggregate" (Str.lower "Table Scan hash match aggregate") = true /\
  SQLServerParser.create_empty_operator (PStr "Table Scan hash match aggregate") (PInt 1)
  = Ok (TableScan (PInt 1) PNone PNone PNone) /\
  operator_type (TableScan (PInt 1) PNone PNone PNone) <> OperatorType.GroupBy.
Proof. repeat split; try reflexivity. discriminate. Qed.

(** ** The Limit/Sort merge *)

Lemma bind_ret {A B : Type} (a : A) (k : A -> result B) : bind (Ok a) k = k a.
Proof. reflexivity. Qed.

Module MergeFacts.
Import ClickHouseParser.

Lemma eq_str_eq (v : pyval) (s : string) : Py.eq_str v s = true -> v = PStr s.
Proof.
  destruct v; simpl; try discriminate. intros H. apply String.eqb_eq in H. congruence.
Qed.

Lemma limit_is_not_expression (s : string) :
  Str.startswith s "limit" = true -> Str.startswith s "expression" = false.
Proof.
  unfold Str.startswith. destruct s as [| c r]; [discriminate |].
  change (prefix "limit" (String c r))
    with (if ascii_dec "l" c then prefix "imit" r else false).
  destruct (ascii_dec "l" c) as [<- |]; [reflexivity | discriminate].
Qed.

(** The operator on which the merge test succeeds is the one of the "limit"
    rule, and its raw name is not an expression wrapper's. *)
Lemma is_limit_create (operator_name id : pyval) :
  is_limit (create_empty_operator operator_name id) = true ->
  create_empty_operator operator_name id = CustomOperator (PStr "Limit") id PNone /\
  Str.startswith (Str.lower (Py.str operator_name)) "expression" = false.
Proof.
  unfold create_empty_operator.
  repeat match goal with
         | |- context [if ?b then _ else _] => destruct b eqn:?
         end; try discriminate.
  - intros _. split; [reflexivity |]. apply limit_is_not_expression. assumption.
  - unfold is_limit. simpl. intros H. apply eq_str_eq in H. subst operator_name.
    simpl in *. discriminate.
Qed.

End MergeFacts.

(** C5, as the code has it: a raw dictionary that resolves to the ["Limit"]
    operator and has one child whose built node is a [Sort] is built as that
    node: the [Sort] carries the Limit's limit when the Limit has one and
    keeps its own otherwise, and the node returned in the Limit's place is
    not a ["Limit"] operator.  The returned node is the node of the child in
    every other respect: its id, cardinalities, children and system
    representation are those of the child, and it is a leaf when the child
    is. *)
Theorem limit_merges_into_sort
  (fuel : nat) (self self2 : ClickHouseParser.t) (d : list (string * pyval)) (c : pyval)
  (merged_child : PlanNode) (cards : option Z * option Z) :
  ClickHouseParser.is_limit
    (ClickHouseParser.create_empty_operator
       (ClickHouseParser._extract_operator_name (PDict d))
       (fst (ClickHouseParser._extract_operator_id self (PDict d)))) = true ->
  ClickHouseParser._extract_children (PDict d) = PList [c] ->
  ClickHouseParser._extract_cardinalities (PDict d) = Ok cards ->
  ClickHouseParser.build_initial_plan fuel
    (snd (ClickHouseParser._extract_operator_id self (PDict d))) c = Ok (merged_child, self2) ->
  operator_type (operator merged_child) = OperatorType.Sort ->
  exists limit_val n,
    clickhouse_limit_val (PDict d) = Ok limit_val /\
    ClickHouseParser.build_initial_plan (S fuel) self (PDict d) = Ok (n, self2) /\
    operator_type (operator n) = OperatorType.Sort /\
    operator_id (operator n) = operator_id (operator merged_child) /\
    limit_of (operator n)
    = (if Py.is_none (limit_value limit_val) then limit_of (operator merged_child)
       else limit_value limit_val) /\
    children n = children merged_child /\
    ClickHouseParser.is_limit (operator n) = false /\
    n = set_operator merged_child
          (Sort (operator_id (operator merged_child))
             (if Py.is_none (limit_value limit_val) then limit_of (operator merged_child)
              else limit_value limit_val)) /\
    estimated_cardinality n = estimated_cardinality merged_child /\
    exact_cardinality n = exact_cardinality merged_child /\
    system_representation n = system_representation merged_child /\
    is_leaf n = is_leaf merged_child.
Proof.
  intros Hlim Hkids Hcards Hchild Hsort.
  destruct (MergeFacts.is_limit_create _ _ Hlim) as [Hop Hne].
  destruct (clickhouse_limit_val_dict d) as [limit_val Hv].
  exists limit_val,
    (ClickHouseParser.merge_limit
       (CustomOperator (PStr "Limit")
          (fst (ClickHouseParser._extract_operator_id self (PDict d)))
          (limit_value limit_val))
       merged_child).
  split; [exact Hv |]. split.
  - rewrite ClickHouseFacts.build_initial_plan_unfold. cbv zeta.
    destruct (ClickHouseParser._extract_operator_id self (PDict d)) as [id self1] eqn:Eid.
    simpl fst in *. simpl snd in *.
    rewrite Hne. cbn [andb]. rewrite Hop.
    replace (fill (CustomOperator (PStr "Limit") id PNone) (PDict d) ClickHouse)
      with (Ok (A := QueryOperator) (CustomOperator (PStr "Limit") id (limit_value limit_val)))
      by (simpl; rewrite Hv; reflexivity).
    rewrite Hcards. cbn [bind]. destruct cards as [e x].
    assert (Hs : exists s,
               (if ClickHouseParser.include_system_representation self1
                then s <- ClickHouseParser.snapshot (PDict d) ;; Ok (SysJson s)
                else Ok SysNone) = Ok s)
      by (destruct (ClickHouseParser.include_system_representation self1); simpl; eauto).
    destruct Hs as [s ->]. cbn [bind].
    change (ClickHouseParser.is_limit
              (CustomOperator (PStr "Limit") id (limit_value limit_val))) with true.
    rewrite Hkids. cbn [andb Py.truthy Py.first bind].
    rewrite Hchild. cbn [bind]. rewrite Hsort. reflexivity.
  - unfold ClickHouseParser.merge_limit. simpl limit_of.
    destruct (Py.is_none (limit_value limit_val)) eqn:En; simpl negb; cbv iota;
      destruct merged_child as [op e x s | op e x cs s]; simpl in *;
      destruct op; try discriminate; simpl; repeat split.
Qed.

Lemma limit_merges_into_sort_witness :
  exists limit_val n,
    clickhouse_limit_val
      (PDict [("Node Type", PStr "Limit"); ("Limit", PInt 3);
              ("Plans", PList [Inputs.plain_sorting])]) = Ok limit_val /\
    ClickHouseParser.build_initial_plan 2 (ClickHouseParser.mk false 0)
      (PDict [("Node Type", PStr "Limit"); ("Limit", PInt 3);
              ("Plans", PList [Inputs.plain_sorting])])
    = Ok (n, ClickHouseParser.mk false 2) /\
    operator_type (operator n) = OperatorType.Sort /\
    operator_id (operator n)
    = operator_id (operator (LeafNode (Sort (PInt 1) PNone) None None SysNone)) /\
    limit_of (operator n)
    = (if Py.is_none (limit_value limit_val)
       then limit_of (operator (LeafNode (Sort (PInt 1) PNone) None None SysNone))
       else limit_value limit_val) /\
    children n = children (LeafNode (Sort (PInt 1) PNone) None None SysNone) /\
    ClickHouseParser.is_limit (operator n) = false /\
    n = set_operator (LeafNode (Sort (PInt 1) PNone) None None SysNone)
          (Sort (operator_id (operator (LeafNode (Sort (PInt 1) PNone) None None SysNone)))
             (if Py.is_none (limit_value limit_val)
              then limit_of (operator (LeafNode (Sort (PInt 1) PNone) None None SysNone))
              else limit_value limit_val)) /\
    estimated_cardinality n
    = estimated_cardinality (LeafNode (Sort (PInt 1) PNone) None None SysNone) /\
    exact_cardinality n
    = exact_cardinality (LeafNode (Sort (PInt 1) PNone) None None SysNone) /\
    system_representation n
    = system_representation (LeafNode (Sort (PInt 1) PNone) None None SysNone) /\
    is_leaf n = is_leaf (LeafNode (Sort (PInt 1) PNone) None None SysNone).
Proof.
  apply (limit_merges_into_sort 1 (ClickHouseParser.mk false 0) (ClickHouseParser.mk false 2)
           [("Node Type", PStr "Limit"); ("Limit", PInt 3);
            ("Plans", PList [Inputs.plain_sorting])]
           Inputs.plain_sorting
           (LeafNode (Sort (PInt 1) PNone) None None SysNone)
           (None, None));
    reflexivity.
Defined.

(** C5 as stated fails: over a Limit without a limit the [Sort] keeps its own
    limit 5, and the Limit below the [Sort] stays in the tree. *)
Lemma limit_not_copied_and_limit_kept :
  ClickHouseParser.is_limit
    (ClickHouseParser.create_empty_operator
       (ClickHouseParser._extract_operator_name Inputs.limit_over_sort) (PInt 0)) = true /\
  ClickHouseParser._extract_children Inputs.limit_over_sort = PList [Inputs.sorting] /\
  fill (ClickHouseParser.create_empty_operator
          (ClickHouseParser._extract_operator_name Inputs.limit_over_sort) (PInt 0))
    Inputs.limit_over_sort ClickHouse
  = Ok (CustomOperator (PStr "Limit") (PInt 0) PNone) /\
  ClickHouseParser.build_initial_plan 3 (ClickHouseParser.mk false 1) Inputs.sorting
  = Ok (InnerNode (Sort (PInt 1) (PInt 5)) None None
          [InnerNode (CustomOperator (PStr "Limit") (PInt 2) (PInt 7)) None None
             [LeafNode (TableScan (PInt 4) PNone PNone PNone) None None SysNone] SysNone]
          SysNone,
        ClickHouseParser.mk false 5) /\
  ClickHouseParser.build_initial_plan 4 (ClickHouseParser.mk false 0) Inputs.limit_over_sort
  = Ok (InnerNode (Sort (PInt 1) (PInt 5)) None None
          [InnerNode (CustomOperator (PStr "Limit") (PInt 2) (PInt 7)) None None
             [LeafNode (TableScan (PInt 4) PNone PNone PNone) None None SysNone] SysNone]
          SysNone,
        ClickHouseParser.mk false 5) /\
  PInt 5 <> PNone /\
  has_custom_named "Limit"
    (InnerNode (Sort (PInt 1) (PInt 5)) None None
       [InnerNode (CustomOperator (PStr "Limit") (PInt 2) (PInt 7)) None None
          [LeafNode (TableScan (PInt 4) PNone PNone PNone) None None SysNone] SysNone]
       SysNone) = true.
Proof. repeat split; try reflexivity. discriminate. Qed.

(** ** How the SQL Server builders arrive at a node *)

Lemma each_Forall2 {A B : Type} (f : A -> result B) :
  forall items ys, each f items = Ok ys -> Forall2 (fun x y => f x = Ok y) items ys.
Proof.
  induction items as [| x rest IH]; simpl; intros ys H.
  - injection H as <-. constructor.
  - bind_inv H as y Ey. bind_inv H as ys' Eys. injection H as <-.
    constructor; auto.
Qed.

Module SQLServerFacts.
Import SQLServerParser SQLServerRaw.

Lemma build_relop_inv (fuel : nat) (self self' : t) (e : Element) (n : PlanNode) :
  build_relop (S fuel) self e = Ok (n, self') -> built_relop fuel self e n self'.
Proof.
  intros H. cbn [build_relop] in H.
  bind_inv H as name En.
  destruct (_extract_operator_id self e) as [id self1] eqn:Eid.
  bind_inv H as info Ei. bind_inv H as lname El. bind_inv H as op0 E0. bind_inv H as op Eop.
  destruct (_extract_children e) as [| c rest] eqn:Ek.
  - injection H as <- <-. eapply relop_leaf; eauto.
  - bind_inv H as r Er. destruct r as [kids s2]. injection H as <- <-.
    eapply relop_inner; eauto.
    + rewrite Ek. discriminate.
    + rewrite Ek, Eid. exact Er.
Qed.

Lemma set_keeps_physical (k : string) (w v : pyval) (plan_info : entry) :
  String.eqb k "PhysicalOp" = false ->
  SQLServerRawAux.starts_with_physical v plan_info -> SQLServerRawAux.starts_with_physical v (Py.set k w plan_info).
Proof.
  intros Hk [rest ->]. cbn [Py.set]. rewrite Hk. eexists. reflexivity.
Qed.

Lemma annotate_keeps_physical (physical logical v : pyval) (plan_info plan_info' : entry) :
  _annotate_join_or_agg physical logical plan_info = Ok plan_info' ->
  SQLServerRawAux.starts_with_physical v plan_info -> SQLServerRawAux.starts_with_physical v plan_info'.
Proof.
  unfold _annotate_join_or_agg. intros H Hp.
  bind_inv H as p Ep. bind_inv H as l Elg. injection H as <-.
  repeat match goal with
         | |- context [if ?b then _ else _] => destruct b
         end;
    repeat (apply set_keeps_physical; [reflexivity |]); exact Hp.
Qed.

Lemma object_keeps_physical (v : pyval) (plan_info : entry) :
  SQLServerRawAux.starts_with_physical v plan_info ->
  SQLServerRawAux.starts_with_physical v (_annotate_object_from_argument plan_info).
Proof.
  intros Hp. unfold _annotate_object_from_argument.
  destruct (Py.dget plan_info "Argument"); auto.
  destruct (Re.search Re.object3_at s) as [[[g1 g2] g3] |].
  - apply set_keeps_physical; [reflexivity | exact Hp].
  - destruct (Re.search Re.object1_at s);
      [apply set_keeps_physical; [reflexivity | exact Hp] | exact Hp].
Qed.

Lemma build_node_inv (fuel : nat) (node_map : list (Z * entry))
  (children_map : list (Z * list Z)) (node_id : Z) (n : PlanNode) :
  build_node (S fuel) node_map children_map node_id = Ok n ->
  built_node fuel node_map children_map node_id n.
Proof.
  intros H. cbn [build_node] in H.
  destruct (zlookup node_id node_map) as [info |] eqn:Einfo; [| discriminate].
  match type of H with
  | bind (_annotate_join_or_agg _ _ ?pi) _ = _ =>
      assert (Hp0 : SQLServerRawAux.starts_with_physical (Py.dget info "PhysicalOp") pi)
        by (destruct (_extract_top_limit _);
            [apply set_keeps_physical; [reflexivity |] |]; eexists; reflexivity)
  end.
  bind_inv H as pi1 Ea.
  pose proof (object_keeps_physical _ _ (annotate_keeps_physical _ _ _ _ _ Ea Hp0)) as Hp.
  bind_inv H as name En. bind_inv H as op0 E0. bind_inv H as op Eop.
  bind_inv H as kids Ek. apply each_Forall2 in Ek.
  fold (children_ids children_map node_id) in Ek.
  fold (row_estimated info) in H. fold (row_exact info) in H.
  assert (Hphys :
            Str.startswith
              (Str.lower
                 (Py.str
                    (Py.dget_default (_annotate_object_from_argument pi1) "PhysicalOp" (PStr ""))))
              "parallelism" = is_parallelism info)
    by (destruct Hp as [rest ->]; reflexivity).
  rewrite Hphys in H.
  destruct kids as [| k [| k2 more]].
  - injection H as <-. inversion Ek as [Hids |]. eapply node_leaf; eauto.
  - inversion Ek as [| cid k' ids ks Hk Hrest Hids]; subst.
    inversion Hrest; subst.
    destruct (is_parallelism info) eqn:Epar.
    + injection H as <-. eapply node_elided; eauto.
    + injection H as <-. eapply node_inner; eauto; rewrite <- Hids; discriminate.
  - injection H as <-. eapply node_inner; eauto.
    inversion Ek; subst. discriminate.
Qed.

End SQLServerFacts.

(** ** Leaves and inner nodes *)

Lemma len_zero (v : pyval) :
  Py.len v = Ok O ->
  Py.truthy v = false /\ (forall c, Py.first v <> Ok c) /\ Py.iter v = Ok [].
Proof.
  destruct v as [| | | | s | l | d]; simpl; try discriminate.
  - destruct s; [| discriminate]. intros _. repeat split. discriminate.
  - destruct l; [| discriminate]. intros _. repeat split. discriminate.
  - destruct d; [| discriminate]. intros _. repeat split. discriminate.
Qed.

Lemma clickhouse_no_children_leaf (fuel : nat) (self self' : ClickHouseParser.t)
  (j : pyval) (n : PlanNode) :
  ClickHouseRaw.built fuel self j n self' ->
  Py.len (ClickHouseParser._extract_children j) = Ok O -> is_leaf n = true.
Proof.
  intros H Hlen. destruct (len_zero _ Hlen) as [Ht [Hf Hi]].
  destruct H as [c _ Hk _ _
                | op c mc _ _ _ Hc _ _ _
                | op e x s _ _ ->
                | op e x s items self2 kids Hit Hne _ _ _].
  - congruence.
  - exfalso. exact (Hf _ Hc).
  - reflexivity.
  - exfalso. apply Hne. congruence.
Qed.

Lemma relop_leaf_iff (fuel : nat) (self self' : SQLServerParser.t)
  (e : Element) (n : PlanNode) :
  SQLServerRaw.built_relop fuel self e n self' ->
  (is_leaf n = true <-> SQLServerParser._extract_children e = []) /\
  List.length (children n) = List.length (SQLServerParser._extract_children e).
Proof.
  intros [op s Hk -> | op s kids Hk Hb ->]; simpl.
  - rewrite Hk. repeat split; auto.
  - split; [split; [discriminate | intros H; contradiction] |].
    eapply build_each_length; eauto.
Qed.

Lemma row_no_children_leaf (fuel : nat) (node_map : list (Z * SQLServerParser.entry))
  (children_map : list (Z * list Z)) (node_id : Z) (n : PlanNode) :
  SQLServerRaw.built_node fuel node_map children_map node_id n ->
  SQLServerRaw.children_ids children_map node_id = [] -> is_leaf n = true.
Proof.
  intros [info cid _ _ Hk _ | info op s _ _ -> | info op s kids _ Hk _ _] Hnil.
  - congruence.
  - reflexivity.
  - contradiction.
Qed.

(** A return of a builder is an elision (the node of the first child stands
    for an expression wrapper with children, or the node of the only child
    for a parallelism row), a merge (the [Sort] below a Limit), a leaf when
    the children extraction yields nothing, or an inner node over the nodes
    built for the extracted children, one each and in order. *)
Lemma builders_classify_their_returns :
  (forall fuel self j n self',
      ClickHouseParser.build_initial_plan (S fuel) self j = Ok (n, self') ->
      ClickHouseRaw.built fuel self j n self' /\
      (Py.len (ClickHouseParser._extract_children j) = Ok O -> is_leaf n = true)) /\
  (forall fuel self e n self',
      SQLServerParser.build_relop (S fuel) self e = Ok (n, self') ->
      SQLServerRaw.built_relop fuel self e n self' /\
      (is_leaf n = true <-> SQLServerParser._extract_children e = []) /\
      List.length (children n) = List.length (SQLServerParser._extract_children e)) /\
  (forall fuel node_map children_map node_id n,
      SQLServerParser.build_node (S fuel) node_map children_map node_id = Ok n ->
      SQLServerRaw.built_node fuel node_map children_map node_id n /\
      (SQLServerRaw.children_ids children_map node_id = [] -> is_leaf n = true)) /\
  (forall (f : ClickHouseParser.t -> pyval -> result (PlanNode * ClickHouseParser.t))
          self items kids self',
      build_each f self items = Ok (kids, self') -> List.length kids = List.length items).
Proof.
  split; [| split; [| split]].
  - intros fuel self j n self' H.
    apply ClickHouseFacts.build_initial_plan_inv in H.
    split; [exact H | eapply clickhouse_no_children_leaf; eauto].
  - intros fuel self e n self' H.
    apply SQLServerFacts.build_relop_inv in H.
    split; [exact H | eapply relop_leaf_iff; eauto].
  - intros fuel node_map children_map node_id n H.
    apply SQLServerFacts.build_node_inv in H.
    split; [exact H | eapply row_no_children_leaf; eauto].
  - intros f self items kids self'. apply build_each_length.
Qed.

(** ** Cardinalities *)

Lemma in_nodes_leaf (m : PlanNode) op e x s :
  In m (nodes (LeafNode op e x s)) -> m = LeafNode op e x s.
Proof. simpl. intros [H | []]. congruence. Qed.

Lemma in_nodes_inner (m : PlanNode) op e x kids s :
  In m (nodes (InnerNode op e x kids s)) ->
  m = InnerNode op e x kids s \/ exists k, In k kids /\ In m (nodes k).
Proof.
  cbn [nodes]. intros [H | H]; [left; congruence | right].
  induction kids as [| k rest IH]; [destruct H |].
  apply in_app_or in H as [H | H].
  - exists k. split; [left; reflexivity | exact H].
  - destruct (IH H) as [k' [Hin Hm]]. exists k'. split; [right; exact Hin | exact Hm].
Qed.

Lemma in_nodes_self (n : PlanNode) : In n (nodes n).
Proof. destruct n; left; reflexivity. Qed.

Lemma in_nodes_set_operator (m n : PlanNode) (op : QueryOperator) :
  In m (nodes (set_operator n op)) -> m = set_operator n op \/ In m (nodes n).
Proof.
  destruct n as [o e x s | o e x kids s]; cbn [set_operator nodes]; intros [H | H].
  - left. congruence.
  - destruct H.
  - left. congruence.
  - right. right. exact H.
Qed.

Lemma cardinality_rule_intro (e x : option Z) (m : PlanNode) :
  estimated_cardinality m = e ->
  exact_cardinality m = default_exact e x ->
  cardinality_rule e x m.
Proof.
  intros He Hx. unfold cardinality_rule. rewrite He, Hx.
  repeat split; intros; subst; simpl; auto.
Qed.

Lemma cardinality_rule_ext (e x : option Z) (m m' : PlanNode) :
  estimated_cardinality m = estimated_cardinality m' ->
  exact_cardinality m = exact_cardinality m' ->
  cardinality_rule e x m' -> cardinality_rule e x m.
Proof. unfold cardinality_rule. intros -> ->. auto. Qed.

Lemma build_each_In {S A B : Type} (f : S -> A -> result (B * S)) :
  forall items self ys self',
    build_each f self items = Ok (ys, self') ->
    forall y, In y ys -> exists x s1 s2, In x items /\ f s1 x = Ok (y, s2).
Proof.
  induction items as [| x rest IH]; simpl; intros self ys self' H y Hy.
  - injection H as <- _. destruct Hy.
  - bind_inv H as r1 E1. destruct r1 as [y1 s1].
    bind_inv H as r2 E2. destruct r2 as [ys' s2].
    injection H as <- _. destruct Hy as [<- | Hy].
    + exists x, self, s1. auto.
    + destruct (IH _ _ _ E2 y Hy) as [x' [sa [sb [Hin Hf]]]].
      exists x', sa, sb. auto.
Qed.

Module CardinalityFacts.

Lemma clickhouse_cardinalities (j : pyval) (e x' : option Z) :
  ClickHouseParser._extract_cardinalities j = Ok (e, x') ->
  exists x,
    ClickHouseRaw.estimated j = Ok e /\ ClickHouseRaw.exact j = Ok x /\
    x' = default_exact e x.
Proof.
  unfold ClickHouseParser._extract_cardinalities, ClickHouseRaw.estimated, ClickHouseRaw.exact.
  destruct j; try (intros [= <- <-]; exists None; auto).
  intros H. bind_inv H as ev Eev. bind_inv H as est Eest.
  bind_inv H as xv Exv. bind_inv H as ex Eex. injection H as <- <-.
  exists ex. rewrite Eev, Exv. auto.
Qed.

Lemma clickhouse_nodes :
  forall fuel self j n self',
    ClickHouseParser.build_initial_plan fuel self j = Ok (n, self') ->
    forall m, In m (nodes n) ->
    exists r e x,
      ClickHouseRaw.below j r /\
      ClickHouseRaw.estimated r = Ok e /\ ClickHouseRaw.exact r = Ok x /\
      cardinality_rule e x m.
Proof.
  induction fuel as [| fuel IH]; intros self j n self' H m Hm; [discriminate |].
  apply ClickHouseFacts.build_initial_plan_inv in H.
  destruct H as [c _ _ Hc Hb
                | op c mc _ _ _ Hc Hb _ ->
                | op e x s _ Hcards ->
                | op e x s items self2 kids Hit _ Hcards Hb ->].
  - destruct (IH _ _ _ _ Hb m Hm) as [r [e [x [Hr H]]]].
    exists r, e, x. split; [| exact H].
    eapply ClickHouseRaw.below_child; [left; exact Hc | exact Hr].
  - assert (Hm' : exists m', In m' (nodes mc) /\
                             estimated_cardinality m = estimated_cardinality m' /\
                             exact_cardinality m = exact_cardinality m').
    { unfold ClickHouseParser.merge_limit in Hm.
      destruct (negb (Py.is_none (limit_of op))).
      - apply in_nodes_set_operator in Hm as [-> | Hm].
        + exists mc. split; [apply in_nodes_self |]. destruct mc; auto.
        + exists m. auto.
      - exists m. auto. }
    destruct Hm' as [m' [Hin [He Hx]]].
    destruct (IH _ _ _ _ Hb m' Hin) as [r [e [x [Hr [H1 [H2 H3]]]]]].
    exists r, e, x. split; [| split; [exact H1 | split; [exact H2 |]]].
    + eapply ClickHouseRaw.below_child; [left; exact Hc | exact Hr].
    + eapply cardinality_rule_ext; eauto.
  - apply in_nodes_leaf in Hm as ->.
    destruct (clickhouse_cardinalities _ _ _ Hcards) as [x0 [H1 [H2 ->]]].
    exists j, e, x0. split; [constructor |]. split; [exact H1 |]. split; [exact H2 |].
    apply cardinality_rule_intro; reflexivity.
  - apply in_nodes_inner in Hm as [-> | [k [Hk Hm]]].
    + destruct (clickhouse_cardinalities _ _ _ Hcards) as [x0 [H1 [H2 ->]]].
      exists j, e, x0. split; [constructor |]. split; [exact H1 |]. split; [exact H2 |].
      apply cardinality_rule_intro; reflexivity.
    + destruct (build_each_In _ _ _ _ _ Hb k Hk) as [c [s1 [s2 [Hin Hf]]]].
      destruct (IH _ _ _ _ Hf m Hm) as [r [e0 [x0 [Hr H]]]].
      exists r, e0, x0. split; [| exact H].
      eapply ClickHouseRaw.below_child; [right; exists items; split; eassumption | exact Hr].
Qed.

Lemma relop_nodes :
  forall fuel self e n self',
    SQLServerParser.build_relop fuel self e = Ok (n, self') ->
    forall m, In m (nodes n) ->
    exists r,
      SQLServerRaw.below e r /\
      cardinality_rule (SQLServerRaw.estimated r) (SQLServerRaw.exact r) m.
Proof.
  induction fuel as [| fuel IH]; intros self e n self' H m Hm; [discriminate |].
  apply SQLServerFacts.build_relop_inv in H.
  destruct H as [op s _ -> | op s kids _ Hb ->].
  - apply in_nodes_leaf in Hm as ->. exists e. split; [constructor |].
    apply cardinality_rule_intro; reflexivity.
  - apply in_nodes_inner in Hm as [-> | [k [Hk Hm]]].
    + exists e. split; [constructor |]. apply cardinality_rule_intro; reflexivity.
    + destruct (build_each_In _ _ _ _ _ Hb k Hk) as [c [s1 [s2 [Hin Hf]]]].
      destruct (IH _ _ _ _ Hf m Hm) as [r [Hr H]].
      exists r. split; [| exact H]. eapply SQLServerRaw.below_child; eauto.
Qed.

Lemma row_nodes (node_map : list (Z * SQLServerParser.entry))
  (children_map : list (Z * list Z)) :
  forall fuel node_id n,
    SQLServerParser.build_node fuel node_map children_map node_id = Ok n ->
    forall m, In m (nodes n) ->
    exists nid info,
      SQLServerParser.zlookup nid node_map = Some info /\
      cardinality_rule (SQLServerRaw.row_estimated info) (SQLServerRaw.row_exact info) m.
Proof.
  induction fuel as [| fuel IH]; intros node_id n H m Hm; [discriminate |].
  apply SQLServerFacts.build_node_inv in H.
  destruct H as [info cid _ _ _ Hb
                | info op s Hinfo _ ->
                | info op s kids Hinfo _ Hall ->].
  - eapply IH; eauto.
  - apply in_nodes_leaf in Hm as ->. exists node_id, info. split; [exact Hinfo |].
    apply cardinality_rule_intro; reflexivity.
  - apply in_nodes_inner in Hm as [-> | [k [Hk Hm]]].
    + exists node_id, info. split; [exact Hinfo |].
      apply cardinality_rule_intro; reflexivity.
    + clear Hinfo. induction Hall as [| cid k' ids ks Hb _ IHall]; [destruct Hk |].
      destruct Hk as [<- | Hk]; [eapply IH; eauto | auto].
Qed.

Lemma zlookup_zset {V : Type} (k k' : Z) (v : V) (d : list (Z * V)) :
  SQLServerParser.zlookup k (SQLServerParser.zset k' v d)
  = if k =? k' then Some v else SQLServerParser.zlookup k d.
Proof.
  induction d as [| [k0 v0] rest IH]; simpl.
  - destruct (k =? k'); reflexivity.
  - destruct (Z.eqb_spec k' k0) as [<- | Hne]; simpl.
    + destruct (k =? k'); reflexivity.
    + destruct (Z.eqb_spec k k0) as [-> | Hne'].
      * destruct (Z.eqb_spec k0 k'); [congruence | reflexivity].
      * exact IH.
Qed.

(** Every item of the node map is one of the plan rows. *)
Lemma node_map_items :
  forall entries acc node_map,
    SQLServerParser.node_map_of entries acc = Ok node_map ->
    forall nid info,
      SQLServerParser.zlookup nid node_map = Some info ->
      In info entries \/ SQLServerParser.zlookup nid acc = Some info.
Proof.
  induction entries as [| n rest IH]; simpl; intros acc node_map H nid info Hl.
  - injection H as <-. auto.
  - destruct (Py.is_none (Py.dget n "NodeId")).
    + destruct (IH _ _ H _ _ Hl); auto.
    + bind_inv H as k Ek. destruct (IH _ _ H _ _ Hl) as [Hin | Hacc]; auto.
      rewrite zlookup_zset in Hacc. destruct (nid =? k); auto.
      injection Hacc as <-. auto.
Qed.

End CardinalityFacts.


(** ** Failures of the SQL Server parser *)

Lemma bind_Raise {A B : Type} (m : result A) (k : A -> result B) (e : exn) :
  bind m k = Raise e -> m = Raise e \/ exists a, m = Ok a /\ k a = Raise e.
Proof. destruct m; simpl; intros H; [right; eauto | left; congruence]. Qed.

Lemma bind_value_error {A B : Type} (m : result A) (k : A -> result B) :
  value_error m = false -> (forall a, value_error (k a) = false) ->
  value_error (bind m k) = false.
Proof. destruct m; simpl; auto. Qed.

(** Goals [value_error c = false] for a call [c] made of binds, tests and
    calls already known not to raise a [ValueError]. *)
Ltac no_value_error :=
  repeat first
    [ reflexivity
    | assumption
    | apply bind_value_error; [| intros ]
    | match goal with
      | |- context [if ?b then _ else _] => destruct b
      | |- context [match ?x with _ => _ end] => destruct x
      end ].

Module FailureFacts.
Import SQLServerParser.

Lemma lower_no_value_error (v : pyval) : value_error (Py.lower v) = false.
Proof. destruct v; reflexivity. Qed.

Lemma get_no_value_error (v : pyval) (k : string) : value_error (Py.get v k) = false.
Proof. destruct v; reflexivity. Qed.

Lemma get_default_no_value_error (v : pyval) (k : string) (w : pyval) :
  value_error (Py.get_default v k w) = false.
Proof. destruct v; reflexivity. Qed.

Lemma texts_no_value_error (parts : list pyval) : value_error (Py.texts parts) = false.
Proof.
  induction parts as [| p rest IH]; [reflexivity |].
  destruct p; try reflexivity. cbn [Py.texts].
  apply bind_value_error; [exact IH | reflexivity].
Qed.

Lemma fill_no_value_error (op : QueryOperator) (plan : pyval) :
  value_error (fill op plan SQLServer) = false.
Proof.
  destruct op; cbn [fill]; try reflexivity.
  - unfold TableScan_.fill_sqlserver.
    apply bind_value_error; [| intros n; reflexivity].
    apply bind_value_error; [apply get_no_value_error | intros obj].
    apply bind_value_error.
    + destruct obj; try reflexivity.
      apply bind_value_error; [apply texts_no_value_error | reflexivity].
    + intros t1. apply bind_value_error.
      * destruct (negb (Py.truthy t1)); [apply get_no_value_error | reflexivity].
      * intros t2. destruct t2; try reflexivity. destruct (Py.truthy (PStr s)); reflexivity.
  - apply bind_value_error; [apply get_no_value_error | reflexivity].
  - apply bind_value_error; [apply get_no_value_error | reflexivity].
  - apply bind_value_error; [| intros [t m]; reflexivity].
    unfold Join_.fill_sqlserver.
    apply bind_value_error; [apply get_default_no_value_error | intros t].
    apply bind_value_error; [apply get_default_no_value_error | reflexivity].
  - apply bind_value_error; [apply lower_no_value_error | intros lname].
    destruct (String.eqb lname "top"); [| reflexivity].
    apply bind_value_error; [apply get_no_value_error | reflexivity].
Qed.

Lemma decide_no_value_error (physical logical : pyval) :
  value_error (_decide_operator_name physical logical) = false.
Proof.
  unfold _decide_operator_name.
  apply bind_value_error; [apply lower_no_value_error | intros p].
  apply bind_value_error; [apply lower_no_value_error | intros l].
  no_value_error.
Qed.

Lemma annotate_no_value_error (physical logical : pyval) (plan_info : entry) :
  value_error (_annotate_join_or_agg physical logical plan_info) = false.
Proof.
  unfold _annotate_join_or_agg.
  apply bind_value_error; [apply lower_no_value_error | intros p].
  apply bind_value_error; [apply lower_no_value_error | intros l]. reflexivity.
Qed.

Lemma create_no_value_error (operator_name operator_id : pyval) :
  value_error (create_empty_operator operator_name operator_id) = false.
Proof.
  unfold create_empty_operator.
  apply bind_value_error; [apply lower_no_value_error | intros n].
  no_value_error.
Qed.

Lemma build_each_no_value_error {S A B : Type} (f : S -> A -> result (B * S)) :
  (forall s x, value_error (f s x) = false) ->
  forall items self, value_error (build_each f self items) = false.
Proof.
  intros Hf. induction items as [| x rest IH]; intros self; [reflexivity |].
  cbn [build_each]. apply bind_value_error; [apply Hf | intros [y s1]].
  apply bind_value_error; [apply IH | intros [ys s2]; reflexivity].
Qed.

Lemma each_no_value_error {A B : Type} (f : A -> result B) :
  (forall x, value_error (f x) = false) ->
  forall items, value_error (each f items) = false.
Proof.
  intros Hf. induction items as [| x rest IH]; [reflexivity |].
  cbn [each]. apply bind_value_error; [apply Hf | intros y].
  apply bind_value_error; [apply IH | reflexivity].
Qed.

Lemma build_relop_no_value_error :
  forall fuel self e, value_error (build_relop fuel self e) = false.
Proof.
  induction fuel as [| fuel IH]; intros self e; [reflexivity |].
  cbn [build_relop].
  apply bind_value_error; [apply decide_no_value_error | intros name].
  destruct (_extract_operator_id self e) as [id self1].
  apply bind_value_error; [apply annotate_no_value_error | intros info].
  apply bind_value_error; [apply lower_no_value_error | intros lname].
  apply bind_value_error; [apply create_no_value_error | intros op0].
  apply bind_value_error; [apply fill_no_value_error | intros op].
  destruct (_extract_children e) as [| c rest]; [reflexivity |].
  apply bind_value_error; [| intros [kids s2]; reflexivity].
  apply build_each_no_value_error. exact IH.
Qed.

Lemma build_node_no_value_error (node_map : list (Z * entry))
  (children_map : list (Z * list Z)) :
  forall fuel node_id, value_error (build_node fuel node_map children_map node_id) = false.
Proof.
  induction fuel as [| fuel IH]; intros node_id; [reflexivity |].
  cbn [build_node].
  destruct (zlookup node_id node_map) as [info |]; [| reflexivity].
  apply bind_value_error; [apply annotate_no_value_error | intros plan_info].
  apply bind_value_error; [apply decide_no_value_error | intros name].
  apply bind_value_error; [apply create_no_value_error | intros op0].
  apply bind_value_error; [apply fill_no_value_error | intros op].
  apply bind_value_error; [apply each_no_value_error; exact IH | intros kids].
  destruct kids as [| k [| k2 more]]; try reflexivity.
  destruct (Str.startswith _ _); reflexivity.
Qed.

Lemma int_not_no_root (v : pyval) : Py.int v <> Raise no_root.
Proof.
  destruct v; simpl; try discriminate.
  - destruct f; simpl; discriminate.
  - destruct (Py.int_of_str s); discriminate.
Qed.

(** No item is set on the way to an empty node map. *)
Lemma zset_not_nil {V : Type} (k : Z) (v : V) (d : list (Z * V)) : zset k v d <> [].
Proof. destruct d as [| [k0 v0] rest]; simpl; [| destruct (k =? k0)]; discriminate. Qed.

Lemma node_map_of_nonempty :
  forall entries acc node_map,
    acc <> [] -> node_map_of entries acc = Ok node_map -> node_map <> [].
Proof.
  induction entries as [| n rest IH]; simpl; intros acc node_map Hacc H.
  - injection H as <-. exact Hacc.
  - destruct (Py.is_none (Py.dget n "NodeId")); [eapply IH; eauto |].
    bind_inv H as nid En. eapply IH; [| exact H]. apply zset_not_nil.
Qed.

Lemma node_map_of_empty (entries : list entry) :
  node_map_of entries [] = Ok [] <->
  Forall (fun n => Py.dget n "NodeId" = PNone) entries.
Proof.
  induction entries as [| n rest IH]; cbn [node_map_of].
  - split; auto.
  - destruct (Py.is_none (Py.dget n "NodeId")) eqn:En.
    + assert (Hn : Py.dget n "NodeId" = PNone)
        by (destruct (Py.dget n "NodeId"); (reflexivity || discriminate)).
      split.
      * intros H. constructor; [exact Hn | apply IH; exact H].
      * intros H. inversion H. apply IH. assumption.
    + split.
      * intros H. bind_inv H as nid Ei. exfalso.
        eapply (node_map_of_nonempty rest (zset nid n [])); eauto. apply zset_not_nil.
      * intros H. inversion H as [| ? ? Hn ?]. rewrite Hn in En. discriminate.
Qed.

Lemma node_map_of_not_no_root :
  forall entries acc, node_map_of entries acc <> Raise no_root.
Proof.
  induction entries as [| n rest IH]; simpl; intros acc; [discriminate |].
  destruct (Py.is_none (Py.dget n "NodeId")); [apply IH |].
  intros H. apply bind_Raise in H as [H | [nid [_ H]]].
  - exact (int_not_no_root _ H).
  - exact (IH _ H).
Qed.

Lemma link_not_no_root :
  forall items children_map root_id, link items children_map root_id <> Raise no_root.
Proof.
  induction items as [| [nid n] rest IH]; simpl; intros children_map root_id; [discriminate |].
  destruct (Py.is_none (Py.dget n "Parent")); [apply IH |].
  intros H. apply bind_Raise in H as [H | [p [_ H]]].
  - exact (int_not_no_root _ H).
  - destruct (p =? 0); exact (IH _ _ H).
Qed.

Lemma build_from_rows_no_root (fuel : nat) (rows : list (list pyval)) :
  _build_from_rows fuel rows = Raise no_root <->
  Forall (fun n => Py.dget n "NodeId" = PNone) (plan_rows rows).
Proof.
  unfold _build_from_rows. split.
  - intros H. apply bind_Raise in H as [H | [node_map [En H]]];
      [exfalso; exact (node_map_of_not_no_root _ _ H) |].
    apply bind_Raise in H as [H | [[children_map root_id] [El H]]];
      [exfalso; exact (link_not_no_root _ _ _ H) |].
    destruct node_map as [| [k0 v0] rest].
    + apply node_map_of_empty. exact En.
    + exfalso.
      assert (Hv : forall r,
                 build_node fuel ((k0, v0) :: rest) children_map r <> Raise no_root).
      { intros r Hr. pose proof (build_node_no_value_error ((k0, v0) :: rest)
                                   children_map fuel r) as Hn.
        rewrite Hr in Hn. discriminate. }
      destruct root_id; exact (Hv _ H).
  - intros H. apply node_map_of_empty in H. rewrite H. reflexivity.
Qed.

End FailureFacts.

(** ** The XML shape returns *)

Module RelOpTotal.
Import SQLServerParser.

Lemma lookup_set {V : Type} (k k' : string) (v : V) (d : list (string * V)) :
  Py.lookup k (Py.set k' v d) = if String.eqb k k' then Some v else Py.lookup k d.
Proof.
  induction d as [| [k0 v0] rest IH]; cbn [Py.set Py.lookup].
  - reflexivity.
  - destruct (String.eqb_spec k' k0) as [<- | Hne]; cbn [Py.lookup].
    + destruct (String.eqb k k'); reflexivity.
    + destruct (String.eqb_spec k k0) as [-> | Hne'].
      * destruct (String.eqb_spec k0 k'); [congruence | reflexivity].
      * exact IH.
Qed.

Lemma decide_returns (physical logical : string) :
  exists name, _decide_operator_name (PStr physical) (PStr logical) = Ok (PStr name).
Proof.
  unfold _decide_operator_name. cbn [Py.lower bind].
  repeat match goal with
         | |- context [if ?b then _ else _] => destruct b
         end; eauto.
  unfold Py.or. destruct (Py.truthy (PStr physical)); eauto.
Qed.

(** The annotations of a RelOp element set no ["object"]. *)
Lemma annotate_returns (physical logical : string) (plan_info : entry) :
  Py.lookup "object" plan_info = None ->
  exists plan_info',
    _annotate_join_or_agg (PStr physical) (PStr logical) plan_info = Ok plan_info' /\
    Py.lookup "object" plan_info' = None.
Proof.
  intros H. unfold _annotate_join_or_agg. cbn [Py.lower bind].
  eexists. split; [reflexivity |].
  repeat match goal with
         | |- context [if ?b then _ else _] => destruct b
         end;
    repeat (rewrite lookup_set; cbn [String.eqb Ascii.eqb Bool.eqb]); exact H.
Qed.

Lemma create_returns (name : string) (id : pyval) :
  exists op,
    create_empty_operator (PStr name) id = Ok op /\
    forall n i l, op = CustomOperator n i l -> exists s, n = PStr s.
Proof.
  unfold create_empty_operator. cbn [Py.lower bind].
  repeat match goal with
         | |- context [if ?b then _ else _] => destruct b
         end;
    eexists; (split; [reflexivity |]); intros n i l H; try discriminate;
    injection H as <- _ _; eauto.
Qed.

(** The value of ["object"] after [_annotate_object]: absent, or the
    attributes of an element. *)
Lemma annotate_object_value (e : Element) (plan_info : entry) :
  Py.lookup "object" plan_info = None ->
  Py.dget (_annotate_object e plan_info) "object" = PNone \/
  exists obj, Py.dget (_annotate_object e plan_info) "object" = ET.attrib_dict obj.
Proof.
  intros H. unfold _annotate_object. generalize object_tags.
  induction l as [| tag rest IH]; cbn [annotate_object_tags].
  - left. unfold Py.dget. rewrite H. reflexivity.
  - destruct (ET.find tag e) as [child |]; [| exact IH].
    destruct (ET.find "Object" child) as [obj |].
    + right. exists obj. unfold Py.dget. rewrite lookup_set. reflexivity.
    + left. unfold Py.dget. rewrite H. reflexivity.
Qed.

Lemma dget_attrib (obj : Element) (k : string) :
  Py.dget (map (fun kv => (fst kv, PStr (snd kv))) (ET.attrib obj)) k = PNone \/
  exists s, Py.dget (map (fun kv => (fst kv, PStr (snd kv))) (ET.attrib obj)) k = PStr s.
Proof.
  unfold Py.dget. induction (ET.attrib obj) as [| [k0 v0] rest IH]; cbn [map Py.lookup fst snd].
  - left. reflexivity.
  - destruct (String.eqb k k0); [right; eauto | exact IH].
Qed.

Lemma or_text (a b : pyval) :
  (a = PNone \/ exists s, a = PStr s) -> (b = PNone \/ exists s, b = PStr s) ->
  Py.or a b = PNone \/ exists s, Py.or a b = PStr s.
Proof. intros Ha Hb. unfold Py.or. destruct (Py.truthy a); assumption. Qed.

Lemma texts_returns (parts : list pyval) :
  Forall (fun p => p = PNone \/ exists s, p = PStr s) parts ->
  exists ss, Py.texts (filter Py.truthy parts) = Ok ss.
Proof.
  induction 1 as [| p rest Hp _ IH]; cbn [filter]; [eexists; reflexivity |].
  destruct IH as [ss Hss]. destruct Hp as [-> | [s ->]]; cbn [Py.truthy].
  - eauto.
  - destruct (negb (Str.is_empty s)); [| eauto].
    cbn [Py.texts]. rewrite Hss. eexists. reflexivity.
Qed.

Lemma table_name_returns (t1 : pyval) (plan_info : entry) :
  exists r,
    (table_name2 <- (if negb (Py.truthy t1) then Ok (Py.dget plan_info "Table")
                     else Ok t1) ;;
     match table_name2 with
     | PStr s =>
         if Py.truthy table_name2 then Ok (PStr (TableScan_.base_name s)) else Ok table_name2
     | _ => Ok table_name2
     end) = Ok r.
Proof.
  destruct (negb (Py.truthy t1)); cbn [bind].
  - destruct (Py.dget plan_info "Table") as [| | | | s | |]; eauto.
    destruct (Py.truthy (PStr s)); eauto.
  - destruct t1 as [| | | | s | |]; eauto. destruct (Py.truthy (PStr s)); eauto.
Qed.

Lemma fill_returns (op : QueryOperator) (plan_info : entry) :
  (forall n i l, op = CustomOperator n i l -> exists s, n = PStr s) ->
  (Py.dget plan_info "object" = PNone \/
   exists obj, Py.dget plan_info "object" = ET.attrib_dict obj) ->
  exists op', fill op (PDict plan_info) SQLServer = Ok op'.
Proof.
  intros Hname Hobj. destruct op; cbn [fill Py.get bind]; eauto.
  - unfold TableScan_.fill_sqlserver. cbn [Py.get bind].
    destruct Hobj as [-> | [obj ->]].
    + cbn [bind]. destruct (table_name_returns table_name plan_info) as [r ->].
      cbn [bind]. eauto.
    + unfold ET.attrib_dict.
      set (o := map (fun kv => (fst kv, PStr (snd kv))) (ET.attrib obj)).
      destruct (texts_returns
                  [Py.or (Py.dget o "Database") (Py.dget o "database");
                   Py.or (Py.dget o "Schema") (Py.dget o "schema");
                   Py.or (Py.dget o "Table") (Py.dget o "table")]) as [ss Hss].
      { repeat (apply Forall_cons; [apply or_text; apply dget_attrib |]). apply Forall_nil. }
      rewrite Hss. cbn [bind].
      destruct (table_name_returns (PStr (Str.join "." ss)) plan_info) as [r ->].
      cbn [bind]. eauto.
  - unfold Join_.fill_sqlserver. cbn [Py.get_default bind]. eauto.
  - destruct (Hname _ _ _ eq_refl) as [s ->]. cbn [Py.lower bind].
    destruct (String.eqb (Str.lower s) "top"); eauto.
Qed.

Lemma build_each_returns {S A B : Type} (f : S -> A -> result (B * S)) (items : list A) :
  (forall x, In x items -> forall self, exists r, f self x = Ok r) ->
  forall self, exists r, build_each f self items = Ok r.
Proof.
  induction items as [| x rest IH]; intros Hf self; cbn [build_each]; [eauto |].
  destruct (Hf x (or_introl eq_refl) self) as [[y s1] ->]. cbn [bind].
  destruct (IH (fun x' Hx => Hf x' (or_intror Hx)) s1) as [[ys s2] ->]. cbn [bind]. eauto.
Qed.

Lemma subelement_height (e c : Element) : In c (ET.subelements e) -> (height c < height e)%nat.
Proof.
  destruct e as [t a cs]. cbn [ET.subelements height].
  induction cs as [| c0 rest IH]; intros H; [destruct H |].
  destruct H as [-> | H]; [lia | specialize (IH H); lia].
Qed.

Lemma find_subelement (t : string) (e c : Element) :
  ET.find t e = Some c -> In c (ET.subelements e).
Proof. unfold ET.find. intros H. apply find_some in H. tauto. Qed.

Lemma findall_subelement (t : string) (e c : Element) :
  In c (ET.findall t e) -> In c (ET.subelements e).
Proof. unfold ET.findall. intros H. apply filter_In in H. tauto. Qed.

Lemma child_height (e c : Element) : In c (_extract_children e) -> (height c < height e)%nat.
Proof.
  unfold _extract_children. destruct (ET.find "Children" e) as [ce |] eqn:Ef; intros H.
  - apply findall_subelement, subelement_height in H.
    apply find_subelement, subelement_height in Ef. lia.
  - apply findall_subelement, subelement_height in H. exact H.
Qed.

(** [build_relop] returns when the fuel covers the depth of the element. *)
Lemma build_relop_returns :
  forall fuel e self, (height e <= fuel)%nat -> exists r, build_relop fuel self e = Ok r.
Proof.
  induction fuel as [| fuel IH]; intros e self Hh; [destruct e; simpl in Hh; lia |].
  cbn [build_relop].
  set (physical := match Py.lookup "PhysicalOp" (ET.attrib e) with
                   | Some s => PStr s
                   | None => PStr "Unknown"
                   end).
  set (logical := match Py.lookup "LogicalOp" (ET.attrib e) with
                  | Some s => PStr s
                  | None => physical
                  end).
  assert (Hp : exists p, physical = PStr p)
    by (subst physical; destruct (Py.lookup "PhysicalOp" (ET.attrib e)); eauto).
  destruct Hp as [p Hp].
  assert (Hl : exists l, logical = PStr l)
    by (subst logical; destruct (Py.lookup "LogicalOp" (ET.attrib e)); eauto).
  destruct Hl as [l Hl]. rewrite Hp, Hl.
  destruct (decide_returns p l) as [name ->]. cbn [bind].
  destruct (_extract_operator_id self e) as [id self1].
  destruct (annotate_returns p l [("PhysicalOp", PStr p); ("LogicalOp", PStr l)] eq_refl)
    as [info [-> Hinfo]].
  cbn [bind Py.lower].
  destruct (create_returns name id) as [op0 [-> Hname]]. cbn [bind].
  match goal with
  | |- context [fill op0 (PDict ?pi) SQLServer] =>
      destruct (fill_returns op0 pi Hname) as [op ->]
  end.
  { apply annotate_object_value.
    destruct (String.eqb (Str.lower name) "top"); [| exact Hinfo].
    destruct (ET.find "Top" e); [| exact Hinfo].
    rewrite lookup_set. exact Hinfo. }
  cbn [bind].
  destruct (_extract_children e) as [| c rest] eqn:Ek; [eauto |].
  destruct (build_each_returns (build_relop fuel) (c :: rest)) with (self := self1)
    as [[kids s2] ->].
  { intros x Hx s. apply IH. rewrite <- Ek in Hx. apply child_height in Hx. lia. }
  cbn [bind]. eauto.
Qed.

End RelOpTotal.

(** C9, as the code has it: the error "No RelOp node found" is raised exactly
    when the parsed document has no RelOp element below its root element,
    and the error "No root node identified" exactly when no plan row carries
    a node id; a parsed document with a RelOp element yields a plan when the
    recursion depth covers the depth of that element.  (The parse of rows has
    other failures as well.) *)
Theorem no_root_failures :
  (forall fuel self query doc,
      SQLServerParser.parse_json_plan fuel self query (XmlText (Some doc))
      = Raise SQLServerParser.no_relop <->
      ET.find_descendant "RelOp" doc = None) /\
  (forall fuel self query rows,
      SQLServerParser.parse_json_plan fuel self query (Rows rows)
      = Raise SQLServerParser.no_root <->
      Forall (fun n => Py.dget n "NodeId" = PNone) (SQLServerParser.plan_rows rows)) /\
  (forall fuel self query doc relop,
      ET.find_descendant "RelOp" doc = Some relop ->
      (height relop <= fuel)%nat ->
      exists qp self',
        SQLServerParser.parse_json_plan fuel self query (XmlText (Some doc))
        = Ok (qp, self')).
Proof.
  split; [| split].
  - intros fuel self query doc. unfold SQLServerParser.parse_json_plan. split.
    + intros H. destruct (ET.find_descendant "RelOp" doc) as [relop |]; [| reflexivity].
      exfalso. apply bind_Raise in H as [H | [[p s] [_ H]]]; [| discriminate].
      pose proof (FailureFacts.build_relop_no_value_error fuel self relop) as Hn.
      rewrite H in Hn. discriminate.
    + intros ->. reflexivity.
  - intros fuel self query rows. rewrite <- (FailureFacts.build_from_rows_no_root fuel).
    unfold SQLServerParser.parse_json_plan. split.
    + intros H. apply bind_Raise in H as [H | [[p s] [_ H]]]; [| discriminate].
      apply bind_Raise in H as [H | [p [_ H]]]; [exact H | discriminate].
    + intros ->. reflexivity.
  - intros fuel self query doc relop Hf Hh.
    unfold SQLServerParser.parse_json_plan. rewrite Hf.
    destruct (RelOpTotal.build_relop_returns fuel relop self Hh) as [[n s1] ->].
    cbn [bind]. eauto.
Qed.

Lemma no_root_failures_witness :
  SQLServerParser.parse_json_plan 1 (SQLServerParser.mk false 0) "SELECT 1" (Rows [])
  = Raise SQLServerParser.no_root.
Proof.
  apply (proj2 (proj1 (proj2 no_root_failures) 1%nat (SQLServerParser.mk false 0)
                  "SELECT 1" [])).
  constructor.
Defined.

(** C9 as stated fails: a single plan row with parent 0 qualifies as the
    root, and the parse fails all the same, with the [ValueError] of [int],
    because the node id of the row is not a number. *)
Lemma root_row_and_parse_fails :
  (exists e,
      SQLServerParser.plan_rows Inputs.text_node_id = [e] /\
      Py.dget e "Parent" = PInt 0 /\
      Py.dget e "NodeId" = PStr "n1") /\
  SQLServerParser.parse_json_plan 5 (SQLServerParser.mk false 0) "SELECT 1"
    (Rows Inputs.text_node_id)
  = Raise (ValueError "invalid literal for int() with base 10") /\
  ValueError "invalid literal for int() with base 10" <> SQLServerParser.no_root.
Proof.
  split; [| split; [reflexivity | discriminate]].
  eexists. repeat split.
Qed.

(** A root row whose physical operator is NULL: the root is identified, and
    [build_node] raises an [AttributeError] on the operator. *)
Example null_physical_operator_raises :
  (exists node_map children_map,
      SQLServerParser.node_map_of (SQLServerParser.plan_rows Inputs.null_physical) []
      = Ok node_map /\
      SQLServerParser.link node_map (map (fun kv => (fst kv, @nil Z)) node_map) None
      = Ok (children_map, Some 1)) /\
  SQLServerParser.parse_json_plan 5 (SQLServerParser.mk false 0) "SELECT 1"
    (Rows Inputs.null_physical)
  = Raise AttributeError.
Proof.
  split; [| reflexivity].
  eexists. eexists. split; reflexivity.
Qed.

(** ** Runs of the SQL Server scenarios *)

(** A hash join over a table scan, from the document. *)
Example join_document_plan :
  SQLServerParser.parse_json_plan 2 (SQLServerParser.mk false 0) "SELECT 1"
    (XmlText (Some Inputs.join_document))
  = Ok (mkQueryPlan "SELECT 1"
          (InnerNode (Result (PInt (-1))) None None
             [InnerNode (Join (PInt 0) (PStr "inner") (PStr "hash")) None None
                [LeafNode (TableScan (PInt 1) PNone PNone PNone) (Some 7) (Some 7) SysNone]
                SysNone]
             (SysText "// added by benchy")),
        SQLServerParser.mk false 2).
Proof. reflexivity. Qed.

(** A sort over a table scan, from the rows: the estimate 12.5 is truncated,
    and the scan without an estimate has its exact cardinality only. *)
Example sort_over_scan_plan :
  exists sort_row scan_row,
    SQLServerParser.parse_json_plan 2 (SQLServerParser.mk false 0) "SELECT 1"
      (Rows Inputs.sort_over_scan)
    = Ok (mkQueryPlan "SELECT 1"
            (InnerNode (Result (PInt (-1))) (Some 12) (Some 12)
               [InnerNode (Sort (PInt 1) PNone) (Some 12) (Some 12)
                  [LeafNode (TableScan (PInt 2) PNone PNone PNone) None (Some 4) scan_row]
                  sort_row]
               (SysText "// added by benchy")),
          SQLServerParser.mk false 0).
Proof. eexists. eexists. reflexivity. Qed.

(** The coercions of [_safe_int] on texts. *)
Example safe_int_runs :
  SQLServerParser._safe_int (PStr "1e+006") = Some 1000000 /\
  SQLServerParser._safe_int (PStr " 12.75 ") = Some 12 /\
  SQLServerParser._safe_int (PStr "-0.5") = Some 0 /\
  SQLServerParser._safe_int (PStr "inf") = None /\
  SQLServerParser._safe_int (PStr "twelve") = None /\
  ClickHouseParser._safe_int (PStr "10") = Ok (Some 10) /\
  ClickHouseParser._safe_int (PStr "nan") = Ok None /\
  ClickHouseParser._safe_int (PList []) = Ok None /\
  ClickHouseParser._safe_int PNone = Ok None /\
  ClickHouseParser._safe_int (PStr "inf") = Raise OverflowError.
Proof. repeat split. Qed.

(** ** What [fill] leaves alone *)

(** [fill] sets attributes only: the kind and the id of the operator stay. *)
Theorem fill_keeps_kind_and_id (op op' : QueryOperator) (plan : pyval) (dbms_type : DBMSType) :
  fill op plan dbms_type = Ok op' ->
  operator_type op' = operator_type op /\
  operator_id op' = operator_id op /\
  name_of op' = name_of op.
Proof.
  destruct op, dbms_type; cbn [fill]; intros H;
    repeat match type of H with
           | bind _ _ = Ok _ => let v := fresh "v" in let E := fresh "E" in bind_inv H as v E
           | (let (_, _) := ?p in _) = Ok _ => destruct p
           | (if ?b then _ else _) = Ok _ => destruct b
           end;
    injection H as <-; auto.
Qed.

Lemma fill_keeps_kind_and_id_witness :
  operator_type (Sort (PInt 0) (PStr "abc")) = operator_type (Sort (PInt 0) PNone) /\
  operator_id (Sort (PInt 0) (PStr "abc")) = operator_id (Sort (PInt 0) PNone) /\
  name_of (Sort (PInt 0) (PStr "abc")) = name_of (Sort (PInt 0) PNone).
Proof.
  apply (fill_keeps_kind_and_id (Sort (PInt 0) PNone) (Sort (PInt 0) (PStr "abc"))
           Inputs.sort_with_text_limit ClickHouse).
  reflexivity.
Defined.

(** ** Names of custom operators *)

(** A [CustomOperator] made by either [create_empty_operator] carries the
    raw name as it is, or the fixed name of the limit rule ("Limit" for
    ClickHouse, "Top" for SQL Server); its limit is unset. *)
Theorem custom_operator_keeps_raw_name (operator_name operator_id0 : pyval) :
  (forall n i l,
      ClickHouseParser.create_empty_operator operator_name operator_id0 = CustomOperator n i l ->
      (n = operator_name \/ n = PStr "Limit") /\ i = operator_id0 /\ l = PNone) /\
  (forall n i l,
      SQLServerParser.create_empty_operator operator_name operator_id0
      = Ok (CustomOperator n i l) ->
      (n = operator_name \/ n = PStr "Top") /\ i = operator_id0 /\ l = PNone).
Proof.
  split; intros n i l.
  - unfold ClickHouseParser.create_empty_operator.
    repeat match goal with
           | |- context [if ?b then _ else _] => destruct b
           end; intros H; try discriminate; injection H as <- <- <-; auto.
  - unfold SQLServerParser.create_empty_operator. intros H. bind_inv H as name En.
    repeat match type of H with
           | context [if ?b then _ else _] => destruct b
           end; try discriminate; injection H as <- <- <-; auto.
Qed.

Lemma custom_operator_keeps_raw_name_witness :
  (PStr "Window" = PStr "Window" \/ PStr "Window" = PStr "Limit") /\
  PInt 4 = PInt 4 /\ PNone = PNone.
Proof.
  apply (proj1 (custom_operator_keeps_raw_name (PStr "Window") (PInt 4))
           (PStr "Window") (PInt 4) PNone).
  reflexivity.
Defined.

(** ** The coercion of the ClickHouse parser *)

(** [ClickHouseParser._safe_int] raises for an infinite number only, given as
    a float or as a text, and then with [OverflowError]; on every other value
    it returns. *)
Theorem clickhouse_safe_int_raises_on_infinity_only (value : pyval) (e : exn) :
  ClickHouseParser._safe_int value = Raise e ->
  e = OverflowError /\
  ((exists neg r, value = PFloat (S754_infinity neg) r) \/
   (exists s neg, value = PStr s /\ Float.of_str s = Some (S754_infinity neg))).
Proof.
  unfold ClickHouseParser._safe_int, ClickHouseParser.to_int.
  destruct value as [| b | z | f r | s | l | d]; cbn [Py.int Py.float bind]; try discriminate.
  - destruct f as [sg | sg | | sg m ex]; cbn [Float.to_int]; try discriminate.
    intros [= <-]. split; [reflexivity | left; eauto].
  - destruct (Float.of_str s) as [f |] eqn:Ef; cbn [bind]; [| discriminate].
    destruct f as [sg | sg | | sg m ex]; cbn [Float.to_int]; try discriminate.
    intros [= <-]. split; [reflexivity | right; eauto].
Qed.

Lemma clickhouse_safe_int_raises_on_infinity_only_witness :
  OverflowError = OverflowError /\
  ((exists neg r, PStr "1e999" = PFloat (S754_infinity neg) r) \/
   (exists s neg, PStr "1e999" = PStr s /\ Float.of_str s = Some (S754_infinity neg))).
Proof.
  apply (clickhouse_safe_int_raises_on_infinity_only (PStr "1e999") OverflowError).
  vm_compute. reflexivity.
Defined.

(** ** The snapshot of a raw ClickHouse node *)

Lemma lookup_remove {V : Type} (k k' : string) (d : list (string * V)) :
  Py.lookup k (Py.remove k' d) = if String.eqb k k' then None else Py.lookup k d.
Proof.
  induction d as [| [k0 v0] rest IH]; cbn [Py.remove Py.lookup].
  - destruct (String.eqb k k'); reflexivity.
  - destruct (String.eqb_spec k' k0) as [<- | Hne].
    + rewrite IH. destruct (String.eqb_spec k k'); [reflexivity |].
      destruct (String.eqb k k'); reflexivity.
    + cbn [Py.lookup]. destruct (String.eqb_spec k k0) as [-> | Hne'].
      * destruct (String.eqb_spec k0 k'); [congruence | reflexivity].
      * exact IH.
Qed.

Lemma pop_keys_lookup (keys : list string) :
  forall (d : list (string * pyval)) (k : string),
    Py.lookup k
      (fold_left (fun acc k' => if Py.has_key k' acc then Py.remove k' acc else acc) keys d)
    = if existsb (String.eqb k) keys then None else Py.lookup k d.
Proof.
  induction keys as [| k0 rest IH]; intros d k; cbn [fold_left existsb]; [reflexivity |].
  rewrite IH.
  assert (Hstep : Py.lookup k (if Py.has_key k0 d then Py.remove k0 d else d)
                  = if String.eqb k k0 then None else Py.lookup k d).
  { unfold Py.has_key. destruct (Py.lookup k0 d) eqn:E0.
    - apply lookup_remove.
    - destruct (String.eqb_spec k k0) as [-> | _]; [exact E0 | reflexivity]. }
  rewrite Hstep. destruct (String.eqb k k0), (existsb (String.eqb k) rest); reflexivity.
Qed.

(** The snapshot of a raw dictionary is that dictionary without its child
    keys: none of the five child keys is left, and every other key keeps its
    value. *)
Theorem snapshot_strips_child_keys (d : list (string * pyval)) :
  exists d',
    ClickHouseParser.snapshot (PDict d) = Ok (PDict d') /\
    (forall k, In k ClickHouseParser.child_keys -> Py.lookup k d' = None) /\
    (forall k, ~ In k ClickHouseParser.child_keys -> Py.lookup k d' = Py.lookup k d).
Proof.
  eexists. split; [reflexivity |]. split; intros k Hk; rewrite pop_keys_lookup.
  - replace (existsb (String.eqb k) ClickHouseParser.child_keys) with true; [reflexivity |].
    symmetry. apply existsb_exists. exists k. split; [exact Hk | apply String.eqb_refl].
  - destruct (existsb (String.eqb k) ClickHouseParser.child_keys) eqn:E; [| reflexivity].
    apply existsb_exists in E as [k' [Hin Heq]]. apply String.eqb_eq in Heq. subst k'.
    contradiction.
Qed.

(** ** The rows kept as plan rows *)

Lemma combine_fst {A B : Type} (l : list A) :
  forall l' : list B, (List.length l <= List.length l')%nat -> map fst (combine l l') = l.
Proof.
  induction l as [| a l IH]; intros [| b l'] H; simpl in *; try reflexivity; try lia.
  f_equal. apply IH. lia.
Qed.

Lemma plan_rows_In (rows : list (list pyval)) (e : SQLServerParser.entry) :
  In e (SQLServerParser.plan_rows rows) ->
  (exists row,
      In row rows /\ (20 <= List.length row)%nat /\ e = SQLServerParser.entry_of row) /\
  map fst e = SQLServerParser.columns /\
  (Py.truthy (Py.dget e "Type") = false \/
   Str.upper (Py.str (Py.dget e "Type")) = "PLAN_ROW").
Proof.
  induction rows as [| row rest IH]; cbn [SQLServerParser.plan_rows]; [intros [] |].
  destruct (Nat.ltb_spec (List.length row) (List.length SQLServerParser.columns)) as [Hlt | Hge].
  - intros H. destruct (IH H) as [[r [Hr Hrest]] Hk]. split; [| exact Hk].
    exists r. split; [right; exact Hr | exact Hrest].
  - destruct (Py.truthy (Py.dget (SQLServerParser.entry_of row) "Type")) eqn:Et; cbn [andb].
    + destruct (String.eqb_spec
                  (Str.upper (Py.str (Py.dget (SQLServerParser.entry_of row) "Type")))
                  "PLAN_ROW") as [Heq | Hne]; cbn [negb].
      * intros [<- | H].
        -- split; [exists row; split; [left; reflexivity | split; [exact Hge | reflexivity]] |].
           split; [apply combine_fst; exact Hge | right; exact Heq].
        -- destruct (IH H) as [[r [Hr Hrest]] Hk]. split; [| exact Hk].
           exists r. split; [right; exact Hr | exact Hrest].
      * intros H. destruct (IH H) as [[r [Hr Hrest]] Hk]. split; [| exact Hk].
        exists r. split; [right; exact Hr | exact Hrest].
    + intros [<- | H].
      * split; [exists row; split; [left; reflexivity | split; [exact Hge | reflexivity]] |].
        split; [apply combine_fst; exact Hge | left; exact Et].
      * destruct (IH H) as [[r [Hr Hrest]] Hk]. split; [| exact Hk].
        exists r. split; [right; exact Hr | exact Hrest].
Qed.

(** Every entry [plan_rows] keeps comes from a row with a value for each of
    the twenty columns, has exactly those columns as its keys, and has type
    PLAN_ROW or no type; no entry is made up. *)
Theorem plan_rows_are_plan_rows (rows : list (list pyval)) (e : SQLServerParser.entry) :
  In e (SQLServerParser.plan_rows rows) ->
  (exists row,
      In row rows /\ (20 <= List.length row)%nat /\ e = SQLServerParser.entry_of row) /\
  map fst e = SQLServerParser.columns /\
  (Py.truthy (Py.dget e "Type") = false \/
   Str.upper (Py.str (Py.dget e "Type")) = "PLAN_ROW").
Proof.
  apply plan_rows_In.
Qed.

Lemma plan_rows_are_plan_rows_witness :
  (exists row,
      In row Inputs.null_physical /\ (20 <= List.length row)%nat /\
      SQLServerParser.entry_of (Inputs.row (PInt 1) (PInt 0) PNone PNone PNone PNone PNone)
      = SQLServerParser.entry_of row) /\
  map fst (SQLServerParser.entry_of (Inputs.row (PInt 1) (PInt 0) PNone PNone PNone PNone PNone))
  = SQLServerParser.columns /\
  (Py.truthy
     (Py.dget (SQLServerParser.entry_of
                 (Inputs.row (PInt 1) (PInt 0) PNone PNone PNone PNone PNone)) "Type") = false \/
   Str.upper
     (Py.str
        (Py.dget (SQLServerParser.entry_of
                    (Inputs.row (PInt 1) (PInt 0) PNone PNone PNone PNone PNone)) "Type"))
   = "PLAN_ROW").
Proof.
  apply (plan_rows_are_plan_rows Inputs.null_physical).
  left. reflexivity.
Defined.

(** ** Leaf detection of the SQL Server parser *)

(** [is_leaf_operator] agrees with [build_relop] on an element, and says of
    no plan row that it is a leaf: a row has no ["children"] item. *)
Theorem is_leaf_operator_on_elements_and_rows :
  (forall fuel self e n self',
      SQLServerParser.build_relop (S fuel) self e = Ok (n, self') ->
      SQLServerLeaf.is_leaf_operator (inl e) = Ok (is_leaf n)) /\
  (forall rows e,
      In e (SQLServerParser.plan_rows rows) ->
      SQLServerLeaf.is_leaf_operator (inr (PDict e)) = Ok false).
Proof.
  split.
  - intros fuel self e n self' H. apply SQLServerFacts.build_relop_inv in H.
    cbn [SQLServerLeaf.is_leaf_operator].
    destruct H as [op s Hk -> | op s kids Hk _ ->]; cbn [is_leaf].
    + rewrite Hk. reflexivity.
    + destruct (SQLServerParser._extract_children e); [contradiction | reflexivity].
  - intros rows e He. apply plan_rows_In in He as [_ [Hk _]].
    cbn [SQLServerLeaf.is_leaf_operator].
    assert (Hn : Py.has_key "children" e = false).
    { unfold Py.has_key. destruct (Py.lookup "children" e) eqn:El; [| reflexivity].
      exfalso. assert (Hin : In "children" (map fst e)).
      { clear Hk. induction e as [| [k v] rest IH]; [discriminate |].
        cbn [Py.lookup] in El. destruct (String.eqb_spec "children" k) as [<- | _].
        - left. reflexivity.
        - right. apply IH. exact El. }
      rewrite Hk in Hin. vm_compute in Hin. intuition discriminate. }
    rewrite Hn. reflexivity.
Qed.

Lemma is_leaf_operator_on_elements_and_rows_witness :
  SQLServerLeaf.is_leaf_operator
    (inr (PDict (SQLServerParser.entry_of
                   (Inputs.row (PInt 1) (PInt 0) PNone PNone PNone PNone PNone))))
  = Ok false.
Proof.
  apply (proj2 is_leaf_operator_on_elements_and_rows Inputs.null_physical).
  left. reflexivity.
Defined.

(** ** The counter of the ClickHouse parser *)

Lemma fill_operator_id (op op' : QueryOperator) (plan : pyval) (dbms_type : DBMSType) :
  fill op plan dbms_type = Ok op' -> operator_id op' = operator_id op.
Proof.
  destruct op, dbms_type; cbn [fill]; intros H;
    repeat match type of H with
           | bind _ _ = Ok _ => let v := fresh "v" in let E := fresh "E" in bind_inv H as v E
           | (let (_, _) := ?p in _) = Ok _ => destruct p
           | (if ?b then _ else _) = Ok _ => destruct b
           end;
    injection H as <-; reflexivity.
Qed.

Module CounterFacts.
Import ClickHouseParser ClickHouseRaw ClickHouseIds.

Lemma create_operator_id (operator_name id : pyval) :
  operator_id (create_empty_operator operator_name id) = id.
Proof.
  unfold create_empty_operator.
  repeat match goal with |- context [if ?b then _ else _] => destruct b end; reflexivity.
Qed.

Lemma extract_operator_id_state (self self1 : t) (j id : pyval) :
  _extract_operator_id self j = (id, self1) ->
  include_system_representation self1 = include_system_representation self /\
  op_counter self <= op_counter self1 /\
  (anonymous j = true -> id = PInt (op_counter self) /\ op_counter self1 = op_counter self + 1).
Proof.
  unfold _extract_operator_id, anonymous, next_id.
  destruct j; try (intros [= <- <-]; cbn; repeat split; lia).
  destruct (first_key (fun v => negb (Py.is_none v)) id_keys d).
  - intros [= <- <-]. repeat split; try lia; discriminate.
  - intros [= <- <-]. cbn. repeat split; lia.
Qed.

Lemma operator_ids_inner op e x kids s :
  operator_ids (InnerNode op e x kids s) = operator_id op :: flat_map operator_ids kids.
Proof.
  unfold operator_ids. cbn [nodes map operator]. f_equal.
  induction kids as [| k rest IH]; [reflexivity |].
  cbn [flat_map]. rewrite map_app, IH. reflexivity.
Qed.

Lemma operator_ids_set_limit (n : PlanNode) (v : pyval) :
  operator_ids (set_operator n (set_limit (operator n) v)) = operator_ids n.
Proof.
  assert (Hid : forall o, operator_id (set_limit o v) = operator_id o) by (intros []; reflexivity).
  destruct n as [o e x s | o e x kids s]; cbn [set_operator operator].
  - unfold operator_ids. cbn. rewrite Hid. reflexivity.
  - rewrite !operator_ids_inner, Hid. reflexivity.
Qed.

Lemma operator_ids_merge_limit (op : QueryOperator) (n : PlanNode) :
  operator_ids (merge_limit op n) = operator_ids n.
Proof.
  unfold merge_limit. destruct (negb (Py.is_none (limit_of op))); [| reflexivity].
  apply operator_ids_set_limit.
Qed.

Lemma within_weaken (lo hi lo' hi' : Z) (ids : list pyval) :
  lo' <= lo -> hi <= hi' -> within lo hi ids -> within lo' hi' ids.
Proof.
  intros Hl Hh H. unfold within in *. eapply Forall_impl; [| exact H].
  intros id [z [-> Hz]]. exists z. split; [reflexivity | lia].
Qed.

Lemma within_In (lo hi z : Z) (ids : list pyval) :
  within lo hi ids -> In (PInt z) ids -> lo <= z < hi.
Proof.
  intros H Hin. unfold within in H. rewrite Forall_forall in H.
  destruct (H _ Hin) as [z' [[= ->] Hz]]. exact Hz.
Qed.

Lemma NoDup_ranges (a b c : Z) (l1 l2 : list pyval) :
  within a b l1 -> within b c l2 -> NoDup l1 -> NoDup l2 -> NoDup (l1 ++ l2).
Proof.
  intros H1 H2 N1 N2. apply NoDup_app; [exact N1 | exact N2 |].
  intros id Hin1 Hin2. unfold within in H1. rewrite Forall_forall in H1.
  destruct (H1 _ Hin1) as [z [-> Hz]].
  pose proof (within_In _ _ _ _ H2 Hin2). lia.
Qed.

Lemma build_each_advances (f : t -> pyval -> result (PlanNode * t)) :
  forall items self kids self',
    (forall s j n s', In j items -> f s j = Ok (n, s') -> advances s j n s') ->
    build_each f self items = Ok (kids, self') ->
    include_system_representation self' = include_system_representation self /\
    op_counter self <= op_counter self' /\
    ((forall j r, In j items -> below j r -> anonymous r = true) ->
     NoDup (flat_map operator_ids kids) /\
     within (op_counter self) (op_counter self') (flat_map operator_ids kids)).
Proof.
  induction items as [| x rest IH]; cbn [build_each]; intros self kids self' Hf H.
  - injection H as <- <-. repeat split; try lia; constructor.
  - bind_inv H as r1 E1. destruct r1 as [y s1].
    bind_inv H as r2 E2. destruct r2 as [ys s2]. injection H as <- <-.
    destruct (Hf _ _ _ _ (or_introl eq_refl) E1) as [F1 [C1 U1]].
    destruct (IH s1 ys s2 (fun s j n s' Hin => Hf s j n s' (or_intror Hin)) E2) as [F2 [C2 U2]].
    split; [congruence |]. split; [lia |]. intros Ha. cbn [flat_map].
    destruct (U1 (fun r => Ha x r (or_introl eq_refl))) as [N1 W1].
    destruct (U2 (fun j r Hin => Ha j r (or_intror Hin))) as [N2 W2].
    split.
    + eapply NoDup_ranges; eassumption.
    + apply Forall_app. split.
      * eapply within_weaken; [| | exact W1]; lia.
      * eapply within_weaken; [| | exact W2]; lia.
Qed.

Lemma leaf_advances (self self1 self2 : t) (j id : pyval) (op : QueryOperator)
  (e x : option Z) (s : sysrep) :
  _extract_operator_id self j = (id, self1) ->
  operator_id op = id ->
  include_system_representation self2 = include_system_representation self1 ->
  op_counter self1 <= op_counter self2 ->
  advances self j (LeafNode op e x s) self2.
Proof.
  intros Eid Hop F C. destruct (extract_operator_id_state _ _ _ _ Eid) as [F1 [C1 A1]].
  split; [congruence |]. split; [lia |]. intros Ha.
  destruct (A1 (Ha j (below_here j))) as [-> Hc].
  unfold operator_ids. cbn [nodes map operator]. rewrite Hop. split.
  - constructor; [intros [] | constructor].
  - constructor; [| constructor]. eexists. split; [reflexivity | lia].
Qed.

(** The end of [build_initial_plan], from the parser [self2] on. *)
Lemma tail_advances (fuel : nat) (self self1 self2 self' : t) (j id : pyval) (n : PlanNode)
  (op : QueryOperator) (e x : option Z) (s : sysrep) :
  (forall s0 c n0 s0', build_initial_plan fuel s0 c = Ok (n0, s0') -> advances s0 c n0 s0') ->
  _extract_operator_id self j = (id, self1) ->
  operator_id op = id ->
  include_system_representation self2 = include_system_representation self1 ->
  op_counter self1 <= op_counter self2 ->
  (leaf <- is_leaf_operator j ;;
   if leaf then Ok (LeafNode op e x s, self2)
   else
     items <- Py.iter (_extract_children j) ;;
     ' (children, self3) <- build_each (build_initial_plan fuel) self2 items ;;
     Ok (InnerNode op e x children s, self3)) = Ok (n, self') ->
  advances self j n self'.
Proof.
  intros IH Eid Hop F C H. bind_inv H as lf El. destruct lf.
  - injection H as <- <-. eapply leaf_advances; eassumption.
  - bind_inv H as items Ei. bind_inv H as r Er. destruct r as [kids s3].
    injection H as <- <-.
    destruct (build_each_advances _ _ _ _ _ (fun s0 c n0 s0' _ => IH s0 c n0 s0') Er)
      as [F3 [C3 U3]].
    destruct (extract_operator_id_state _ _ _ _ Eid) as [F1 [C1 A1]].
    split; [congruence |]. split; [lia |]. intros Ha.
    destruct (A1 (Ha j (below_here j))) as [-> Hc].
    destruct U3 as [N3 W3].
    { intros c r Hin Hr. apply Ha. eapply below_child; [right; exists items; split; eassumption |].
      exact Hr. }
    rewrite operator_ids_inner, Hop. split.
    + constructor; [| exact N3]. intros Hin.
      pose proof (within_In _ _ _ _ W3 Hin). lia.
    + constructor.
      * eexists. split; [reflexivity | lia].
      * eapply within_weaken; [| | exact W3]; lia.
Qed.

Lemma build_initial_plan_advances :
  forall fuel self j n self',
    build_initial_plan fuel self j = Ok (n, self') -> advances self j n self'.
Proof.
  induction fuel as [| fuel IH]; intros self j n self'; [discriminate |].
  rewrite ClickHouseFacts.build_initial_plan_unfold. cbv zeta.
  destruct (_extract_operator_id self j) as [id self1] eqn:Eid.
  destruct (extract_operator_id_state _ _ _ _ Eid) as [F1 [C1 A1]].
  assert (Helide : forall c,
             Py.first (_extract_children j) = Ok c ->
             forall n0 s0, advances self1 c n0 s0 -> advances self j n0 s0).
  { intros c Ec n0 s0 [F [C U]]. split; [congruence |]. split; [lia |]. intros Ha.
    destruct U as [N W].
    - intros r Hr. apply Ha. eapply below_child; [left; exact Ec | exact Hr].
    - split; [exact N |]. eapply within_weaken; [| | exact W]; lia. }
  destruct (Str.startswith (Str.lower (Py.str (_extract_operator_name j))) "expression")
    eqn:Eexpr; cbn [andb].
  - destruct (Py.truthy (_extract_children j)) eqn:Ekids.
    + intros H. bind_inv H as c Ec. eapply Helide; [exact Ec |]. apply IH. exact H.
    + intros H. bind_inv H as op Eop. bind_inv H as cards Ecards. destruct cards as [e x].
      bind_inv H as sr Esr. rewrite andb_false_r in H.
      bind_inv H as early Ee. injection Ee as <-.
      eapply tail_advances; try eassumption; try reflexivity; try lia.
      rewrite (fill_operator_id _ _ _ _ Eop). apply create_operator_id.
  - intros H. bind_inv H as op Eop. bind_inv H as cards Ecards. destruct cards as [e x].
    bind_inv H as sr Esr. bind_inv H as early Ee. destruct early as [m self2].
    assert (Hop : operator_id op = id)
      by (rewrite (fill_operator_id _ _ _ _ Eop); apply create_operator_id).
    destruct (is_limit op && Py.truthy (_extract_children j)) eqn:Elim.
    + bind_inv Ee as c Ec. bind_inv Ee as r Er. destruct r as [mc s2].
      pose proof (IH _ _ _ _ Er) as Hmc.
      destruct (OperatorType.eqb (operator_type (operator mc)) OperatorType.Sort) eqn:Esort.
      * injection Ee as <- <-. injection H as <- <-.
        apply (Helide c Ec). destruct Hmc as [F [C U]].
        split; [exact F |]. split; [exact C |]. rewrite operator_ids_merge_limit. exact U.
      * injection Ee as <- <-. destruct Hmc as [F [C _]].
        eapply tail_advances; try eassumption.
    + injection Ee as <- <-.
      eapply tail_advances; try eassumption; try reflexivity; try lia.
Qed.

End CounterFacts.

(** A call of [build_initial_plan] that returns leaves the flag of the parser
    as it was and never lowers its counter, whatever the payload. *)
Theorem build_initial_plan_counter_grows
  (fuel : nat) (self self' : ClickHouseParser.t) (j : pyval) (n : PlanNode) :
  ClickHouseParser.build_initial_plan fuel self j = Ok (n, self') ->
  ClickHouseParser.include_system_representation self'
  = ClickHouseParser.include_system_representation self /\
  ClickHouseParser.op_counter self <= ClickHouseParser.op_counter self'.
Proof.
  intros H. destruct (CounterFacts.build_initial_plan_advances _ _ _ _ _ H) as [F [C _]].
  split; assumption.
Qed.

Lemma build_initial_plan_counter_grows_witness :
  ClickHouseParser.include_system_representation (ClickHouseParser.mk false 3) = false /\
  0 <= ClickHouseParser.op_counter (ClickHouseParser.mk false 3).
Proof.
  apply (build_initial_plan_counter_grows 2 (ClickHouseParser.mk false 0)
           (ClickHouseParser.mk false 3) limit_over_read
           (InnerNode (CustomOperator (PStr "Limit") (PInt 0) PNone) None None
              [LeafNode (TableScan (PInt 2) PNone PNone PNone) None None SysNone] SysNone)).
  reflexivity.
Defined.

(** When no raw node of the payload brings an id of its own, the operator
    ids of the plan [build_initial_plan] returns are pairwise distinct
    integers, all of them taken from the counter during the call. *)
Theorem counter_ids_are_distinct
  (fuel : nat) (self self' : ClickHouseParser.t) (j : pyval) (n : PlanNode) :
  (forall r, ClickHouseRaw.below j r -> ClickHouseIds.anonymous r = true) ->
  ClickHouseParser.build_initial_plan fuel self j = Ok (n, self') ->
  NoDup (operator_ids n) /\
  ClickHouseIds.within (ClickHouseParser.op_counter self) (ClickHouseParser.op_counter self')
    (operator_ids n).
Proof.
  intros Ha H. destruct (CounterFacts.build_initial_plan_advances _ _ _ _ _ H) as [_ [_ U]].
  apply U. exact Ha.
Qed.

Lemma counter_ids_are_distinct_witness :
  NoDup [PInt 0; PInt 2] /\ ClickHouseIds.within 0 3 [PInt 0; PInt 2].
Proof.
  apply (counter_ids_are_distinct 2 (ClickHouseParser.mk false 0)
           (ClickHouseParser.mk false 3) limit_over_read
           (InnerNode (CustomOperator (PStr "Limit") (PInt 0) PNone) None None
              [LeafNode (TableScan (PInt 2) PNone PNone PNone) None None SysNone] SysNone));
    [| reflexivity].
  assert (Hread : forall r, ClickHouseRaw.below Inputs.read_node r ->
                            ClickHouseIds.anonymous r = true).
  { intros r Hr. inversion Hr as [| j0 c r0 Hc _]; subst; [reflexivity |].
    destruct Hc as [Hc | [items [Hi Hin]]]; [discriminate |].
    injection Hi as <-. destruct Hin. }
  intros r Hr. inversion Hr as [| j0 c r0 Hc Hb]; subst; [reflexivity |].
  destruct Hc as [Hc | [items [Hi Hin]]].
  - injection Hc as <-. apply Hread. exact Hb.
  - injection Hi as <-. destruct Hin as [<- | []]. apply Hread. exact Hb.
Defined.

(** ** The rows behind the nodes of the flat shape *)

Module RowFacts.
Import SQLServerParser.

Lemma sql_create_operator_id (operator_name id : pyval) (op : QueryOperator) :
  create_empty_operator operator_name id = Ok op -> operator_id op = id.
Proof.
  unfold create_empty_operator. intros H. bind_inv H as name En.
  repeat match type of H with (if ?b then _ else _) = Ok _ => destruct b end;
    injection H as <-; reflexivity.
Qed.

Lemma node_map_source :
  forall entries acc node_map,
    node_map_of entries acc = Ok node_map ->
    forall nid info,
      zlookup nid node_map = Some info ->
      (In info entries /\ Py.int (Py.dget info "NodeId") = Ok nid) \/
      zlookup nid acc = Some info.
Proof.
  induction entries as [| n rest IH]; cbn [node_map_of]; intros acc node_map H nid info Hl.
  - injection H as <-. auto.
  - destruct (Py.is_none (Py.dget n "NodeId")).
    + destruct (IH _ _ H _ _ Hl) as [[Hin Hid] | Hacc]; [left | right]; auto.
      split; [right; exact Hin | exact Hid].
    + bind_inv H as k Ek. destruct (IH _ _ H _ _ Hl) as [[Hin Hid] | Hacc].
      * left. split; [right; exact Hin | exact Hid].
      * rewrite CardinalityFacts.zlookup_zset in Hacc.
        destruct (Z.eqb_spec nid k) as [-> | Hne]; [| right; exact Hacc].
        injection Hacc as <-. left. split; [left; reflexivity | exact Ek].
Qed.

Lemma build_node_rows (node_map : list (Z * entry)) (children_map : list (Z * list Z)) :
  forall fuel node_id n,
    build_node fuel node_map children_map node_id = Ok n ->
    forall m, In m (nodes n) ->
    exists nid info,
      zlookup nid node_map = Some info /\
      operator_id (operator m) = PInt nid /\
      system_representation m = SysJson (PDict info).
Proof.
  induction fuel as [| fuel IH]; intros node_id n H m Hm; [discriminate |].
  cbn [build_node] in H.
  destruct (zlookup node_id node_map) as [info |] eqn:Einfo; [| discriminate].
  bind_inv H as info1 E1. bind_inv H as name En. bind_inv H as op0 E0. bind_inv H as op Eop.
  bind_inv H as kids Ek.
  assert (Hop : operator_id op = PInt node_id)
    by (rewrite (fill_operator_id _ _ _ _ Eop); eapply sql_create_operator_id; exact E0).
  assert (Hkids : forall k, In k kids -> forall m', In m' (nodes k) ->
             exists nid info0,
               zlookup nid node_map = Some info0 /\
               operator_id (operator m') = PInt nid /\
               system_representation m' = SysJson (PDict info0)).
  { apply each_Forall2 in Ek. clear H Hm.
    induction Ek as [| cid k ids ks Hb _ IHk]; intros k0 Hk0; [destruct Hk0 |].
    destruct Hk0 as [<- | Hk0]; [intros m' Hm'; eapply IH; eauto | exact (IHk k0 Hk0)]. }
  assert (Hhere : forall ks m',
             In m' (nodes (InnerNode op (_safe_int (Py.dget info "EstimateRows"))
                             (default_exact (_safe_int (Py.dget info "EstimateRows"))
                                (_safe_int (Py.dget info "Rows"))) ks (SysJson (PDict info)))) ->
             (forall k, In k ks -> In k kids) ->
             exists nid info0,
               zlookup nid node_map = Some info0 /\
               operator_id (operator m') = PInt nid /\
               system_representation m' = SysJson (PDict info0)).
  { intros ks m' Hm' Hsub. apply in_nodes_inner in Hm' as [-> | [k [Hk Hm']]].
    - exists node_id, info. auto.
    - eapply Hkids; eauto. }
  destruct kids as [| k1 [| k2 rest]].
  - injection H as <-. apply in_nodes_leaf in Hm as ->. exists node_id, info. auto.
  - destruct (Str.startswith _ "parallelism").
    + injection H as <-. eapply Hkids; [left; reflexivity | exact Hm].
    + injection H as <-. eapply Hhere; [exact Hm | auto].
  - injection H as <-. eapply Hhere; [exact Hm | auto].
Qed.

End RowFacts.

(** In a plan the SQL Server parser returns for rows, every node below the
    synthetic root keeps one of the rows that passed the filter as its system
    representation, whatever [include_system_representation] says, and has
    the integer value of that row's NodeId as its operator id; the parser
    itself is left as it was. *)
Theorem row_nodes_keep_their_rows
  (fuel : nat) (self self' : SQLServerParser.t) (query : string)
  (rows : list (list pyval)) (qp : QueryPlan) :
  SQLServerParser.parse_json_plan fuel self query (Rows rows) = Ok (qp, self') ->
  self' = self /\
  exists child,
    children (plan qp) = [child] /\
    forall m, In m (nodes child) ->
      exists nid info,
        In info (SQLServerParser.plan_rows rows) /\
        Py.int (Py.dget info "NodeId") = Ok nid /\
        operator_id (operator m) = PInt nid /\
        system_representation m = SysJson (PDict info).
Proof.
  unfold SQLServerParser.parse_json_plan. intros H.
  bind_inv H as r Er. destruct r as [p s1]. bind_inv Er as p0 Ep. injection Er as -> <-.
  injection H as <- <-. split; [reflexivity |].
  exists p. split; [reflexivity |]. intros m Hm.
  unfold SQLServerParser._build_from_rows in Ep.
  bind_inv Ep as node_map Emap. bind_inv Ep as linked El. destruct linked as [cm root].
  match type of Ep with
  | match ?r with Some _ => _ | None => _ end = _ =>
      destruct r as [rid |]; [| discriminate]
  end.
  destruct (RowFacts.build_node_rows _ _ _ _ _ Ep m Hm) as [nid [info [Hl [Hid Hs]]]].
  exists nid, info.
  destruct (RowFacts.node_map_source _ _ _ Emap _ _ Hl) as [[Hin Hint] | Hacc];
    [| discriminate].
  auto.
Qed.

Lemma row_nodes_keep_their_rows_witness :
  SQLServerParser.mk false 0 = SQLServerParser.mk false 0 /\
  exists child,
    children (plan Outputs.sort_over_scan) = [child] /\
    forall m, In m (nodes child) ->
      exists nid info,
        In info (SQLServerParser.plan_rows Inputs.sort_over_scan) /\
        Py.int (Py.dget info "NodeId") = Ok nid /\
        operator_id (operator m) = PInt nid /\
        system_representation m = SysJson (PDict info).
Proof.
  apply (row_nodes_keep_their_rows 2 (SQLServerParser.mk false 0) (SQLServerParser.mk false 0)
           "SELECT 1" Inputs.sort_over_scan Outputs.sort_over_scan).
  reflexivity.
Defined.

(** ** The elements behind the nodes of the XML shape *)

Module RelOpFacts.
Import SQLServerParser SQLServerRaw SQLServerIds.

Lemma relop_operator_id_state (self self1 : t) (e : Element) (id : pyval) :
  _extract_operator_id self e = (id, self1) ->
  include_system_representation self1 = include_system_representation self /\
  op_counter self <= op_counter self1 /\
  (ET.get e "NodeId" <> PNone ->
   self1 = self /\ id = id_of_attribute (ET.get e "NodeId")).
Proof.
  unfold _extract_operator_id, id_of_attribute.
  destruct (ET.get e "NodeId"); intros [= <- <-]; cbn;
    repeat split; try lia; try congruence.
Qed.

Lemma build_each_traces (f : t -> Element -> result (PlanNode * t)) :
  forall items self kids self',
    (forall s c n s', In c items -> f s c = Ok (n, s') -> traces s c n s') ->
    build_each f self items = Ok (kids, self') ->
    include_system_representation self' = include_system_representation self /\
    op_counter self <= op_counter self' /\
    ((forall c r, In c items -> below c r -> ET.get r "NodeId" <> PNone) -> self' = self) /\
    (forall k m, In k kids -> In m (nodes k) ->
       exists c r, In c items /\ below c r /\
                   made_from (include_system_representation self) r m).
Proof.
  induction items as [| x rest IH]; cbn [build_each]; intros self kids self' Hf H.
  - injection H as <- <-. repeat split; try lia. intros k m [].
  - bind_inv H as r1 E1. destruct r1 as [y s1].
    bind_inv H as r2 E2. destruct r2 as [ys s2]. injection H as <- <-.
    destruct (Hf _ _ _ _ (or_introl eq_refl) E1) as [F1 [C1 [S1 N1]]].
    destruct (IH s1 ys s2 (fun s c n s' Hin => Hf s c n s' (or_intror Hin)) E2)
      as [F2 [C2 [S2 N2]]].
    split; [congruence |]. split; [lia |]. split.
    + intros Hall.
      assert (s1 = self) as -> by (apply S1; intros r Hr; apply (Hall x r); auto; left; auto).
      apply S2. intros c r Hc. apply Hall. right. exact Hc.
    + intros k m [<- | Hk] Hm.
      * destruct (N1 m Hm) as [r [Hr Hmade]]. exists x, r.
        split; [left; reflexivity | split; assumption].
      * destruct (N2 k m Hk Hm) as [c [r [Hc [Hr Hmade]]]]. exists c, r.
        rewrite <- F1. split; [right; exact Hc | split; assumption].
Qed.

Lemma build_relop_traces :
  forall fuel self e n self',
    build_relop fuel self e = Ok (n, self') -> traces self e n self'.
Proof.
  induction fuel as [| fuel IH]; intros self e n self' H; [discriminate |].
  cbn [build_relop] in H.
  bind_inv H as name En.
  destruct (_extract_operator_id self e) as [id self1] eqn:Eid.
  destruct (relop_operator_id_state _ _ _ _ Eid) as [F1 [C1 A1]].
  bind_inv H as info Ei. bind_inv H as lname El. bind_inv H as op0 E0. bind_inv H as op Eop.
  assert (Hop : operator_id op = id)
    by (rewrite (fill_operator_id _ _ _ _ Eop); eapply RowFacts.sql_create_operator_id; exact E0).
  assert (Hhere : forall m,
             operator m = op ->
             system_representation m
             = (if include_system_representation self1 then SysXml e else SysNone) ->
             made_from (include_system_representation self) e m).
  { intros m Hm Hs. split; [rewrite Hs, F1; reflexivity |].
    intros Hid. rewrite Hm, Hop. apply A1. exact Hid. }
  destruct (_extract_children e) as [| c rest] eqn:Ek.
  - injection H as <- <-. split; [exact F1 |]. split; [exact C1 |]. split.
    + intros Hall. apply A1. apply Hall. constructor.
    + intros m Hm. apply in_nodes_leaf in Hm as ->. exists e.
      split; [constructor | apply Hhere; reflexivity].
  - bind_inv H as r Er. destruct r as [kids s2]. injection H as <- <-.
    destruct (build_each_traces _ _ _ _ _ (fun s c0 n0 s' _ => IH s c0 n0 s') Er)
      as [F2 [C2 [S2 N2]]].
    split; [congruence |]. split; [lia |]. split.
    + intros Hall.
      assert (self1 = self) as -> by (apply A1; apply Hall; constructor).
      apply S2. intros c0 r Hc Hr. apply Hall. eapply below_child; [| exact Hr].
      rewrite Ek. exact Hc.
    + intros m Hm. apply in_nodes_inner in Hm as [-> | [k [Hk Hm]]].
      * exists e. split; [constructor | apply Hhere; reflexivity].
      * destruct (N2 k m Hk Hm) as [c0 [r [Hc [Hr Hmade]]]]. exists r. split.
        -- eapply below_child; [| exact Hr]. rewrite Ek. exact Hc.
        -- rewrite <- F1. exact Hmade.
Qed.

End RelOpFacts.

(** Every node of a plan [build_relop] returns was made from a RelOp element
    at or below the one it was called with: the node keeps that element as
    its system representation when [include_system_representation] is set
    and nothing otherwise, and its operator id is read off the element's
    NodeId attribute when there is one. *)
Theorem relop_nodes_follow_the_flag
  (fuel : nat) (self self' : SQLServerParser.t) (e : Element) (n : PlanNode) :
  SQLServerParser.build_relop fuel self e = Ok (n, self') ->
  forall m, In m (nodes n) ->
    exists r,
      SQLServerRaw.below e r /\
      SQLServerIds.made_from (SQLServerParser.include_system_representation self) r m.
Proof.
  intros H. destruct (RelOpFacts.build_relop_traces _ _ _ _ _ H) as [_ [_ [_ N]]]. exact N.
Qed.

Lemma relop_nodes_follow_the_flag_witness :
  exists r,
    SQLServerRaw.below Inputs.join_relop r /\
    SQLServerIds.made_from true r
      (LeafNode (TableScan (PInt 1) PNone PNone PNone) (Some 7) (Some 7)
         (SysXml Inputs.scan_relop)).
Proof.
  apply (relop_nodes_follow_the_flag 2 (SQLServerParser.mk true 0) (SQLServerParser.mk true 2)
           Inputs.join_relop Samples.join_over_scan).
  - reflexivity.
  - right. left. reflexivity.
Defined.

(** On a document in which every RelOp element that is reached has a NodeId
    attribute, [build_relop] does not touch the counter: the parser is left
    as it was. *)
Theorem numbered_relops_leave_the_parser
  (fuel : nat) (self self' : SQLServerParser.t) (e : Element) (n : PlanNode) :
  (forall r, SQLServerRaw.below e r -> ET.get r "NodeId" <> PNone) ->
  SQLServerParser.build_relop fuel self e = Ok (n, self') ->
  self' = self.
Proof.
  intros Hall H. destruct (RelOpFacts.build_relop_traces _ _ _ _ _ H) as [_ [_ [S _]]].
  apply S. exact Hall.
Qed.

Lemma numbered_relops_leave_the_parser_witness :
  SQLServerParser.mk true 5 = SQLServerParser.mk true 5.
Proof.
  apply (numbered_relops_leave_the_parser 1 (SQLServerParser.mk true 5)
           (SQLServerParser.mk true 5) Samples.numbered_scan
           (LeafNode (TableScan (PInt 7) PNone PNone PNone) None None
              (SysXml Samples.numbered_scan))); [| reflexivity].
  intros r Hr. inversion Hr as [| e0 c r0 Hc _]; subst; [discriminate | destruct Hc].
Defined.

(** ** The raw nodes behind the nodes of a ClickHouse plan *)

Module KeptFacts.
Import ClickHouseParser ClickHouseRaw ClickHouseKept.

Lemma flag_kept (fuel : nat) (self self' : t) (j : pyval) (n : PlanNode) :
  build_initial_plan fuel self j = Ok (n, self') ->
  include_system_representation self' = include_system_representation self.
Proof.
  intros H. destruct (CounterFacts.build_initial_plan_advances _ _ _ _ _ H) as [F _]. exact F.
Qed.

Lemma build_each_flag (fuel : nat) :
  forall items self kids self',
    build_each (build_initial_plan fuel) self items = Ok (kids, self') ->
    include_system_representation self' = include_system_representation self /\
    forall k, In k kids ->
      exists c s1 s2,
        In c items /\ build_initial_plan fuel s1 c = Ok (k, s2) /\
        include_system_representation s1 = include_system_representation self.
Proof.
  induction items as [| x rest IH]; cbn [build_each]; intros self kids self' H.
  - injection H as <- <-. split; [reflexivity | intros k []].
  - bind_inv H as r1 E1. destruct r1 as [y s1].
    bind_inv H as r2 E2. destruct r2 as [ys s2]. injection H as <- <-.
    pose proof (flag_kept _ _ _ _ _ E1) as F1.
    destruct (IH _ _ _ E2) as [F2 N2]. split; [congruence |].
    intros k [<- | Hk].
    + exists x, self, s1. split; [left; reflexivity | split; [exact E1 | reflexivity]].
    + destruct (N2 k Hk) as [c [sa [sb [Hc [Hb Hf]]]]]. exists c, sa, sb.
      split; [right; exact Hc | split; [exact Hb | congruence]].
Qed.

Lemma sysrep_set_operator (n : PlanNode) (op : QueryOperator) :
  system_representation (set_operator n op) = system_representation n.
Proof. destruct n; reflexivity. Qed.

Lemma keeps_here (flag : bool) (j : pyval) (sr : sysrep) (m : PlanNode) :
  (if flag then s <- snapshot j ;; Ok (SysJson s) else Ok SysNone) = Ok sr ->
  system_representation m = sr ->
  keeps flag j m.
Proof.
  unfold keeps. destruct flag; intros H Hm.
  - bind_inv H as s Es. injection H as <-. exists s. auto.
  - injection H as <-. exact Hm.
Qed.

(** The end of [build_initial_plan], from the parser [self2] on. *)
Lemma tail_keeps (fuel : nat) (self self2 self' : t) (j : pyval) (n : PlanNode)
  (op : QueryOperator) (e x : option Z) (s : sysrep) :
  (forall s0 c n0 s0', build_initial_plan fuel s0 c = Ok (n0, s0') ->
     forall m, In m (nodes n0) ->
       exists r, below c r /\ keeps (include_system_representation s0) r m) ->
  include_system_representation self2 = include_system_representation self ->
  (forall m, system_representation m = s -> keeps (include_system_representation self) j m) ->
  (leaf <- is_leaf_operator j ;;
   if leaf then Ok (LeafNode op e x s, self2)
   else
     items <- Py.iter (_extract_children j) ;;
     ' (children, self3) <- build_each (build_initial_plan fuel) self2 items ;;
     Ok (InnerNode op e x children s, self3)) = Ok (n, self') ->
  forall m, In m (nodes n) ->
    exists r, below j r /\ keeps (include_system_representation self) r m.
Proof.
  intros IH F Hs H m Hm. bind_inv H as lf El. destruct lf.
  - injection H as <- <-. apply in_nodes_leaf in Hm as ->.
    exists j. split; [constructor | apply Hs; reflexivity].
  - bind_inv H as items Ei. bind_inv H as r Er. destruct r as [kids s3].
    injection H as <- <-. apply in_nodes_inner in Hm as [-> | [k [Hk Hm]]].
    + exists j. split; [constructor | apply Hs; reflexivity].
    + destruct (build_each_flag _ _ _ _ _ Er) as [_ N].
      destruct (N k Hk) as [c [sa [sb [Hc [Hb Hf]]]]].
      destruct (IH _ _ _ _ Hb m Hm) as [r [Hr Hkeep]].
      exists r. split.
      * eapply below_child; [right; exists items; split; eassumption | exact Hr].
      * rewrite Hf, F in Hkeep. exact Hkeep.
Qed.

Lemma build_initial_plan_keeps :
  forall fuel self j n self',
    build_initial_plan fuel self j = Ok (n, self') ->
    forall m, In m (nodes n) ->
      exists r, below j r /\ keeps (include_system_representation self) r m.
Proof.
  induction fuel as [| fuel IH]; intros self j n self'; [discriminate |].
  rewrite ClickHouseFacts.build_initial_plan_unfold. cbv zeta.
  destruct (_extract_operator_id self j) as [id self1] eqn:Eid.
  destruct (CounterFacts.extract_operator_id_state _ _ _ _ Eid) as [F1 _].
  assert (Hchild : forall c n0 s0,
             Py.first (_extract_children j) = Ok c ->
             build_initial_plan fuel self1 c = Ok (n0, s0) ->
             forall m, In m (nodes n0) ->
               exists r, below j r /\ keeps (include_system_representation self) r m).
  { intros c n0 s0 Ec Hb m Hm. destruct (IH _ _ _ _ Hb m Hm) as [r [Hr Hk]].
    exists r. split; [eapply below_child; [left; exact Ec | exact Hr] |].
    rewrite F1 in Hk. exact Hk. }
  destruct (Str.startswith (Str.lower (Py.str (_extract_operator_name j))) "expression")
    eqn:Eexpr; cbn [andb].
  - destruct (Py.truthy (_extract_children j)) eqn:Ekids.
    + intros H. bind_inv H as c Ec. eapply Hchild; eassumption.
    + intros H. bind_inv H as op Eop. bind_inv H as cards Ecards. destruct cards as [e x].
      bind_inv H as sr Esr. rewrite andb_false_r in H.
      bind_inv H as early Ee. injection Ee as <-.
      eapply tail_keeps; [exact IH | exact F1 | | exact H].
      intros m Hm. rewrite F1 in Esr. eapply keeps_here; eassumption.
  - intros H. bind_inv H as op Eop. bind_inv H as cards Ecards. destruct cards as [e x].
    bind_inv H as sr Esr. bind_inv H as early Ee. destruct early as [mg self2].
    assert (Hs : forall m, system_representation m = sr ->
                           keeps (include_system_representation self) j m)
      by (intros m Hm; rewrite F1 in Esr; eapply keeps_here; eassumption).
    destruct (is_limit op && Py.truthy (_extract_children j)) eqn:Elim.
    + bind_inv Ee as c Ec. bind_inv Ee as r Er. destruct r as [mc s2].
      destruct (OperatorType.eqb (operator_type (operator mc)) OperatorType.Sort) eqn:Esort.
      * injection Ee as <- <-. injection H as <- <-. intros m Hm.
        unfold merge_limit in Hm. destruct (negb (Py.is_none (limit_of op))).
        -- apply in_nodes_set_operator in Hm as [-> | Hm].
           ++ destruct (Hchild _ _ _ Ec Er mc (in_nodes_self mc)) as [r [Hr Hk]].
              exists r. split; [exact Hr |].
              unfold keeps in *. rewrite sysrep_set_operator. exact Hk.
           ++ eapply Hchild; eassumption.
        -- eapply Hchild; eassumption.
      * injection Ee as <- <-.
        eapply tail_keeps; [exact IH | | exact Hs | exact H].
        rewrite (flag_kept _ _ _ _ _ Er). exact F1.
    + injection Ee as <- <-.
      eapply tail_keeps; [exact IH | exact F1 | exact Hs | exact H].
Qed.

End KeptFacts.

(** Every node of a plan [build_initial_plan] returns goes back to a raw
    node at or below the payload: with [include_system_representation] set it
    keeps the snapshot of that raw node, that is the raw node without its
    child keys, and without the flag it keeps nothing. *)
Theorem clickhouse_nodes_keep_snapshots
  (fuel : nat) (self self' : ClickHouseParser.t) (j : pyval) (n : PlanNode) (m : PlanNode) :
  ClickHouseParser.build_initial_plan fuel self j = Ok (n, self') ->
  In m (nodes n) ->
  exists r,
    ClickHouseRaw.below j r /\
    ClickHouseKept.keeps (ClickHouseParser.include_system_representation self) r m /\
    (ClickHouseParser.include_system_representation self = true ->
     forall k, In k ClickHouseParser.child_keys ->
       forall d, system_representation m = SysJson (PDict d) -> Py.lookup k d = None).
Proof.
  intros H Hm. destruct (KeptFacts.build_initial_plan_keeps _ _ _ _ _ H m Hm) as [r [Hr Hk]].
  exists r. split; [exact Hr |]. split; [exact Hk |].
  intros Hflag k Hin d Hd. rewrite Hflag in Hk. destruct Hk as [s [Hs Hm']].
  rewrite Hd in Hm'. injection Hm' as <-.
  destruct r as [| | | | | l | d0]; try discriminate.
  - cbn [ClickHouseParser.snapshot] in Hs.
    destruct (existsb _ ClickHouseParser.child_keys); discriminate.
  - injection Hs as <-.
    refine (eq_trans (pop_keys_lookup ClickHouseParser.child_keys d0 k) _).
    replace (existsb (String.eqb k) ClickHouseParser.child_keys) with true; [reflexivity |].
    symmetry. apply existsb_exists. exists k. split; [exact Hin | apply String.eqb_refl].
Qed.

Lemma clickhouse_nodes_keep_snapshots_witness :
  exists r,
    ClickHouseRaw.below Inputs.wrapped_read r /\
    ClickHouseKept.keeps true r
      (LeafNode (TableScan (PInt 1) PNone PNone PNone) None None (SysJson Inputs.read_node)) /\
    (true = true ->
     forall k, In k ClickHouseParser.child_keys ->
       forall d,
         system_representation
           (LeafNode (TableScan (PInt 1) PNone PNone PNone) None None
              (SysJson Inputs.read_node)) = SysJson (PDict d) ->
         Py.lookup k d = None).
Proof.
  apply (clickhouse_nodes_keep_snapshots 2 (ClickHouseParser.mk true 0)
           (ClickHouseParser.mk true 2) Inputs.wrapped_read
           (LeafNode (TableScan (PInt 1) PNone PNone PNone) None None
              (SysJson Inputs.read_node))).
  - reflexivity.
  - left. reflexivity.
Defined.

(** ** Splitting and joining *)

Module SplitFacts.

Lemma contains_char (c a : ascii) (r : string) :
  Str.contains (String c "") (String a r)
  = (Ascii.eqb c a || Str.contains (String c "") r)%bool.
Proof.
  cbn [Str.contains prefix].
  destruct (ascii_dec c a) as [-> | Hne].
  - rewrite Ascii.eqb_refl. destruct r; reflexivity.
  - apply Ascii.eqb_neq in Hne. rewrite Hne. reflexivity.
Qed.

Lemma split_not_nil (sep : ascii) (s : string) : Str.split sep s <> [].
Proof.
  destruct s as [| c r]; cbn [Str.split]; [discriminate |].
  destruct (Ascii.eqb c sep); [discriminate |].
  destruct (Str.split sep r); discriminate.
Qed.

Lemma split_parts (sep : ascii) (s : string) :
  Forall (fun p => Str.contains (String sep "") p = false) (Str.split sep s).
Proof.
  induction s as [| c r IH]; cbn [Str.split].
  - constructor; [reflexivity | constructor].
  - destruct (Ascii.eqb c sep) eqn:Ec.
    + constructor; [reflexivity | exact IH].
    + destruct (Str.split sep r) as [| h t].
      * constructor; [| constructor]. rewrite contains_char, Ascii.eqb_sym, Ec. reflexivity.
      * inversion IH as [| ? ? Hh Ht]; subst. constructor; [| exact Ht].
        rewrite contains_char, Ascii.eqb_sym, Ec. exact Hh.
Qed.

Lemma split_whole (sep : ascii) (p : string) :
  Str.contains (String sep "") p = false -> Str.split sep p = [p].
Proof.
  induction p as [| c r IH]; [reflexivity |].
  rewrite contains_char. intros H. apply orb_false_elim in H as [Hc Hr].
  cbn [Str.split]. rewrite Ascii.eqb_sym, Hc, (IH Hr). reflexivity.
Qed.

Lemma split_app (sep : ascii) (a b : string) :
  Str.split sep (a ++ String sep b) = (Str.split sep a ++ Str.split sep b)%list.
Proof.
  induction a as [| c r IH]; cbn [String.append Str.split app].
  - rewrite Ascii.eqb_refl. reflexivity.
  - destruct (Ascii.eqb c sep); [rewrite IH; reflexivity |].
    rewrite IH. pose proof (split_not_nil sep r) as Hr.
    destruct (Str.split sep r) as [| h t]; [contradiction | reflexivity].
Qed.

Lemma last_app {A : Type} (l1 l2 : list A) (d : A) :
  l2 <> [] -> last (l1 ++ l2)%list d = last l2 d.
Proof.
  intros H2. induction l1 as [| x r IH]; [reflexivity |].
  cbn [app]. change (last (x :: (r ++ l2)%list) d)
    with (match (r ++ l2)%list with [] => x | _ :: _ => last (r ++ l2)%list d end).
  destruct (r ++ l2)%list eqn:E; [| exact IH].
  apply app_eq_nil in E as [_ E]. contradiction.
Qed.

Lemma last_In {A : Type} (l : list A) (d : A) : l <> [] -> In (last l d) l.
Proof.
  induction l as [| x r IH]; [contradiction |]. intros _.
  destruct r as [| y r']; [left; reflexivity |].
  right. apply IH. discriminate.
Qed.

Lemma base_name_no_dot (s : string) : Str.contains "." (TableScan_.base_name s) = false.
Proof.
  unfold TableScan_.base_name.
  pose proof (split_parts "." s) as H. rewrite Forall_forall in H.
  apply H. apply last_In. apply split_not_nil.
Qed.

Lemma base_name_app (a b : string) :
  TableScan_.base_name (a ++ String "." b) = TableScan_.base_name b.
Proof.
  unfold TableScan_.base_name. rewrite split_app. apply last_app. apply split_not_nil.
Qed.

Lemma join_split (sep : ascii) (s : string) :
  Str.join (String sep "") (Str.split sep s) = s.
Proof.
  induction s as [| c r IH]; [reflexivity |]. cbn [Str.split].
  pose proof (split_not_nil sep r) as Hr.
  destruct (Ascii.eqb_spec c sep) as [-> | Hne].
  - destruct (Str.split sep r) as [| h t]; [contradiction |].
    change (Str.join (String sep "") ("" :: h :: t))
      with (String sep (Str.join (String sep "") (h :: t))).
    rewrite IH. reflexivity.
  - destruct (Str.split sep r) as [| h t]; [contradiction |].
    destruct t as [| h2 t2].
    + cbn [Str.join] in *. rewrite IH. reflexivity.
    + change (Str.join (String sep "") (String c h :: h2 :: t2))
        with (String c (h ++ String sep "" ++ Str.join (String sep "") (h2 :: t2))).
      change (Str.join (String sep "") (h :: h2 :: t2))
        with (h ++ String sep "" ++ Str.join (String sep "") (h2 :: t2)) in IH.
      rewrite IH. reflexivity.
Qed.

Lemma split_join (sep : ascii) (parts : list string) :
  parts <> [] ->
  Forall (fun p => Str.contains (String sep "") p = false) parts ->
  Str.split sep (Str.join (String sep "") parts) = parts.
Proof.
  induction parts as [| p rest IH]; [contradiction |]. intros _ Hall.
  inversion Hall as [| ? ? Hp Hrest]; subst.
  destruct rest as [| q rest'].
  - cbn [Str.join]. apply split_whole. exact Hp.
  - change (Str.join (String sep "") (p :: q :: rest'))
      with (p ++ String sep (Str.join (String sep "") (q :: rest'))).
    rewrite split_app, (split_whole _ _ Hp), IH; [reflexivity | discriminate | exact Hrest].
Qed.

Lemma join_not_empty (sep : string) (p q : string) (rest : list string) :
  sep <> "" -> Str.join sep (p :: q :: rest) <> "".
Proof.
  intros Hsep. change (Str.join sep (p :: q :: rest)) with (p ++ sep ++ Str.join sep (q :: rest)).
  destruct p; [| discriminate]. destruct sep; [contradiction | discriminate].
Qed.

End SplitFacts.

(** ** Table names *)

(** The table name that [fill] gives a SQL Server table scan, when it is a
    text, has no dot: only the part after the last dot is kept. *)
Theorem sql_table_name_has_no_dot
  (i i' table_name table_size type_ table_size' type_' plan : pyval) (s : string) :
  fill (TableScan i table_name table_size type_) plan SQLServer
  = Ok (TableScan i' (PStr s) table_size' type_') ->
  Str.contains "." s = false.
Proof.
  cbn [fill]. intros H. bind_inv H as n En. injection H as _ -> _ _.
  unfold TableScan_.fill_sqlserver in En.
  bind_inv En as obj Eobj. bind_inv En as t1 E1. bind_inv En as t2 E2.
  destruct t2 as [| | | | s2 | |]; try discriminate.
  destruct (Py.truthy (PStr s2)) eqn:Et; injection En as <-.
  - apply SplitFacts.base_name_no_dot.
  - destruct s2; [reflexivity | discriminate].
Qed.

Lemma sql_table_name_has_no_dot_witness : Str.contains "." "lineitem" = false.
Proof.
  apply (sql_table_name_has_no_dot (PInt 3) (PInt 3) PNone PNone PNone PNone PNone
           (PDict [("object", PStr "tpch.dbo.lineitem")]) "lineitem").
  reflexivity.
Defined.

(** The table name that [fill] gives a ClickHouse table scan whose storage
    names a table: the first three dotted parts of that name, and the whole
    name when it has fewer. *)
Theorem clickhouse_table_name_parts
  (i : pyval) (d st : list (string * pyval)) (t : string) :
  Py.dget d "Storage" = PDict st ->
  Py.dget st "Table" = PStr t ->
  t <> "" ->
  exists s',
    fill (TableScan i PNone PNone PNone) (PDict d) ClickHouse
    = Ok (TableScan i (PStr s') PNone PNone) /\
    Str.split "." s' = firstn 3 (Str.split "." t).
Proof.
  intros Hst Ht Hne. cbn [fill]. unfold TableScan_.fill_clickhouse.
  cbn [Py.get bind]. rewrite Hst.
  assert (Htruthy : Py.truthy (PDict st) = true).
  { destruct st; [discriminate | reflexivity]. }
  rewrite Htruthy. cbn [bind]. rewrite Ht.
  assert (Htt : Py.truthy (PStr t) = true) by (destruct t; [contradiction | reflexivity]).
  rewrite Htt. cbn [negb bind]. unfold TableScan_.trim_index_names. rewrite Htt.
  destruct (Nat.leb_spec 3 (List.length (Str.split "." t))) as [Hlen | Hlen].
  - exists (Str.join "." (firstn 3 (Str.split "." t))).
    assert (Hj : Py.truthy (PStr (Str.join "." (firstn 3 (Str.split "." t)))) = true).
    { destruct (Str.split "." t) as [| p [| q [| r rest]]]; cbn [List.length] in Hlen; try lia.
      cbn [firstn Py.truthy].
      pose proof (SplitFacts.join_not_empty "." p q [r]) as Hn.
      destruct (Str.join "." [p; q; r]); [exfalso; apply Hn; [discriminate | reflexivity] |].
      reflexivity. }
    rewrite Hj. cbn [negb andb bind]. split; [reflexivity |].
    apply SplitFacts.split_join.
    + destruct (Str.split "." t) as [| p rest]; cbn [List.length] in Hlen; [lia | discriminate].
    + pose proof (SplitFacts.split_parts "." t) as Hall. rewrite Forall_forall in *.
      intros p Hp. apply Hall. rewrite <- (firstn_skipn 3 (Str.split "." t)).
      apply in_or_app. left. exact Hp.
  - exists t. rewrite Htt. cbn [negb andb bind]. split; [reflexivity |].
    rewrite firstn_all2; [reflexivity | lia].
Qed.

Lemma clickhouse_table_name_parts_witness :
  exists s',
    fill (TableScan (PInt 0) PNone PNone PNone)
      (PDict [("Node Type", PStr "ReadFromMergeTree");
              ("Storage", PDict [("Table", PStr "db.t.idx.part")])]) ClickHouse
    = Ok (TableScan (PInt 0) (PStr s') PNone PNone) /\
    Str.split "." s' = firstn 3 (Str.split "." "db.t.idx.part").
Proof.
  apply (clickhouse_table_name_parts (PInt 0)
           [("Node Type", PStr "ReadFromMergeTree");
            ("Storage", PDict [("Table", PStr "db.t.idx.part")])]
           [("Table", PStr "db.t.idx.part")] "db.t.idx.part").
  - reflexivity.
  - reflexivity.
  - discriminate.
Defined.

(** ** The object of a row *)

Module ObjectFacts.
Import SQLServerParser.

Lemma span_group (g r : string) :
  Str.contains "]" g = false ->
  Re.span Re.not_bracket (g ++ String "]" r) = (g, String "]" r).
Proof.
  induction g as [| c g IH]; intros H.
  - reflexivity.
  - rewrite SplitFacts.contains_char in H. apply orb_false_elim in H as [Hc Hg].
    cbn [String.append Re.span]. unfold Re.not_bracket at 1.
    rewrite Ascii.eqb_sym, Hc. cbn [negb]. rewrite (IH Hg). reflexivity.
Qed.

Lemma prefix_app (p r : string) : prefix p (p ++ r) = true.
Proof.
  induction p as [| a p IH]; [destruct r; reflexivity |].
  cbn [String.append prefix]. destruct (ascii_dec a a); [exact IH | contradiction].
Qed.

Lemma drop_app (p r : string) : Str.drop (String.length p) (p ++ r) = r.
Proof. induction p as [| a p IH]; [reflexivity | exact IH]. Qed.

Lemma after_app (p r : string) : Re.after p (p ++ r) = Some r.
Proof. unfold Re.after. rewrite prefix_app, drop_app. reflexivity. Qed.

Lemma bracketed_group (close g r : string) :
  g <> "" ->
  Str.contains "]" g = false ->
  Re.bracketed (String "]" close) (g ++ String "]" (close ++ r)) = Some (g, r).
Proof.
  intros Hne Hg. unfold Re.bracketed. rewrite (span_group _ _ Hg).
  destruct g; [contradiction |]. cbn [Str.is_empty].
  change (String "]" (close ++ r)) with (String "]" close ++ r).
  rewrite after_app. reflexivity.
Qed.

Lemma object3_at_groups (d s t rest : string) :
  d <> "" -> s <> "" -> t <> "" ->
  Str.contains "]" d = false -> Str.contains "]" s = false -> Str.contains "]" t = false ->
  Re.object3_at ("OBJECT:([" ++ d ++ "].[" ++ s ++ "].[" ++ t ++ "]" ++ rest)
  = Some (d, s, t).
Proof.
  intros Hd Hs Ht Bd Bs Bt. unfold Re.object3_at. rewrite after_app.
  change (d ++ "].[" ++ s ++ "].[" ++ t ++ "]" ++ rest)
    with (d ++ String "]" (".[" ++ (s ++ String "]" (".[" ++ (t ++ String "]" ("" ++ rest)))))).
  rewrite (bracketed_group ".[" d _ Hd Bd).
  rewrite (bracketed_group ".[" s _ Hs Bs).
  rewrite (bracketed_group "" t _ Ht Bt).
  reflexivity.
Qed.

Lemma search_here {A : Type} (m : string -> option A) (s : string) (a : A) :
  m s = Some a -> Re.search m s = Some a.
Proof. intros H. destruct s; cbn [Re.search]; rewrite H; reflexivity. Qed.

End ObjectFacts.

(** A row whose Argument starts with a bracketed three-part object name
    gives its table scan the table of that name: the text between the third
    pair of brackets, cut down to what follows its last dot.  What comes
    after the third bracket, such as an index name, plays no part. *)
Theorem row_argument_names_the_table
  (id : pyval) (plan_info : SQLServerParser.entry) (d s t rest : string) :
  d <> "" -> s <> "" -> t <> "" ->
  Str.contains "]" d = false -> Str.contains "]" s = false -> Str.contains "]" t = false ->
  Py.dget plan_info "Argument"
  = PStr ("OBJECT:([" ++ d ++ "].[" ++ s ++ "].[" ++ t ++ "]" ++ rest) ->
  fill (TableScan id PNone PNone PNone)
    (PDict (SQLServerParser._annotate_object_from_argument plan_info)) SQLServer
  = Ok (TableScan id (PStr (TableScan_.base_name t)) PNone PNone).
Proof.
  intros Hd Hs Ht Bd Bs Bt Harg.
  unfold SQLServerParser._annotate_object_from_argument. rewrite Harg.
  rewrite (ObjectFacts.search_here _ _ _ (ObjectFacts.object3_at_groups d s t rest Hd Hs Ht Bd Bs Bt)).
  cbn [fill]. unfold TableScan_.fill_sqlserver. cbn [Py.get bind].
  unfold Py.dget at 1. rewrite RelOpTotal.lookup_set. cbn [String.eqb Ascii.eqb Bool.eqb].
  destruct d as [| cd d']; [contradiction |].
  destruct s as [| cs s']; [contradiction |].
  destruct t as [| ct t']; [contradiction |].
  cbn [Py.dget Py.lookup String.eqb Ascii.eqb Bool.eqb Py.or Py.truthy Str.is_empty negb
       filter Py.texts bind Str.join].
  change (String cd d' ++ "." ++ String cs s' ++ "." ++ String ct t')
    with (String cd (d' ++ "." ++ String cs s' ++ "." ++ String ct t')).
  cbn [Py.truthy Str.is_empty negb bind].
  change (String cd (d' ++ "." ++ String cs s' ++ "." ++ String ct t'))
    with (String cd d' ++ String "." (String cs s' ++ String "." (String ct t'))).
  rewrite !SplitFacts.base_name_app. reflexivity.
Qed.

Lemma row_argument_names_the_table_witness :
  fill (TableScan (PInt 2) PNone PNone PNone)
    (PDict (SQLServerParser._annotate_object_from_argument
              [("PhysicalOp", PStr "Clustered Index Scan");
               ("Argument",
                PStr ("OBJECT:([" ++ "tpch" ++ "].[" ++ "dbo" ++ "].[" ++ "lineitem" ++ "]"
                      ++ ".[PK_lineitem]), ORDERED FORWARD"))])) SQLServer
  = Ok (TableScan (PInt 2) (PStr (TableScan_.base_name "lineitem")) PNone PNone).
Proof.
  apply (row_argument_names_the_table (PInt 2)
           [("PhysicalOp", PStr "Clustered Index Scan");
            ("Argument",
             PStr ("OBJECT:([" ++ "tpch" ++ "].[" ++ "dbo" ++ "].[" ++ "lineitem" ++ "]"
                   ++ ".[PK_lineitem]), ORDERED FORWARD"))]
           "tpch" "dbo" "lineitem" ".[PK_lineitem]), ORDERED FORWARD");
    try discriminate; reflexivity.
Defined.

(** ** The root of the flat shape *)

Module RootFacts.
Import SQLServerParser SQLServerRoot.

Lemma link_keeps_root :
  forall items children_map r children_map' root,
    link items children_map (Some r) = Ok (children_map', root) -> root = Some r.
Proof.
  induction items as [| [nid n] rest IH]; cbn [link]; intros cm r cm' root H.
  - injection H as _ <-. reflexivity.
  - destruct (Py.is_none (Py.dget n "Parent")); [eapply IH; exact H |].
    bind_inv H as p Ep. destruct (p =? 0); eapply IH; exact H.
Qed.

Lemma link_finds_first :
  forall items children_map children_map' root,
    link items children_map None = Ok (children_map', root) ->
    match root with
    | Some r =>
        exists before n after,
          items = (before ++ (r, n) :: after)%list /\
          candidate n /\ Forall (fun kv => has_parent (snd kv)) before
    | None => Forall (fun kv => has_parent (snd kv)) items
    end.
Proof.
  induction items as [| [nid n] rest IH]; cbn [link]; intros cm cm' root H.
  - injection H as _ <-. constructor.
  - destruct (Py.is_none (Py.dget n "Parent")) eqn:En.
    + apply link_keeps_root in H as ->. exists [], n, rest.
      split; [reflexivity | split; [left; exact En | constructor]].
    + bind_inv H as p Ep. destruct (Z.eqb_spec p 0) as [-> | Hne].
      * apply link_keeps_root in H as ->. exists [], n, rest.
        split; [reflexivity | split; [right; exact Ep | constructor]].
      * assert (Hn : has_parent n) by (split; [exact En | exists p; auto]).
        specialize (IH _ _ _ H). destruct root as [r |].
        -- destruct IH as [before [n' [after [-> [Hc Hb]]]]].
           exists ((nid, n) :: before), n', after.
           split; [reflexivity | split; [exact Hc | constructor; assumption]].
        -- constructor; assumption.
Qed.

Lemma min_key_le {V : Type} (d : list (Z * V)) :
  forall k0, min_key k0 d <= k0 /\ Forall (fun kv => min_key k0 d <= fst kv) d.
Proof.
  unfold min_key. induction d as [| [k v] rest IH]; intros k0; cbn [fold_left].
  - split; [lia | constructor].
  - destruct (IH (Z.min k0 k)) as [H0 Hall]. cbn [fst]. split; [lia |].
    constructor; [cbn [fst]; lia | exact Hall].
Qed.

Lemma min_key_In {V : Type} (d : list (Z * V)) :
  forall k0, min_key k0 d = k0 \/ In (min_key k0 d) (map fst d).
Proof.
  unfold min_key. induction d as [| [k v] rest IH]; intros k0; cbn [fold_left map fst].
  - left. reflexivity.
  - destruct (IH (Z.min k0 k)) as [H | H].
    + rewrite H. destruct (Z.min_spec k0 k) as [[_ ->] | [_ ->]]; [left | right; left]; reflexivity.
    + right. right. exact H.
Qed.

End RootFacts.

(** The loop that looks for the root of the rows takes the first row, in the
    order of the node map, whose Parent is [None] or 0, and no later one;
    when it finds none, every row names a parent other than 0. *)
Theorem first_root_candidate_wins
  (items : list (Z * SQLServerParser.entry)) (children_map children_map' : list (Z * list Z))
  (root : option Z) :
  SQLServerParser.link items children_map None = Ok (children_map', root) ->
  match root with
  | Some r =>
      exists before n after,
        items = (before ++ (r, n) :: after)%list /\
        SQLServerRoot.candidate n /\
        Forall (fun kv => SQLServerRoot.has_parent (snd kv)) before
  | None => Forall (fun kv => SQLServerRoot.has_parent (snd kv)) items
  end.
Proof. apply RootFacts.link_finds_first. Qed.

Lemma first_root_candidate_wins_witness :
  exists before n after,
    [(2, [("Parent", PInt 1)]); (1, [("Parent", PStr "0")]); (3, [("Parent", PNone)])]
    = (before ++ (1, n) :: after)%list /\
    SQLServerRoot.candidate n /\
    Forall (fun kv => SQLServerRoot.has_parent (snd kv)) before.
Proof.
  apply (first_root_candidate_wins
           [(2, [("Parent", PInt 1)]); (1, [("Parent", PStr "0")]); (3, [("Parent", PNone)])]
           [(2, []); (1, []); (3, [])] [(2, []); (1, [2]); (3, [])] (Some 1)).
  reflexivity.
Defined.

(** When no row is a candidate for the root, [_build_from_rows] builds the
    plan from the row with the least id of the node map. *)
Theorem rows_without_candidate_start_at_least_id
  (fuel : nat) (rows : list (list pyval)) (node_map : list (Z * SQLServerParser.entry))
  (children_map : list (Z * list Z)) :
  SQLServerParser.node_map_of (SQLServerParser.plan_rows rows) [] = Ok node_map ->
  SQLServerParser.link node_map (map (fun kv => (fst kv, @nil Z)) node_map) None
  = Ok (children_map, None) ->
  node_map <> [] ->
  exists r,
    In r (map fst node_map) /\
    Forall (fun kv => r <= fst kv) node_map /\
    SQLServerParser._build_from_rows fuel rows
    = SQLServerParser.build_node fuel node_map children_map r.
Proof.
  intros Hmap Hlink Hne. unfold SQLServerParser._build_from_rows.
  rewrite Hmap. cbn [bind]. rewrite Hlink. cbn [bind].
  destruct node_map as [| [k0 v0] rest]; [contradiction |].
  exists (SQLServerParser.min_key k0 ((k0, v0) :: rest)).
  split; [| split; [apply RootFacts.min_key_le | reflexivity]].
  destruct (RootFacts.min_key_In ((k0, v0) :: rest) k0) as [-> | H]; [left; reflexivity | exact H].
Qed.

Lemma rows_without_candidate_start_at_least_id_witness :
  exists r,
    In r [3; 2] /\
    Forall (fun kv => r <= fst kv)
      [(3, SQLServerParser.entry_of
             (Inputs.row (PInt 3) (PInt 2) (PStr "Table Scan") (PStr "Table Scan")
                PNone PNone PNone));
       (2, SQLServerParser.entry_of
             (Inputs.row (PInt 2) (PInt 9) (PStr "Sort") (PStr "Sort") PNone PNone PNone))] /\
    SQLServerParser._build_from_rows 2
      [Inputs.row (PInt 3) (PInt 2) (PStr "Table Scan") (PStr "Table Scan") PNone PNone PNone;
       Inputs.row (PInt 2) (PInt 9) (PStr "Sort") (PStr "Sort") PNone PNone PNone]
    = SQLServerParser.build_node 2
        [(3, SQLServerParser.entry_of
               (Inputs.row (PInt 3) (PInt 2) (PStr "Table Scan") (PStr "Table Scan")
                  PNone PNone PNone));
         (2, SQLServerParser.entry_of
               (Inputs.row (PInt 2) (PInt 9) (PStr "Sort") (PStr "Sort") PNone PNone PNone))]
        [(3, []); (2, [3]); (9, [2])] r.
Proof.
  apply (rows_without_candidate_start_at_least_id 2
           [Inputs.row (PInt 3) (PInt 2) (PStr "Table Scan") (PStr "Table Scan") PNone PNone PNone;
            Inputs.row (PInt 2) (PInt 9) (PStr "Sort") (PStr "Sort") PNone PNone PNone]
           [(3, SQLServerParser.entry_of
                  (Inputs.row (PInt 3) (PInt 2) (PStr "Table Scan") (PStr "Table Scan")
                     PNone PNone PNone));
            (2, SQLServerParser.entry_of
                  (Inputs.row (PInt 2) (PInt 9) (PStr "Sort") (PStr "Sort") PNone PNone PNone))]
           [(3, []); (2, [3]); (9, [2])]).
  - reflexivity.
  - reflexivity.
  - discriminate.
Defined.

(** ** Hash matches and stream aggregates *)

Module OperatorFacts.
Import SQLServerParser.

Lemma prefix_inv (p : string) : forall s, prefix p s = true -> exists r, s = p ++ r.
Proof.
  induction p as [| a p IH]; intros s H.
  - exists s. reflexivity.
  - destruct s as [| b s]; [discriminate |]. cbn [prefix] in H.
    destruct (ascii_dec a b) as [<- | _]; [| discriminate].
    destruct (IH _ H) as [r ->]. exists r. reflexivity.
Qed.

Lemma dget_set (k : string) (v : pyval) (d : entry) : Py.dget (Py.set k v d) k = v.
Proof. unfold Py.dget. rewrite RelOpTotal.lookup_set, String.eqb_refl. reflexivity. Qed.

Lemma dget_default_set (k : string) (v w : pyval) (d : entry) :
  Py.dget_default (Py.set k v d) k w = v.
Proof. unfold Py.dget_default. rewrite RelOpTotal.lookup_set, String.eqb_refl. reflexivity. Qed.

Lemma dget_default_set_other (k k' : string) (v w : pyval) (d : entry) :
  String.eqb k k' = false ->
  Py.dget_default (Py.set k' v d) k w = Py.dget_default d k w.
Proof. intros H. unfold Py.dget_default. rewrite RelOpTotal.lookup_set, H. reflexivity. Qed.

Lemma lookup_annotate_object (e : Element) (plan_info : entry) (k : string) :
  String.eqb k "object" = false ->
  Py.lookup k (_annotate_object e plan_info) = Py.lookup k plan_info.
Proof.
  intros Hk. unfold _annotate_object. induction object_tags as [| tag rest IH];
    cbn [annotate_object_tags]; [reflexivity |].
  destruct (ET.find tag e) as [child |]; [| exact IH].
  destruct (ET.find "Object" child); [| reflexivity].
  rewrite RelOpTotal.lookup_set, Hk. reflexivity.
Qed.

(** What [fill] makes of the empty operators of a hash match, for a
    dictionary with the annotations of [info]. *)
Lemma fill_annotated (op0 : QueryOperator) (info info2 : entry) :
  (forall k, String.eqb k "object" = false -> Py.lookup k info2 = Py.lookup k info) ->
  match op0 with
  | GroupBy _ _ | Join _ _ _ =>
      fill op0 (PDict info2) SQLServer = fill op0 (PDict info) SQLServer
  | _ => True
  end.
Proof.
  intros Hsame. destruct op0; try exact I; cbn [fill Py.get bind].
  - unfold Py.dget. rewrite (Hsame "agg_method" eq_refl). reflexivity.
  - unfold Join_.fill_sqlserver. cbn [Py.get_default bind]. unfold Py.dget_default.
    rewrite (Hsame "join_type" eq_refl), (Hsame "join_method" eq_refl). reflexivity.
Qed.

(** The operator of a hash match, from the names and the dictionary that
    [build_relop] starts with. *)
Lemma hash_match_operator (physical logical : string) (operator_id : pyval) :
  Str.startswith (Str.lower physical) "hash match" = true ->
  (operator_name <- _decide_operator_name (PStr physical) (PStr logical) ;;
   plan_info <- _annotate_join_or_agg (PStr physical) (PStr logical)
                  [("PhysicalOp", PStr physical); ("LogicalOp", PStr logical)] ;;
   op0 <- create_empty_operator operator_name operator_id ;;
   fill op0 (PDict plan_info) SQLServer)
  = Ok (if Str.contains "aggregate" (Str.lower logical)
        then GroupBy operator_id (PStr "hash")
        else if Str.contains "join" (Str.lower logical)
                || Str.contains "join" (Str.lower physical)
             then Join operator_id (join_type_of (Str.lower logical)) (PStr "hash")
             else Join operator_id PNone PNone).
Proof.
  intros Hp. unfold _decide_operator_name, _annotate_join_or_agg.
  cbn [Py.lower bind]. rewrite Hp.
  assert (Hhash : Str.contains "hash" (Str.lower physical) = true).
  { unfold Str.startswith in Hp. apply prefix_inv in Hp as [r ->]. reflexivity. }
  rewrite Hhash.
  destruct (Str.contains "aggregate" (Str.lower logical)) eqn:Eagg; cbn [orb bind].
  - change (create_empty_operator (PStr "Hash Aggregate") operator_id)
      with (Ok (GroupBy operator_id PNone)).
    cbn [bind fill Py.get]. rewrite dget_set. reflexivity.
  - change (create_empty_operator (PStr "Hash Match") operator_id)
      with (Ok (Join operator_id PNone PNone)).
    cbn [bind fill]. unfold Join_.fill_sqlserver. cbn [Py.get_default bind].
    destruct (Str.contains "join" (Str.lower logical) || Str.contains "join" (Str.lower physical))
      eqn:Ejoin.
    + destruct (Str.contains "aggregate" (Str.lower physical)).
      * rewrite !dget_default_set_other by reflexivity.
        rewrite dget_default_set.
        rewrite dget_default_set_other by reflexivity.
        rewrite dget_default_set. reflexivity.
      * rewrite dget_default_set.
        rewrite dget_default_set_other by reflexivity.
        rewrite dget_default_set. reflexivity.
    + destruct (Str.contains "aggregate" (Str.lower physical)).
      * rewrite !dget_default_set_other by reflexivity. reflexivity.
      * reflexivity.
Qed.

End OperatorFacts.

(** A RelOp element whose physical operator starts with "hash match", in any
    case, becomes a [GroupBy] with method "hash" when its logical operator
    mentions an aggregate; otherwise it becomes a [Join], with the join type
    read off the logical operator and method "hash" when one of the two names
    mentions a join, and with neither type nor method when none does. *)
Theorem hash_match_is_group_by_or_join
  (fuel : nat) (self self' : SQLServerParser.t) (e : Element) (n : PlanNode)
  (physical logical : string) :
  Py.lookup "PhysicalOp" (ET.attrib e) = Some physical ->
  logical = match Py.lookup "LogicalOp" (ET.attrib e) with Some s => s | None => physical end ->
  Str.startswith (Str.lower physical) "hash match" = true ->
  SQLServerParser.build_relop (S fuel) self e = Ok (n, self') ->
  operator n
  = (let operator_id := fst (SQLServerParser._extract_operator_id self e) in
     if Str.contains "aggregate" (Str.lower logical)
     then GroupBy operator_id (PStr "hash")
     else if Str.contains "join" (Str.lower logical)
             || Str.contains "join" (Str.lower physical)
          then Join operator_id (SQLServerParser.join_type_of (Str.lower logical))
                 (PStr "hash")
          else Join operator_id PNone PNone).
Proof.
  intros Hphys Hlog Hp H. cbn [SQLServerParser.build_relop] in H. rewrite Hphys in H.
  assert (Hl : match Py.lookup "LogicalOp" (ET.attrib e) with
               | Some s => PStr s
               | None => PStr physical
               end = PStr logical)
    by (rewrite Hlog; destruct (Py.lookup "LogicalOp" (ET.attrib e)); reflexivity).
  rewrite Hl in H. clear Hl Hlog.
  pose proof (OperatorFacts.hash_match_operator physical logical
                (fst (SQLServerParser._extract_operator_id self e)) Hp) as Hop.
  bind_inv H as name En. rewrite En in Hop. cbn [bind] in Hop.
  destruct (SQLServerParser._extract_operator_id self e) as [id self1].
  bind_inv H as info Ei. rewrite Ei in Hop. cbn [bind fst] in Hop.
  bind_inv H as lname El. bind_inv H as op0 E0. rewrite E0 in Hop. cbn [bind] in Hop.
  bind_inv H as op Eop.
  assert (Hname : name = PStr "Hash Aggregate" \/ name = PStr "Hash Match").
  { unfold SQLServerParser._decide_operator_name in En. cbn [Py.lower bind] in En.
    rewrite Hp in En. destruct (Str.contains "aggregate" (Str.lower logical));
      injection En as <-; auto. }
  assert (Hkind : match op0 with GroupBy _ _ | Join _ _ _ => True | _ => False end).
  { destruct Hname as [-> | ->]; injection E0 as <-; exact I. }
  assert (Hsame : fill op0
                    (PDict (SQLServerParser._annotate_object e
                              (if String.eqb lname "top" then
                                 match ET.find "Top" e with
                                 | Some top_elem =>
                                     Py.set "limit"
                                       (SQLServerParser.option_int
                                          (SQLServerParser._safe_int (ET.get top_elem "RowCount")))
                                       info
                                 | None => info
                                 end
                               else info))) SQLServer
                  = fill op0 (PDict info) SQLServer).
  { assert (Hno : String.eqb lname "top" = false)
      by (destruct Hname as [-> | ->]; injection El as <-; reflexivity).
    rewrite Hno.
    pose proof (OperatorFacts.fill_annotated op0 info
                  (SQLServerParser._annotate_object e info)
                  (fun k Hk => OperatorFacts.lookup_annotate_object e info k Hk)) as Hf.
    destruct op0; try contradiction; exact Hf. }
  rewrite Hsame, Hop in Eop. injection Eop as <-.
  cbv zeta. cbn [fst].
  destruct (SQLServerParser._extract_children e).
  - injection H as <- _. reflexivity.
  - bind_inv H as r Er. destruct r as [kids s2]. injection H as <- _. reflexivity.
Qed.

Lemma hash_match_is_group_by_or_join_witness :
  operator Samples.join_over_scan
  = (let operator_id :=
       fst (SQLServerParser._extract_operator_id (SQLServerParser.mk true 0)
              Inputs.join_relop) in
     if Str.contains "aggregate" (Str.lower "Inner Join")
     then GroupBy operator_id (PStr "hash")
     else if Str.contains "join" (Str.lower "Inner Join")
             || Str.contains "join" (Str.lower "Hash Match")
          then Join operator_id (SQLServerParser.join_type_of (Str.lower "Inner Join"))
                 (PStr "hash")
          else Join operator_id PNone PNone).
Proof.
  apply (hash_match_is_group_by_or_join 1 (SQLServerParser.mk true 0)
           (SQLServerParser.mk true 2) Inputs.join_relop Samples.join_over_scan
           "Hash Match" "Inner Join"); reflexivity.
Defined.

(** ** Parameter grids *)

Module TemplateFacts.
Import Template.

Lemma unfold_dict (d : list (string * pyval)) :
  unfold (PDict d)
  = Ok (map (fun combination => PDict (combine (map fst d) combination))
          (product (map (fun kv => as_list (snd kv)) d))).
Proof. destruct d; reflexivity. Qed.

Lemma in_product {A : Type} (values : list (list A)) :
  forall c, In c (product values) <-> Forall2 (fun l v => In v l) values c.
Proof.
  induction values as [| vs rest IH]; intros c; cbn [product].
  - split.
    + intros [<- | []]. constructor.
    + intros H. inversion H. left. reflexivity.
  - rewrite in_flat_map. split.
    + intros [v [Hv Hc]]. apply in_map_iff in Hc as [c' [<- Hc']].
      constructor; [exact Hv | apply IH; exact Hc'].
    + intros H. inversion H as [| l v ls c' Hv Hrest]; subst.
      exists v. split; [exact Hv |]. apply in_map_iff. exists c'.
      split; [reflexivity | apply IH; exact Hrest].
Qed.

Lemma product_length {A : Type} (values : list (list A)) :
  List.length (product values)
  = fold_right (fun l n => (List.length l * n)%nat) 1%nat values.
Proof.
  induction values as [| vs rest IH]; [reflexivity |]. cbn [product fold_right].
  rewrite <- IH. generalize (product rest) as p. intros p.
  induction vs as [| v vs IHv]; [reflexivity |].
  cbn [flat_map List.length]. rewrite length_app, length_map, IHv. lia.
Qed.

Lemma combine_choice (d : list (string * pyval)) :
  forall c,
    Forall2 (fun l v => In v l) (map (fun kv => as_list (snd kv)) d) c ->
    choice d (combine (map fst d) c).
Proof.
  unfold choice. induction d as [| kv d IH]; intros c H; inversion H; subst; cbn [map combine].
  - constructor.
  - constructor; [split; [reflexivity | assumption] | apply IH; assumption].
Qed.

Lemma choice_combine (d : list (string * pyval)) :
  forall r,
    choice d r ->
    combine (map fst d) (map snd r) = r /\
    Forall2 (fun l v => In v l) (map (fun kv => as_list (snd kv)) d) (map snd r).
Proof.
  unfold choice. induction d as [| kv d IH]; intros r H; inversion H as [| ? kv' ? r' [Hk Hv] Hrest];
    subst; cbn [map combine].
  - split; constructor.
  - destruct (IH _ Hrest) as [Hc Hf]. rewrite Hc. split.
    + rewrite <- Hk. destruct kv'; reflexivity.
    + constructor; assumption.
Qed.

End TemplateFacts.

(** [unfold] returns exactly the combinations: a dictionary is among the
    results if and only if it has the keys of the given one, in their order,
    each with one of the values offered for it (the elements of a list value,
    or the value itself when it is no list). *)
Theorem unfold_gives_every_combination (d r : list (string * pyval)) :
  exists configurations,
    Template.unfold (PDict d) = Ok configurations /\
    (In (PDict r) configurations <-> Template.choice d r).
Proof.
  eexists. split; [apply TemplateFacts.unfold_dict |]. rewrite in_map_iff. split.
  - intros [c [[= <-] Hc]]. apply TemplateFacts.combine_choice.
    apply TemplateFacts.in_product. exact Hc.
  - intros H. destruct (TemplateFacts.choice_combine _ _ H) as [Hc Hf].
    exists (map snd r). split; [rewrite Hc; reflexivity |].
    apply TemplateFacts.in_product. exact Hf.
Qed.

(** The number of dictionaries [unfold] returns is the product of the
    numbers of values offered for the keys; one empty list among the values
    leaves no dictionary at all. *)
Theorem unfold_counts_the_combinations (d : list (string * pyval)) :
  exists configurations,
    Template.unfold (PDict d) = Ok configurations /\
    List.length configurations = Template.combinations d /\
    ((exists k, In (k, PList []) d) -> configurations = []).
Proof.
  eexists. split; [apply TemplateFacts.unfold_dict |].
  assert (Hlen : List.length
                   (map (fun combination => PDict (combine (map fst d) combination))
                      (Template.product (map (fun kv => Template.as_list (snd kv)) d)))
                 = Template.combinations d).
  { rewrite length_map, TemplateFacts.product_length. unfold Template.combinations.
    induction d as [| kv d IH]; [reflexivity |]. cbn [map fold_right]. rewrite IH. reflexivity. }
  split; [exact Hlen |]. intros [k Hk].
  apply length_zero_iff_nil. rewrite Hlen. clear Hlen. unfold Template.combinations.
  induction d as [| kv d IH]; [destruct Hk |]. cbn [fold_right].
  destruct Hk as [-> | Hk]; [reflexivity |]. rewrite (IH Hk). lia.
Qed.

(** A dictionary without list values unfolds to itself, and a value that is
    [None] or an empty dictionary to one empty dictionary. *)
Theorem unfold_of_single_values (d : list (string * pyval)) :
  (forall k v, In (k, v) d -> Template.as_list v = [v]) ->
  Template.unfold (PDict d) = Ok [PDict d] /\
  Template.unfold PNone = Ok [PDict []].
Proof.
  intros H. split; [| reflexivity]. rewrite TemplateFacts.unfold_dict.
  assert (Hp : Template.product (map (fun kv => Template.as_list (snd kv)) d) = [map snd d]).
  { induction d as [| [k v] d IH]; [reflexivity |]. cbn [map snd Template.product].
    rewrite (H k v (or_introl eq_refl)), IH; [reflexivity |].
    intros k' v' Hin. apply (H k' v'). right. exact Hin. }
  rewrite Hp. cbn [map]. do 3 f_equal. clear.
  induction d as [| [k v] d IH]; [reflexivity |]. cbn [map combine fst snd]. rewrite IH.
  reflexivity.
Qed.

Lemma unfold_of_single_values_witness :
  Template.unfold (PDict [("scale", PInt 1); ("engine", PStr "clickhouse")])
  = Ok [PDict [("scale", PInt 1); ("engine", PStr "clickhouse")]] /\
  Template.unfold PNone = Ok [PDict []].
Proof.
  apply (unfold_of_single_values [("scale", PInt 1); ("engine", PStr "clickhouse")]).
  intros k v [[= <- <-] | [[= <- <-] | []]]; reflexivity.
Defined.

(** ** Limits in the XML shape *)

Module LimitFacts.
Import SQLServerParser.

Lemma lookup_annotate (physical logical : pyval) (plan_info plan_info' : entry) (k : string) :
  _annotate_join_or_agg physical logical plan_info = Ok plan_info' ->
  String.eqb k "join_type" = false ->
  String.eqb k "join_method" = false ->
  String.eqb k "agg_method" = false ->
  Py.lookup k plan_info' = Py.lookup k plan_info.
Proof.
  unfold _annotate_join_or_agg. intros H Ht Hm Ha.
  bind_inv H as p Ep. bind_inv H as l El. injection H as <-.
  repeat match goal with |- context [if ?b then _ else _] => destruct b end;
    rewrite ?RelOpTotal.lookup_set, ?Ht, ?Hm, ?Ha; reflexivity.
Qed.

Lemma limit_value_option_int (o : option Z) : limit_value (option_int o) = option_int o.
Proof. destruct o; reflexivity. Qed.

(** The operator of the node [build_relop] returns is the one it filled. *)
Lemma build_relop_operator (fuel : nat) (self self' : t) (e : Element) (n : PlanNode) :
  build_relop (S fuel) self e = Ok (n, self') ->
  exists operator_name plan_info name_lower op0,
    _decide_operator_name
      (match Py.lookup "PhysicalOp" (ET.attrib e) with Some s => PStr s | None => PStr "Unknown" end)
      (match Py.lookup "LogicalOp" (ET.attrib e) with
       | Some s => PStr s
       | None =>
           match Py.lookup "PhysicalOp" (ET.attrib e) with
           | Some s => PStr s
           | None => PStr "Unknown"
           end
       end) = Ok operator_name /\
    _annotate_join_or_agg
      (match Py.lookup "PhysicalOp" (ET.attrib e) with Some s => PStr s | None => PStr "Unknown" end)
      (match Py.lookup "LogicalOp" (ET.attrib e) with
       | Some s => PStr s
       | None =>
           match Py.lookup "PhysicalOp" (ET.attrib e) with
           | Some s => PStr s
           | None => PStr "Unknown"
           end
       end)
      [("PhysicalOp",
        match Py.lookup "PhysicalOp" (ET.attrib e) with Some s => PStr s | None => PStr "Unknown" end);
       ("LogicalOp",
        match Py.lookup "LogicalOp" (ET.attrib e) with
        | Some s => PStr s
        | None =>
            match Py.lookup "PhysicalOp" (ET.attrib e) with
            | Some s => PStr s
            | None => PStr "Unknown"
            end
        end)] = Ok plan_info /\
    Py.lower operator_name = Ok name_lower /\
    create_empty_operator operator_name (fst (_extract_operator_id self e)) = Ok op0 /\
    fill op0
      (PDict (_annotate_object e
                (if String.eqb name_lower "top" then
                   match ET.find "Top" e with
                   | Some top_elem =>
                       Py.set "limit" (option_int (_safe_int (ET.get top_elem "RowCount")))
                         plan_info
                   | None => plan_info
                   end
                 else plan_info))) SQLServer = Ok (operator n).
Proof.
  intros H. cbn [build_relop] in H.
  bind_inv H as name En.
  destruct (_extract_operator_id self e) as [id self1].
  bind_inv H as info Ei. bind_inv H as lname El. bind_inv H as op0 E0. bind_inv H as op Eop.
  exists name, info, lname, op0. cbn [fst].
  repeat (split; [assumption |]).
  destruct (_extract_children e).
  - injection H as <- _. exact Eop.
  - bind_inv H as r Er. destruct r as [kids s2]. injection H as <- _. exact Eop.
Qed.

Lemma starts_with (p s : string) : Str.startswith s p = true -> exists r, s = p ++ r.
Proof. unfold Str.startswith. apply OperatorFacts.prefix_inv. Qed.

End LimitFacts.

(** A RelOp element whose physical operator starts with "top", in any case,
    becomes a custom operator named Top whose limit is the RowCount of its
    Top child, read as a number and truncated; the limit is [None] when
    there is no Top child or its RowCount is no number. *)
Theorem top_limit_is_the_row_count
  (fuel : nat) (self self' : SQLServerParser.t) (e : Element) (n : PlanNode)
  (physical : string) :
  Py.lookup "PhysicalOp" (ET.attrib e) = Some physical ->
  Str.startswith (Str.lower physical) "top" = true ->
  SQLServerParser.build_relop (S fuel) self e = Ok (n, self') ->
  operator n
  = CustomOperator (PStr "Top") (fst (SQLServerParser._extract_operator_id self e))
      match ET.find "Top" e with
      | Some top_elem =>
          SQLServerParser.option_int
            (SQLServerParser._safe_int (ET.get top_elem "RowCount"))
      | None => PNone
      end.
Proof.
  intros Hphys Hp H.
  destruct (LimitFacts.build_relop_operator _ _ _ _ _ H)
    as [name [info [lname [op0 [En [Ei [El [E0 Eop]]]]]]]].
  rewrite Hphys in En, Ei.
  destruct (LimitFacts.starts_with _ _ Hp) as [r Hr].
  assert (Hname : name = PStr "Top").
  { set (logical := match Py.lookup "LogicalOp" (ET.attrib e) with
                    | Some s => PStr s
                    | None => PStr physical
                    end) in *.
    assert (Hl : exists l, logical = PStr l)
      by (subst logical; destruct (Py.lookup "LogicalOp" (ET.attrib e)); eauto).
    destruct Hl as [l Hl]. rewrite Hl in En.
    unfold SQLServerParser._decide_operator_name in En. cbn [Py.lower bind] in En.
    assert (H1 : Str.startswith (Str.lower physical) "hash match" = false)
      by (rewrite Hr; reflexivity).
    assert (H2 : Str.startswith (Str.lower physical) "stream aggregate" = false)
      by (rewrite Hr; reflexivity).
    assert (H3 : Str.startswith (Str.lower physical) "merge join" = false)
      by (rewrite Hr; reflexivity).
    assert (H4 : Str.startswith (Str.lower physical) "nested loops" = false)
      by (rewrite Hr; reflexivity).
    rewrite H1, H2, H3, H4, Hp in En. injection En as <-. reflexivity. }
  subst name. injection El as <-. injection E0 as <-.
  change (String.eqb (Str.lower "Top") "top") with true in Eop.
  cbn [fill Py.lower bind] in Eop.
  change (String.eqb (Str.lower "Top") "top") with true in Eop.
  cbn [Py.get bind] in Eop. injection Eop as <-. f_equal.
  unfold Py.dget. rewrite OperatorFacts.lookup_annotate_object by reflexivity.
  destruct (ET.find "Top" e) as [top_elem |].
  - rewrite RelOpTotal.lookup_set. cbn [String.eqb Ascii.eqb Bool.eqb].
    apply LimitFacts.limit_value_option_int.
  - rewrite (LimitFacts.lookup_annotate _ _ _ _ "limit" Ei) by reflexivity. reflexivity.
Qed.

Lemma top_limit_is_the_row_count_witness :
  operator (LeafNode (CustomOperator (PStr "Top") (PInt 0) (PInt 10)) None None SysNone)
  = CustomOperator (PStr "Top")
      (fst (SQLServerParser._extract_operator_id (SQLServerParser.mk false 0) Limits.top_relop))
      match ET.find "Top" Limits.top_relop with
      | Some top_elem =>
          SQLServerParser.option_int
            (SQLServerParser._safe_int (ET.get top_elem "RowCount"))
      | None => PNone
      end.
Proof.
  apply (top_limit_is_the_row_count 0 (SQLServerParser.mk false 0) (SQLServerParser.mk false 1)
           Limits.top_relop
           (LeafNode (CustomOperator (PStr "Top") (PInt 0) (PInt 10)) None None SysNone)
           "Top"); reflexivity.
Defined.

(** A RelOp element whose physical operator starts with "sort", in any case,
    becomes a [Sort] without a limit: nothing in the XML shape gives a sort
    one. *)
Theorem xml_sort_has_no_limit
  (fuel : nat) (self self' : SQLServerParser.t) (e : Element) (n : PlanNode)
  (physical : string) :
  Py.lookup "PhysicalOp" (ET.attrib e) = Some physical ->
  Str.startswith (Str.lower physical) "sort" = true ->
  SQLServerParser.build_relop (S fuel) self e = Ok (n, self') ->
  operator n = Sort (fst (SQLServerParser._extract_operator_id self e)) PNone.
Proof.
  intros Hphys Hp H.
  destruct (LimitFacts.build_relop_operator _ _ _ _ _ H)
    as [name [info [lname [op0 [En [Ei [El [E0 Eop]]]]]]]].
  rewrite Hphys in En, Ei.
  destruct (LimitFacts.starts_with _ _ Hp) as [r Hr].
  assert (Hname : name = PStr "Sort").
  { set (logical := match Py.lookup "LogicalOp" (ET.attrib e) with
                    | Some s => PStr s
                    | None => PStr physical
                    end) in *.
    assert (Hl : exists l, logical = PStr l)
      by (subst logical; destruct (Py.lookup "LogicalOp" (ET.attrib e)); eauto).
    destruct Hl as [l Hl]. rewrite Hl in En.
    unfold SQLServerParser._decide_operator_name in En. cbn [Py.lower bind] in En.
    assert (H1 : Str.startswith (Str.lower physical) "hash match" = false)
      by (rewrite Hr; reflexivity).
    assert (H2 : Str.startswith (Str.lower physical) "stream aggregate" = false)
      by (rewrite Hr; reflexivity).
    assert (H3 : Str.startswith (Str.lower physical) "merge join" = false)
      by (rewrite Hr; reflexivity).
    assert (H4 : Str.startswith (Str.lower physical) "nested loops" = false)
      by (rewrite Hr; reflexivity).
    assert (H5 : Str.startswith (Str.lower physical) "top" = false)
      by (rewrite Hr; reflexivity).
    assert (H6 : Str.startswith (Str.lower physical) "concat" = false)
      by (rewrite Hr; reflexivity).
    assert (H7 : Str.startswith (Str.lower physical) "filter" = false)
      by (rewrite Hr; reflexivity).
    rewrite H1, H2, H3, H4, H5, H6, H7, Hp in En. injection En as <-. reflexivity. }
  subst name. injection El as <-. injection E0 as <-.
  change (String.eqb (Str.lower "Sort") "top") with false in Eop.
  cbn [fill Py.get bind] in Eop. injection Eop as <-. f_equal.
  unfold Py.dget. rewrite OperatorFacts.lookup_annotate_object by reflexivity.
  rewrite (LimitFacts.lookup_annotate _ _ _ _ "limit" Ei) by reflexivity. reflexivity.
Qed.

Lemma xml_sort_has_no_limit_witness :
  operator (LeafNode (Sort (PInt 0) PNone) None None SysNone)
  = Sort (fst (SQLServerParser._extract_operator_id (SQLServerParser.mk false 0)
                 Limits.sort_relop)) PNone.
Proof.
  apply (xml_sort_has_no_limit 0 (SQLServerParser.mk false 0) (SQLServerParser.mk false 1)
           Limits.sort_relop (LeafNode (Sort (PInt 0) PNone) None None SysNone) "Sort");
    reflexivity.
Defined.

(** ** Parallelism wrappers of the flat shape *)

Module WrapperFacts.
Import SQLServerParser SQLServerRaw.

Lemma build_node_wrappers (node_map : list (Z * entry)) (children_map : list (Z * list Z)) :
  forall fuel node_id n,
    build_node fuel node_map children_map node_id = Ok n ->
    forall m info,
      In m (nodes n) ->
      system_representation m = SysJson (PDict info) ->
      is_parallelism info = true ->
      List.length (children m) <> 1%nat.
Proof.
  induction fuel as [| fuel IH]; intros node_id n H m info' Hm Hs Hpar; [discriminate |].
  cbn [build_node] in H.
  destruct (zlookup node_id node_map) as [info |] eqn:Einfo; [| discriminate].
  match type of H with
  | bind (_annotate_join_or_agg _ _ ?pi) _ = _ =>
      assert (Hp0 : SQLServerRawAux.starts_with_physical (Py.dget info "PhysicalOp") pi)
        by (destruct (_extract_top_limit _);
            [apply SQLServerFacts.set_keeps_physical; [reflexivity |] |]; eexists; reflexivity)
  end.
  bind_inv H as pi1 Ea.
  pose proof (SQLServerFacts.object_keeps_physical _ _
                (SQLServerFacts.annotate_keeps_physical _ _ _ _ _ Ea Hp0)) as Hp.
  bind_inv H as name En. bind_inv H as op0 E0. bind_inv H as op Eop.
  bind_inv H as kids Ek. apply each_Forall2 in Ek.
  assert (Hphys :
            Str.startswith
              (Str.lower
                 (Py.str
                    (Py.dget_default (_annotate_object_from_argument pi1) "PhysicalOp" (PStr ""))))
              "parallelism" = is_parallelism info)
    by (destruct Hp as [rest ->]; reflexivity).
  rewrite Hphys in H.
  assert (Hkids : forall k, In k kids -> In m (nodes k) -> List.length (children m) <> 1%nat).
  { clear H. induction Ek as [| cid k ids ks Hb _ IHk]; intros k0 Hk0 Hm0; [destruct Hk0 |].
    destruct Hk0 as [<- | Hk0]; [eapply IH; eauto | exact (IHk k0 Hk0 Hm0)]. }
  destruct kids as [| k1 [| k2 more]].
  - injection H as <-. apply in_nodes_leaf in Hm as ->. cbn. discriminate.
  - destruct (is_parallelism info) eqn:Epar.
    + injection H as <-. apply (Hkids k1); [left; reflexivity | exact Hm].
    + injection H as <-. apply in_nodes_inner in Hm as [-> | [k [Hk Hm]]].
      * cbn [system_representation] in Hs. injection Hs as <-. congruence.
      * apply (Hkids k); assumption.
  - injection H as <-. apply in_nodes_inner in Hm as [-> | [k [Hk Hm]]].
    + cbn. discriminate.
    + apply (Hkids k); assumption.
Qed.

End WrapperFacts.

(** In a plan built from rows, no node made from a Parallelism row has
    exactly one child: such a row is left out and its only child takes its
    place. *)
Theorem parallelism_wrappers_are_left_out
  (fuel : nat) (rows : list (list pyval)) (n m : PlanNode) (info : SQLServerParser.entry) :
  SQLServerParser._build_from_rows fuel rows = Ok n ->
  In m (nodes n) ->
  system_representation m = SysJson (PDict info) ->
  SQLServerRaw.is_parallelism info = true ->
  List.length (children m) <> 1%nat.
Proof.
  unfold SQLServerParser._build_from_rows. intros H.
  bind_inv H as node_map Emap. bind_inv H as linked El. destruct linked as [cm root].
  match type of H with
  | match ?r with Some _ => _ | None => _ end = _ =>
      destruct r as [rid |]; [| discriminate]
  end.
  eapply WrapperFacts.build_node_wrappers. exact H.
Qed.

Lemma parallelism_wrappers_are_left_out_witness :
  List.length (children Gather.gather) <> 1%nat.
Proof.
  apply (parallelism_wrappers_are_left_out 2 Gather.rows Gather.gather Gather.gather
           (SQLServerParser.entry_of Gather.gather_row)).
  - reflexivity.
  - left. reflexivity.
  - reflexivity.
  - reflexivity.
Defined.

(** ** The ids of a whole ClickHouse plan *)

(** In the plan [parse_json_plan] returns for a payload none of whose raw
    nodes brings an id, all operator ids are distinct, the id -1 of the
    synthetic root included, provided the counter of the parser is not
    negative, as it is for a parser that has just been made. *)
Theorem parsed_plan_ids_are_distinct
  (fuel : nat) (self self' : ClickHouseParser.t) (query : string) (json_plan plan_root : pyval)
  (qp : QueryPlan) :
  0 <= ClickHouseParser.op_counter self ->
  ClickHouseParser.plan_root_of json_plan = Ok plan_root ->
  (forall r, ClickHouseRaw.below plan_root r -> ClickHouseIds.anonymous r = true) ->
  ClickHouseParser.parse_json_plan fuel self query json_plan = Ok (qp, self') ->
  NoDup (operator_ids (plan qp)).
Proof.
  intros Hc Hroot Ha H. unfold ClickHouseParser.parse_json_plan in H.
  rewrite Hroot in H. cbn [bind] in H. bind_inv H as r Er. destruct r as [p s1].
  injection H as <- _. cbn [plan].
  destruct (CounterFacts.build_initial_plan_advances _ _ _ _ _ Er) as [_ [_ U]].
  destruct (U Ha) as [N W].
  rewrite CounterFacts.operator_ids_inner. cbn [flat_map operator_id]. rewrite app_nil_r.
  constructor; [| exact N]. intros Hin.
  pose proof (CounterFacts.within_In _ _ _ _ W Hin). lia.
Qed.

Lemma parsed_plan_ids_are_distinct_witness :
  NoDup (operator_ids
           (InnerNode (Result (PInt (-1))) None None
              [InnerNode (CustomOperator (PStr "Limit") (PInt 0) PNone) None None
                 [LeafNode (TableScan (PInt 2) PNone PNone PNone) None None SysNone] SysNone]
              (SysText "// added by benchy"))).
Proof.
  apply (parsed_plan_ids_are_distinct 2 (ClickHouseParser.mk false 0)
           (ClickHouseParser.mk false 3) "SELECT 1"
           (PDict [("Plan", limit_over_read)]) limit_over_read
           (mkQueryPlan "SELECT 1"
              (InnerNode (Result (PInt (-1))) None None
                 [InnerNode (CustomOperator (PStr "Limit") (PInt 0) PNone) None None
                    [LeafNode (TableScan (PInt 2) PNone PNone PNone) None None SysNone] SysNone]
                 (SysText "// added by benchy")))).
  - discriminate.
  - reflexivity.
  - assert (Hread : forall r, ClickHouseRaw.below Inputs.read_node r ->
                              ClickHouseIds.anonymous r = true).
    { intros r Hr. inversion Hr as [| j0 c r0 Hc _]; subst; [reflexivity |].
      destruct Hc as [Hc | [items [Hi Hin]]]; [discriminate |].
      injection Hi as <-. destruct Hin. }
    intros r Hr. inversion Hr as [| j0 c r0 Hc Hb]; subst; [reflexivity |].
    destruct Hc as [Hc | [items [Hi Hin]]].
    + injection Hc as <-. apply Hread. exact Hb.
    + injection Hi as <-. destruct Hin as [<- | []]. apply Hread. exact Hb.
  - reflexivity.
Defined.

(** ** Every node with the raw node it was built from *)

Lemma build_each_Forall2 {S A B : Type} (f : S -> A -> result (B * S)) :
  forall items self ys self',
    build_each f self items = Ok (ys, self') ->
    Forall2 (fun x y => exists s1 s2, f s1 x = Ok (y, s2)) items ys.
Proof.
  induction items as [| x rest IH]; cbn [build_each]; intros self ys self' H.
  - injection H as <- _. constructor.
  - bind_inv H as r1 E1. destruct r1 as [y s1].
    bind_inv H as r2 E2. destruct r2 as [ys' s2]. injection H as <- _.
    constructor; [eauto | eapply IH; exact E2].
Qed.

Lemma fill_is_limit (op op' : QueryOperator) (plan : pyval) (dbms_type : DBMSType) :
  fill op plan dbms_type = Ok op' ->
  ClickHouseParser.is_limit op' = ClickHouseParser.is_limit op.
Proof.
  destruct op, dbms_type; cbn [fill]; intros H;
    repeat match type of H with
           | bind _ _ = Ok _ => let v := fresh "v" in let E := fresh "E" in bind_inv H as v E
           | (let (_, _) := ?p in _) = Ok _ => destruct p
           | (if ?b then _ else _) = Ok _ => destruct b
           end;
    injection H as <-; reflexivity.
Qed.

Module SourceFacts.
Import ClickHouseParser ClickHouseSource.

Lemma is_limit_any_id (operator_name id id' : pyval) :
  is_limit (create_empty_operator operator_name id)
  = is_limit (create_empty_operator operator_name id').
Proof.
  unfold create_empty_operator.
  repeat match goal with |- context [if ?b then _ else _] => destruct b end; reflexivity.
Qed.

Lemma is_limit_not_sort (op : QueryOperator) :
  is_limit op = true ->
  OperatorType.eqb (operator_type op) OperatorType.Sort = false.
Proof. destruct op; cbn; try discriminate. reflexivity. Qed.

Lemma set_limit_type (op : QueryOperator) (v : pyval) :
  operator_type (set_limit op v) = operator_type op.
Proof. destruct op; reflexivity. Qed.

Lemma spliced_set_limit (j : pyval) (n : PlanNode) (v : pyval) :
  spliced j (set_operator n (set_limit (operator n) v)) = spliced j n.
Proof.
  unfold spliced. destruct n as [o e x s | o e x k s]; cbn [set_operator operator];
    rewrite set_limit_type; reflexivity.
Qed.

Lemma children_set_operator (n : PlanNode) (op : QueryOperator) :
  children (set_operator n op) = children n.
Proof. destruct n; reflexivity. Qed.

Lemma each_node_set_limit (P : pyval -> PlanNode -> Prop) :
  (forall r m v, P r m -> P r (set_operator m (set_limit (operator m) v))) ->
  forall c n v,
    each_node P c n -> each_node P c (set_operator n (set_limit (operator n) v)).
Proof.
  intros Hset c n v H. induction H as [j c n Hs Hc _ IH | j n items Hs HP Hi Hkids].
  - eapply each_spliced; [rewrite spliced_set_limit; exact Hs | exact Hc | exact IH].
  - eapply each_kept; [rewrite spliced_set_limit; exact Hs | apply Hset; exact HP | exact Hi |].
    rewrite children_set_operator. exact Hkids.
Qed.

Section Build.
Variable P : pyval -> PlanNode -> Prop.
Hypothesis P_built :
  forall j n e x items,
    spliced j n = false ->
    _extract_cardinalities j = Ok (e, x) ->
    estimated_cardinality n = e ->
    exact_cardinality n = x ->
    Py.iter (_extract_children j) = Ok items ->
    (is_leaf n = true <-> items = []) ->
    Forall2 built_for items (children n) ->
    P j n.
Hypothesis P_set_limit :
  forall r m v, P r m -> P r (set_operator m (set_limit (operator m) v)).

(** The end of [build_initial_plan], from the parser [self2] on. *)
Lemma tail_each_node (fuel : nat) (self2 self' : t) (j : pyval) (n : PlanNode)
  (op : QueryOperator) (e x : option Z) (s : sysrep) :
  (forall s0 c n0 s0', build_initial_plan fuel s0 c = Ok (n0, s0') -> each_node P c n0) ->
  wrapper j = false ->
  (limit j && OperatorType.eqb (operator_type op) OperatorType.Sort = false)%bool ->
  _extract_cardinalities j = Ok (e, x) ->
  (leaf <- is_leaf_operator j ;;
   if leaf then Ok (LeafNode op e x s, self2)
   else
     items <- Py.iter (_extract_children j) ;;
     ' (children, self3) <- build_each (build_initial_plan fuel) self2 items ;;
     Ok (InnerNode op e x children s, self3)) = Ok (n, self') ->
  each_node P j n.
Proof.
  intros IH Hw Hl Hcards H. bind_inv H as lf El.
  unfold is_leaf_operator in El. bind_inv El as len Elen. injection El as <-.
  destruct (Nat.eqb_spec len 0) as [-> | Hne].
  - injection H as <- <-. destruct (len_zero _ Elen) as [_ [_ Hi]].
    assert (Hs : spliced j (LeafNode op e x s) = false)
      by (unfold spliced; cbn [operator]; rewrite Hw, Hl; reflexivity).
    eapply each_kept; [exact Hs | | exact Hi | constructor].
    eapply P_built; try eassumption; try reflexivity.
    + split; reflexivity.
    + constructor.
  - bind_inv H as items Ei. bind_inv H as r Er. destruct r as [kids s3].
    injection H as <- <-.
    assert (Hs : spliced j (InnerNode op e x kids s) = false)
      by (unfold spliced; cbn [operator]; rewrite Hw, Hl; reflexivity).
    pose proof (build_each_Forall2 _ _ _ _ _ Er) as Hall.
    eapply each_kept; [exact Hs | | exact Ei |].
    + eapply P_built; try eassumption; try reflexivity.
      * split; [discriminate |]. intros ->.
        pose proof (iter_len _ _ _ Ei Elen) as Hlen. cbn in Hlen. congruence.
      * cbn [children]. eapply Forall2_impl; [| exact Hall].
        intros c k [s1 [s2 Hb]]. exists fuel, s1, s2. exact Hb.
    + cbn [children]. eapply Forall2_impl; [| exact Hall].
      intros c k [s1 [s2 Hb]]. eapply IH. exact Hb.
Qed.

Lemma build_each_node :
  forall fuel self j n self',
    build_initial_plan fuel self j = Ok (n, self') -> each_node P j n.
Proof.
  induction fuel as [| fuel IH]; intros self j n self'; [discriminate |].
  rewrite ClickHouseFacts.build_initial_plan_unfold. cbv zeta.
  destruct (_extract_operator_id self j) as [id self1] eqn:Eid.
  destruct (Str.startswith (Str.lower (Py.str (_extract_operator_name j))) "expression")
    eqn:Eexpr; cbn [andb].
  - destruct (Py.truthy (_extract_children j)) eqn:Ekids.
    + intros H. bind_inv H as c Ec.
      eapply each_spliced; [| exact Ec | eapply IH; exact H].
      unfold spliced, wrapper. rewrite Eexpr, Ekids. reflexivity.
    + intros H. bind_inv H as op Eop. bind_inv H as cards Ecards. destruct cards as [e x].
      bind_inv H as sr Esr. rewrite andb_false_r in H.
      bind_inv H as early Ee. injection Ee as <-.
      eapply tail_each_node; [exact IH | | | exact Ecards | exact H].
      * unfold wrapper. rewrite Ekids. apply andb_false_r.
      * unfold limit. rewrite Ekids, andb_false_r. reflexivity.
  - intros H. bind_inv H as op Eop. bind_inv H as cards Ecards. destruct cards as [e x].
    bind_inv H as sr Esr. bind_inv H as early Ee. destruct early as [mg self2].
    assert (Hw : wrapper j = false) by (unfold wrapper; rewrite Eexpr; reflexivity).
    assert (Hlim : is_limit (create_empty_operator (_extract_operator_name j) PNone)
                   = is_limit op)
      by (rewrite (fill_is_limit _ _ _ _ Eop); apply is_limit_any_id).
    destruct (is_limit op && Py.truthy (_extract_children j)) eqn:Elim.
    + bind_inv Ee as c Ec. bind_inv Ee as r Er. destruct r as [mc s2].
      apply andb_prop in Elim as [Eop_lim Ekids].
      destruct (OperatorType.eqb (operator_type (operator mc)) OperatorType.Sort) eqn:Esort.
      * injection Ee as <- <-. injection H as <- <-.
        assert (Hmerged : each_node P c (merge_limit op mc)).
        { unfold merge_limit. destruct (negb (Py.is_none (limit_of op)));
            [apply each_node_set_limit; [exact P_set_limit |] |]; eapply IH; exact Er. }
        eapply each_spliced; [| exact Ec | exact Hmerged].
        unfold spliced, limit. rewrite Hlim, Eop_lim, Ekids.
        assert (Ht : operator_type (operator (merge_limit op mc))
                     = operator_type (operator mc)).
        { unfold merge_limit. destruct (negb (Py.is_none (limit_of op))); [| reflexivity].
          destruct mc as [o0 e0 x0 s0 | o0 e0 x0 k0 s0]; cbn [set_operator operator];
            apply set_limit_type. }
        rewrite Ht, Esort. apply orb_true_r.
      * injection Ee as <- <-.
        eapply tail_each_node; [exact IH | exact Hw | | exact Ecards | exact H].
        rewrite (is_limit_not_sort _ Eop_lim). apply andb_false_r.
    + injection Ee as <- <-.
      eapply tail_each_node; [exact IH | exact Hw | | exact Ecards | exact H].
      unfold limit. rewrite Hlim, Elim. reflexivity.
Qed.

End Build.

Lemma shape_set_limit (r : pyval) (m : PlanNode) (v : pyval) :
  shape r m -> shape r (set_operator m (set_limit (operator m) v)).
Proof.
  intros [items [Hi [Hl Hk]]]. exists items. rewrite children_set_operator.
  split; [exact Hi | split; [| exact Hk]]. destruct m as [o e x s | o e x k s]; exact Hl.
Qed.

Lemma cardinalities_set_limit (r : pyval) (m : PlanNode) (v : pyval) :
  cardinalities r m -> cardinalities r (set_operator m (set_limit (operator m) v)).
Proof.
  intros [e [x [He [Hx Hr]]]]. exists e, x. split; [exact He | split; [exact Hx |]].
  eapply cardinality_rule_ext; [| | exact Hr]; destruct m as [o e0 x0 s | o e0 x0 k s];
    reflexivity.
Qed.

End SourceFacts.

Module RelOpSourceFacts.
Import SQLServerParser RelOpSource.

Section Build.
Variable P : Element -> PlanNode -> Prop.
Hypothesis P_built :
  forall e n,
    estimated_cardinality n = SQLServerRaw.estimated e ->
    exact_cardinality n
    = default_exact (SQLServerRaw.estimated e) (SQLServerRaw.exact e) ->
    (is_leaf n = true <-> _extract_children e = []) ->
    Forall2 built_for (_extract_children e) (children n) ->
    P e n.

Lemma build_each_relop :
  forall fuel self e n self',
    build_relop fuel self e = Ok (n, self') -> each_relop P e n.
Proof.
  induction fuel as [| fuel IH]; intros self e n self' H; [discriminate |].
  apply SQLServerFacts.build_relop_inv in H.
  destruct H as [op s Hk -> | op s kids Hk Hb ->].
  - apply each_relop_kept; [| rewrite Hk; constructor].
    apply P_built; try reflexivity.
    + split; [intros _; exact Hk | reflexivity].
    + rewrite Hk. constructor.
  - pose proof (build_each_Forall2 _ _ _ _ _ Hb) as Hall.
    apply each_relop_kept.
    + apply P_built; try reflexivity.
      * split; [discriminate | intros Hnil; contradiction].
      * cbn [children]. eapply Forall2_impl; [| exact Hall].
        intros c k [s1 [s2 Hc]]. exists fuel, s1, s2. exact Hc.
    + cbn [children]. eapply Forall2_impl; [| exact Hall].
      intros c k [s1 [s2 Hc]]. eapply IH. exact Hc.
Qed.

End Build.

End RelOpSourceFacts.

Module RowSourceFacts.
Import SQLServerParser SQLServerRaw RowSource.

Section Build.
Variable node_map : list (Z * entry).
Variable children_map : list (Z * list Z).

(** A return of [build_node]: the node of the only child of a parallelism
    row, or a node made of the row itself. *)
Lemma build_node_cases (fuel : nat) (node_id : Z) (n : PlanNode) :
  build_node (S fuel) node_map children_map node_id = Ok n ->
  (spliced node_map children_map node_id = true /\
   exists cid,
     children_ids children_map node_id = [cid] /\
     build_node fuel node_map children_map cid = Ok n) \/
  (spliced node_map children_map node_id = false /\
   exists info,
     zlookup node_id node_map = Some info /\
     estimated_cardinality n = row_estimated info /\
     exact_cardinality n = default_exact (row_estimated info) (row_exact info) /\
     (is_leaf n = true <-> children_ids children_map node_id = []) /\
     Forall2 (fun cid k => build_node fuel node_map children_map cid = Ok k)
       (children_ids children_map node_id) (children n)).
Proof.
  intros H. cbn [build_node] in H.
  destruct (zlookup node_id node_map) as [info |] eqn:Einfo; [| discriminate].
  match type of H with
  | bind (_annotate_join_or_agg _ _ ?pi) _ = _ =>
      assert (Hp0 : SQLServerRawAux.starts_with_physical (Py.dget info "PhysicalOp") pi)
        by (destruct (_extract_top_limit _);
            [apply SQLServerFacts.set_keeps_physical; [reflexivity |] |]; eexists; reflexivity)
  end.
  bind_inv H as pi1 Ea.
  pose proof (SQLServerFacts.object_keeps_physical _ _
                (SQLServerFacts.annotate_keeps_physical _ _ _ _ _ Ea Hp0)) as Hp.
  bind_inv H as name En. bind_inv H as op0 E0. bind_inv H as op Eop.
  bind_inv H as kids Ek. apply each_Forall2 in Ek.
  fold (children_ids children_map node_id) in Ek.
  fold (row_estimated info) in H. fold (row_exact info) in H.
  assert (Hphys :
            Str.startswith
              (Str.lower
                 (Py.str
                    (Py.dget_default (_annotate_object_from_argument pi1) "PhysicalOp" (PStr ""))))
              "parallelism" = is_parallelism info)
    by (destruct Hp as [rest ->]; reflexivity).
  rewrite Hphys in H. unfold spliced. rewrite Einfo.
  destruct kids as [| k [| k2 more]].
  - injection H as <-. inversion Ek as [Hids |]. right.
    split; [rewrite <- ?Hids; apply andb_false_r |].
    exists info. rewrite <- ?Hids. repeat split; try reflexivity. constructor.
  - inversion Ek as [| cid k' ids ks Hk Hrest Hids]; subst.
    inversion Hrest; subst.
    destruct (is_parallelism info) eqn:Epar.
    + injection H as <-. left. split; [rewrite <- ?Hids; reflexivity |].
      exists cid. split; [rewrite <- ?Hids; reflexivity | exact Hk].
    + injection H as <-. right. split; [reflexivity |].
      exists info. rewrite <- ?Hids. repeat split; try reflexivity; try discriminate.
      cbn [children]. constructor; [exact Hk | constructor].
  - injection H as <-. right.
    assert (Hlen : (List.length (children_ids children_map node_id) =? 1)%nat = false).
    { inversion Ek as [| c1 k1' ids1 ks1 _ Hrest Hids]; subst.
      inversion Hrest; subst. reflexivity. }
    split; [rewrite Hlen; apply andb_false_r |].
    exists info. repeat split; try reflexivity; try discriminate.
    + inversion Ek; subst. discriminate.
    + exact Ek.
Qed.

Variable P : Z -> PlanNode -> Prop.
Hypothesis P_built :
  forall node_id n info,
    spliced node_map children_map node_id = false ->
    zlookup node_id node_map = Some info ->
    estimated_cardinality n = row_estimated info ->
    exact_cardinality n = default_exact (row_estimated info) (row_exact info) ->
    (is_leaf n = true <-> children_ids children_map node_id = []) ->
    Forall2 (built_for node_map children_map) (children_ids children_map node_id)
      (children n) ->
    P node_id n.

Lemma build_each_row :
  forall fuel node_id n,
    build_node fuel node_map children_map node_id = Ok n ->
    each_row node_map children_map P node_id n.
Proof.
  induction fuel as [| fuel IH]; intros node_id n H; [discriminate |].
  destruct (build_node_cases _ _ _ H)
    as [[Hs [cid [Hids Hb]]] | [Hs [info [Hl [He [Hx [Hleaf Hall]]]]]]].
  - eapply each_row_spliced; [exact Hs | exact Hids | eapply IH; exact Hb].
  - apply each_row_kept; [exact Hs | |].
    + eapply P_built; try eassumption.
      eapply Forall2_impl; [| exact Hall]. intros c k Hc. exists fuel. exact Hc.
    + eapply Forall2_impl; [| exact Hall]. intros c k Hc. eapply IH. exact Hc.
Qed.

End Build.

End RowSourceFacts.

(** C8: in the plan a builder returns, every node is a leaf exactly when the
    children extraction on the raw node it was built from yields nothing, and
    is otherwise an inner node whose children are the nodes built for the
    extracted raw children, one each and in order.  A node was built from
    the raw node the builder was called with, except across an elision (an
    expression wrapper with children, a parallelism row with exactly one
    child) and a merge (a Limit in whose place a [Sort] is returned): there
    the node returned was built from the first child, or below it.  This
    holds in the ClickHouse parser and in both shapes of the SQL Server
    parser. *)
Theorem leaf_iff_no_raw_children :
  (forall fuel self j n self',
      ClickHouseParser.build_initial_plan fuel self j = Ok (n, self') ->
      ClickHouseSource.each_node ClickHouseSource.shape j n) /\
  (forall fuel self e n self',
      SQLServerParser.build_relop fuel self e = Ok (n, self') ->
      RelOpSource.each_relop RelOpSource.shape e n) /\
  (forall fuel node_map children_map node_id n,
      SQLServerParser.build_node fuel node_map children_map node_id = Ok n ->
      RowSource.each_row node_map children_map (RowSource.shape node_map children_map)
        node_id n).
Proof.
  split; [| split].
  - apply SourceFacts.build_each_node.
    + intros j n e x items _ _ _ _ Hi Hl Hk. exists items. auto.
    + apply SourceFacts.shape_set_limit.
  - apply RelOpSourceFacts.build_each_relop.
    intros e n _ _ Hl Hk. split; assumption.
  - intros fuel node_map children_map. apply RowSourceFacts.build_each_row.
    intros node_id n info _ _ _ _ Hl Hk. split; assumption.
Qed.

Lemma leaf_iff_no_raw_children_witness :
  ClickHouseSource.each_node ClickHouseSource.shape Inputs.wrapped_read
    (LeafNode (TableScan (PInt 1) PNone PNone PNone) None None SysNone).
Proof.
  apply (proj1 leaf_iff_no_raw_children 2%nat (ClickHouseParser.mk false 0)
           Inputs.wrapped_read
           (LeafNode (TableScan (PInt 1) PNone PNone PNone) None None SysNone)
           (ClickHouseParser.mk false 2)).
  reflexivity.
Defined.

(** The wrapper of the witness has one raw child, and the leaf returned for
    it was built from that child, which has none. *)
Example elided_wrapper_stands_for_its_child :
  Py.len (ClickHouseParser._extract_children Inputs.wrapped_read) = Ok 1%nat /\
  ClickHouseSource.spliced Inputs.wrapped_read
    (LeafNode (TableScan (PInt 1) PNone PNone PNone) None None SysNone) = true /\
  Py.first (ClickHouseParser._extract_children Inputs.wrapped_read) = Ok Inputs.read_node /\
  Py.len (ClickHouseParser._extract_children Inputs.read_node) = Ok 0%nat /\
  ClickHouseParser.build_initial_plan 2 (ClickHouseParser.mk false 0) Inputs.wrapped_read
  = Ok (LeafNode (TableScan (PInt 1) PNone PNone PNone) None None SysNone,
        ClickHouseParser.mk false 2).
Proof. repeat split. Qed.

(** C7: in a plan that either parser returns, the cardinalities of every
    node follow from what the raw node it was built from offers: the node's
    estimate is the raw estimate; when the raw node has no exact cardinality
    the node's exact cardinality equals its estimated one, and both are
    absent when the raw estimate is absent as well.  The synthetic root takes
    both cardinalities from its child. *)
Theorem exact_cardinality_defaults_to_estimated :
  (forall fuel self query json_plan qp self',
      ClickHouseParser.parse_json_plan fuel self query json_plan = Ok (qp, self') ->
      exists plan_root child,
        ClickHouseParser.plan_root_of json_plan = Ok plan_root /\
        plan qp = result_root child /\
        ClickHouseSource.each_node ClickHouseSource.cardinalities plan_root child /\
        forall m, In m (nodes (plan qp)) ->
          exists r e x,
            ClickHouseRaw.below plan_root r /\
            ClickHouseRaw.estimated r = Ok e /\ ClickHouseRaw.exact r = Ok x /\
            cardinality_rule e x m) /\
  (forall fuel self query doc qp self',
      SQLServerParser.parse_json_plan fuel self query (XmlText (Some doc)) = Ok (qp, self') ->
      exists relop child,
        ET.find_descendant "RelOp" doc = Some relop /\
        plan qp = result_root child /\
        RelOpSource.each_relop RelOpSource.cardinalities relop child /\
        forall m, In m (nodes (plan qp)) ->
          exists r,
            SQLServerRaw.below relop r /\
            cardinality_rule (SQLServerRaw.estimated r) (SQLServerRaw.exact r) m) /\
  (forall fuel self query rows qp self',
      SQLServerParser.parse_json_plan fuel self query (Rows rows) = Ok (qp, self') ->
      exists node_map children_map root root_id child,
        SQLServerParser.node_map_of (SQLServerParser.plan_rows rows) [] = Ok node_map /\
        SQLServerParser.link node_map (map (fun kv => (fst kv, @nil Z)) node_map) None
        = Ok (children_map, root) /\
        match root, node_map with
        | None, (k0, _) :: _ => Some (SQLServerParser.min_key k0 node_map)
        | _, _ => root
        end = Some root_id /\
        (forall nid info,
            SQLServerParser.zlookup nid node_map = Some info ->
            In info (SQLServerParser.plan_rows rows)) /\
        plan qp = result_root child /\
        RowSource.each_row node_map children_map (RowSource.cardinalities node_map)
          root_id child /\
        forall m, In m (nodes (plan qp)) ->
          exists info,
            In info (SQLServerParser.plan_rows rows) /\
            cardinality_rule (SQLServerRaw.row_estimated info) (SQLServerRaw.row_exact info)
              m).
Proof.
  assert (Hroot : forall child m,
             In m (nodes (result_root child)) ->
             exists m', In m' (nodes child) /\
                        estimated_cardinality m = estimated_cardinality m' /\
                        exact_cardinality m = exact_cardinality m').
  { intros child m Hm. apply in_nodes_inner in Hm as [-> | [k [[<- | []] Hm]]].
    - exists child. split; [apply in_nodes_self | auto].
    - exists m. auto. }
  split; [| split].
  - intros fuel self query json_plan qp self' H.
    unfold ClickHouseParser.parse_json_plan in H.
    bind_inv H as plan_root Er. bind_inv H as r Eb. destruct r as [child s1].
    injection H as <- <-. cbn [plan].
    exists plan_root, child. split; [exact Er |]. split; [reflexivity |]. split.
    + eapply SourceFacts.build_each_node; [| apply SourceFacts.cardinalities_set_limit | exact Eb].
      intros j n e x items _ Hcards He Hx _ _ _.
      destruct (CardinalityFacts.clickhouse_cardinalities _ _ _ Hcards) as [x0 [H1 [H2 Hd]]].
      exists e, x0. split; [exact H1 | split; [exact H2 |]].
      apply cardinality_rule_intro; [exact He | rewrite Hx; exact Hd].
    + intros m Hm. destruct (Hroot _ _ Hm) as [m' [Hin [He Hx]]].
      destruct (CardinalityFacts.clickhouse_nodes _ _ _ _ _ Eb m' Hin)
        as [r [e [x [Hr [H1 [H2 H3]]]]]].
      exists r, e, x. repeat (split; [assumption |]).
      eapply cardinality_rule_ext; eauto.
  - intros fuel self query doc qp self' H.
    unfold SQLServerParser.parse_json_plan in H.
    bind_inv H as r Eb. destruct r as [child s1]. injection H as <- <-. cbn [plan].
    destruct (ET.find_descendant "RelOp" doc) as [relop |] eqn:Ef; [| discriminate].
    exists relop, child. split; [reflexivity |]. split; [reflexivity |]. split.
    + eapply RelOpSourceFacts.build_each_relop; [| exact Eb].
      intros e n He Hx _ _. apply cardinality_rule_intro; assumption.
    + intros m Hm. destruct (Hroot _ _ Hm) as [m' [Hin [He Hx]]].
      destruct (CardinalityFacts.relop_nodes _ _ _ _ _ Eb m' Hin) as [r [Hr H3]].
      exists r. split; [exact Hr |]. eapply cardinality_rule_ext; eauto.
  - intros fuel self query rows qp self' H.
    unfold SQLServerParser.parse_json_plan in H.
    bind_inv H as r Eb. destruct r as [child s1]. injection H as <- <-. cbn [plan].
    bind_inv Eb as p Ep. injection Eb as <- _.
    unfold SQLServerParser._build_from_rows in Ep.
    bind_inv Ep as node_map En. bind_inv Ep as r El. destruct r as [children_map root].
    match type of Ep with
    | match ?rid with _ => _ end = _ => destruct rid as [rt |] eqn:Ert; [| discriminate]
    end.
    assert (Hrows : forall nid info,
               SQLServerParser.zlookup nid node_map = Some info ->
               In info (SQLServerParser.plan_rows rows)).
    { intros nid info Hl.
      destruct (CardinalityFacts.node_map_items _ _ _ En _ _ Hl) as [Hi | Hi];
        [exact Hi | discriminate]. }
    exists node_map, children_map, root, rt, p.
    split; [exact En |]. split; [exact El |]. split; [exact Ert |].
    split; [exact Hrows |]. split; [reflexivity |]. split.
    + eapply RowSourceFacts.build_each_row; [| exact Ep].
      intros node_id n info _ Hl He Hx _ _. exists info. split; [exact Hl |].
      apply cardinality_rule_intro; assumption.
    + intros m Hm. destruct (Hroot _ _ Hm) as [m' [Hin [He Hx]]].
      destruct (CardinalityFacts.row_nodes _ _ _ _ _ Ep m' Hin) as [nid [info [Hl H3]]].
      exists info. split; [eapply Hrows; exact Hl |].
      eapply cardinality_rule_ext; eauto.
Qed.

Lemma exact_cardinality_defaults_to_estimated_witness :
  exists node_map children_map root root_id child,
    SQLServerParser.node_map_of (SQLServerParser.plan_rows Inputs.sort_over_scan) []
    = Ok node_map /\
    SQLServerParser.link node_map (map (fun kv => (fst kv, @nil Z)) node_map) None
    = Ok (children_map, root) /\
    match root, node_map with
    | None, (k0, _) :: _ => Some (SQLServerParser.min_key k0 node_map)
    | _, _ => root
    end = Some root_id /\
    (forall nid info,
        SQLServerParser.zlookup nid node_map = Some info ->
        In info (SQLServerParser.plan_rows Inputs.sort_over_scan)) /\
    plan Outputs.sort_over_scan = result_root child /\
    RowSource.each_row node_map children_map (RowSource.cardinalities node_map)
      root_id child /\
    forall m, In m (nodes (plan Outputs.sort_over_scan)) ->
      exists info,
        In info (SQLServerParser.plan_rows Inputs.sort_over_scan) /\
        cardinality_rule (SQLServerRaw.row_estimated info) (SQLServerRaw.row_exact info) m.
Proof.
  apply (proj2 (proj2 exact_cardinality_defaults_to_estimated) 2%nat
           (SQLServerParser.mk false 0) "SELECT 1" Inputs.sort_over_scan
           Outputs.sort_over_scan (SQLServerParser.mk false 0)).
  reflexivity.
Defined.
